(** * GearGo server actions: admin dashboard, test-drive bookings,
      car listing and wishlist

    A shallow embedding of

    - [src/actions/admin.js]   (module [AdminJs]),
    - [src/unnamed/part_000]   (module [AdminTs], the TypeScript variant of
                                 the same four admin actions),
    - [src/unnamed/part_001]   (module [CarListing]),

    over an explicit model of the persistence store (tables as lists of
    rows), of the identity provider (the session's user id) and of the
    JavaScript values the actions compute with. *)

From Stdlib Require Import ZArith QArith List String Ascii Bool Lia.
From Stdlib Require Import SpecFloat.
From stdpp Require Import base option list sorting strings gmap.

Local Open Scope string_scope.
Local Open Scope Z_scope.
Local Open Scope list_scope.

(* ===================================================================== *)
(** * JavaScript values                                                   *)
(* ===================================================================== *)

Module Js.

(** A JS number is an IEEE-754 binary64 value. *)
Definition number : Type := spec_float.
Definition prec : Z := 53.
Definition emax : Z := 1024.

(** The double nearest to an integer (exact below 2^53). *)
Definition of_Z (z : Z) : number := binary_normalize prec emax z 0 false.

(** The double nearest to a rational, ties to even: what reading a
    decimal numeral yields. *)
Definition of_Q (q : Q) : number :=
  match Qnum q with
  | Z0 => S754_zero false
  | Zpos n =>
      let '(m, e, l) := SFdiv_core_binary prec emax (Zpos n) 0 (Zpos (Qden q)) 0 in
      binary_round_aux prec emax false m e l
  | Zneg n =>
      let '(m, e, l) := SFdiv_core_binary prec emax (Zpos n) 0 (Zpos (Qden q)) 0 in
      binary_round_aux prec emax true m e l
  end.

Definition mul : number -> number -> number := SFmul prec emax.
Definition div : number -> number -> number := SFdiv prec emax.
Definition ltb : number -> number -> bool := SFltb.
Definition leb : number -> number -> bool := SFleb.

Definition zero : number := S754_zero false.

(** [Number.MAX_SAFE_INTEGER] is 2^53 - 1. *)
Definition MAX_SAFE_INTEGER : number := of_Z (2 ^ 53 - 1).


Definition is_finite (x : number) : bool :=
  match x with S754_zero _ | S754_finite _ _ _ => true | _ => false end.

(** ToBoolean on a number: false for +0, -0 and NaN. *)
Definition truthy_number (x : number) : bool :=
  match x with
  | S754_zero _ | S754_nan => false
  | _ => true
  end.

(** The argument values the actions receive for a numeric filter. *)
Inductive value : Type :=
| Undefined
| Null
| Num (x : number)
| Str (s : string).

(** ToBoolean. *)
Definition truthy (v : value) : bool :=
  match v with
  | Undefined | Null => false
  | Num x => truthy_number x
  | Str s => negb (String.eqb s "")
  end.

(** A default parameter value [p = d] replaces [undefined] only. *)
Definition default (d v : value) : value :=
  match v with Undefined => d | _ => v end.

(** ** Reading numerals

    Strings are byte strings; the white space recognised is the ASCII
    part of StrWhiteSpaceChar. *)

Definition is_white_space (a : ascii) : bool :=
  let n := N_of_ascii a in
  ((9 <=? n)%N && (n <=? 13)%N) || (n =? 32)%N.

Fixpoint trim_start (s : string) : string :=
  match s with
  | String a r => if is_white_space a then trim_start r else s
  | EmptyString => s
  end.

Fixpoint trim_end (s : string) : string :=
  match s with
  | String a r =>
      let r' := trim_end r in
      if is_white_space a && String.eqb r' "" then "" else String a r'
  | EmptyString => s
  end.

Definition digit_value (radix : Z) (a : ascii) : option Z :=
  let n := Z.of_N (N_of_ascii a) in
  let d :=
    if (48 <=? n) && (n <=? 57) then Some (n - 48)
    else if (97 <=? n) && (n <=? 102) then Some (n - 87)
    else if (65 <=? n) && (n <=? 70) then Some (n - 55)
    else None in
  match d with
  | Some k => if k <? radix then Some k else None
  | None => None
  end.

(** Consumes the longest run of digits: accumulated value, number of
    digits read, rest of the input. *)
Fixpoint read_digits (radix : Z) (s : string) (acc count : Z) : Z * Z * string :=
  match s with
  | String a r =>
      match digit_value radix a with
      | Some d => read_digits radix r (acc * radix + d) (count + 1)
      | None => (acc, count, s)
      end
  | EmptyString => (acc, count, s)
  end.

(** ExponentPart, when one is present: [e] or [E], an optional sign and
    at least one digit. *)
Definition read_exponent (s : string) : Z * string :=
  match s with
  | String a r =>
      if Ascii.eqb a "e" || Ascii.eqb a "E" then
        let '(sgn, r') :=
          match r with
          | String "+" r'' => (1, r'')
          | String "-" r'' => (-1, r'')
          | _ => (1, r)
          end in
        let '(v, c, rest) := read_digits 10 r' 0 0 in
        if c =? 0 then (0, s) else (sgn * v, rest)
      else (0, s)
  | EmptyString => (0, s)
  end.

(** The longest prefix that is a StrUnsignedDecimalLiteral other than
    [Infinity]: its digits [m] and decimal exponent [k] (value m * 10^k),
    and the rest of the input. *)
Definition read_unsigned_decimal (s : string) : option (Z * Z * string) :=
  let '(ip, ic, r1) := read_digits 10 s 0 0 in
  let '(m, fc, r2) :=
    match r1 with
    | String "." r => read_digits 10 r ip 0
    | _ => (ip, 0, r1)
    end in
  if (ic =? 0) && (fc =? 0) then None
  else
    let '(ex, r3) := read_exponent r2 in
    Some (m, ex - fc, r3).

Definition decimal_value (neg : bool) (m k : Z) : number :=
  if m =? 0 then S754_zero neg
  else
    let q := if 0 <=? k then (m * 10 ^ k) # 1 else m # (Z.to_pos (10 ^ (- k))) in
    if neg then SFopp (of_Q q) else of_Q q.

Definition read_sign (s : string) : bool * string :=
  match s with
  | String "-" r => (true, r)
  | String "+" r => (false, r)
  | _ => (false, s)
  end.

(** [parseFloat] on a string: leading white space is skipped and the
    longest prefix that is a StrDecimalLiteral is read; NaN when there is
    none. *)
Definition parseFloat_string (s : string) : number :=
  let '(neg, u) := read_sign (trim_start s) in
  if String.prefix "Infinity" u then S754_infinity neg
  else
    match read_unsigned_decimal u with
    | Some (m, k, _) => decimal_value neg m k
    | None => S754_nan
    end.

Definition read_radix_literal (radix : Z) (s : string) : number :=
  let '(v, c, rest) := read_digits radix s 0 0 in
  if negb (c =? 0) && String.eqb rest "" then of_Z v else S754_nan.

(** ToNumber on a string (StringNumericLiteral): the whole trimmed
    string must be a numeral; the empty string is 0. *)
Definition to_number_string (s : string) : number :=
  let t := trim_end (trim_start s) in
  match t with
  | EmptyString => zero
  | String "0" (String "x" r) | String "0" (String "X" r) => read_radix_literal 16 r
  | String "0" (String "o" r) | String "0" (String "O" r) => read_radix_literal 8 r
  | String "0" (String "b" r) | String "0" (String "B" r) => read_radix_literal 2 r
  | _ =>
      let '(neg, u) := read_sign t in
      if String.eqb u "Infinity" then S754_infinity neg
      else
        match read_unsigned_decimal u with
        | Some (m, k, EmptyString) => decimal_value neg m k
        | _ => S754_nan
        end
  end.

(** [parseFloat(v)] is [parseFloat] of [ToString(v)].  A number prints
    as the shortest numeral that reads back as itself ([-0] prints as
    ["0"]); [null] and [undefined] print as words that start no numeral. *)
Definition parseFloat (v : value) : number :=
  match v with
  | Undefined | Null => S754_nan
  | Num (S754_zero _) => zero
  | Num x => x
  | Str s => parseFloat_string s
  end.

(** ToNumber. *)
Definition to_number (v : value) : number :=
  match v with
  | Undefined => S754_nan
  | Null => zero
  | Num x => x
  | Str s => to_number_string s
  end.

(** [v < y] for a number [y]: the left operand is coerced to a number
    and the comparison is false when it is NaN. *)
Definition lt (v : value) (y : number) : bool := ltb (to_number v) y.

(** ** [x.toFixed(2)] read back with [parseFloat]

    [toFixed(2)] prints the integer [n] for which [n / 100 - x] is as
    close to zero as possible (the larger [n] on a tie), on the absolute
    value of [x], with the sign in front; from 10^21 on it prints as
    [ToString] does. *)
Definition hundredths (m : positive) (e : Z) : Z :=
  if 0 <=? e then Zpos m * 2 ^ e * 100
  else (Zpos m * 200 + 2 ^ (- e)) / 2 ^ (1 - e).

Definition toFixed2_parseFloat (x : number) : number :=
  match x with
  | S754_nan => S754_nan
  | S754_infinity s => S754_infinity s
  | S754_zero _ => zero
  | S754_finite s m e =>
      if leb (of_Z (10 ^ 21)) (S754_finite false m e) then x
      else decimal_value s (hundredths m e) (-2)
  end.

(** ** Strings *)

Definition lower_ascii (a : ascii) : ascii :=
  let n := N_of_ascii a in
  if (65 <=? n)%N && (n <=? 90)%N then ascii_of_N (n + 32) else a.

(** The letters A to Z of a string lowered, every other byte kept. *)
Fixpoint ascii_lowercase (s : string) : string :=
  match s with
  | String a r => String (lower_ascii a) (ascii_lowercase r)
  | EmptyString => EmptyString
  end.

(** A string, held as the bytes of its UTF-8 form, is ASCII text when
    each byte is below 128. *)
Fixpoint is_ascii (s : string) : bool :=
  match s with
  | String a r => (N_of_ascii a <? 128)%N && is_ascii r
  | EmptyString => true
  end.

(** [s.toLowerCase()] applies the case mappings of the Unicode tables the
    engine carries, which are no part of this program.  What is known of
    it here is what it does to ASCII text: the letters A to Z are
    lowered and nothing else changes.  On other text ("ŠKODA") it is
    whatever the engine answers ("škoda"). *)
Class LowerCase : Type := {
  toLowerCase : string -> string;
  toLowerCase_ascii :
    forall s, is_ascii s = true -> toLowerCase s = ascii_lowercase s
}.

(** [s.includes(sub)]. *)
Fixpoint includes (sub s : string) : bool :=
  String.prefix sub s ||
  match s with
  | String _ r => includes sub r
  | EmptyString => false
  end.

End Js.

(* ===================================================================== *)
(** * Data model: the rows of the persistence store                       *)
(* ===================================================================== *)

(** Instants ([Date], [DateTime]) are milliseconds since the epoch. *)
Definition instant : Type := Z.

(** The ISO-8601 text of an instant ([toISOString]) is represented by the
    instant it denotes. *)
Inductive IsoString : Type := Iso (t : instant).
Definition toISOString (t : instant) : IsoString := Iso t.

Module User.
Record t : Type := mk {
  id : string;
  clerkUserId : string;
  role : string;
  name : option string;
  email : string;
  imageUrl : option string;
  phone : option string
}.
End User.

Module Car.
Record t : Type := mk {
  id : string;
  make : string;
  model : string;
  bodyType : string;
  fuelType : string;
  transmission : string;
  price : Q;
  status : string;
  featured : bool;
  description : string;
  createdAt : instant;
  updatedAt : instant
}.
End Car.

Module TestDriveBooking.
Record t : Type := mk {
  id : string;
  carId : string;
  userId : string;
  bookingDate : instant;
  startTime : string;
  endTime : string;
  status : string;
  notes : option string;
  createdAt : instant;
  updatedAt : instant
}.

Definition with_status (st : string) (b : t) : t :=
  mk (id b) (carId b) (userId b) (bookingDate b) (startTime b) (endTime b)
     st (notes b) (createdAt b) (updatedAt b).
End TestDriveBooking.

Module UserSavedCar.
Record t : Type := mk {
  userId : string;
  carId : string;
  savedAt : instant
}.
End UserSavedCar.

Module WorkingHour.
Record t (time : Type) : Type := mk {
  fields : list (string * string);
  createdAt : time;
  updatedAt : time
}.
Arguments mk {time} _ _ _.
Arguments fields {time} _.
Arguments createdAt {time} _.
Arguments updatedAt {time} _.
End WorkingHour.

(** A dealership row with its [workingHours] relation loaded; the columns
    the actions do not touch are carried along in [fields]. *)
Module DealershipInfo.
Record t (time : Type) : Type := mk {
  fields : list (string * string);
  createdAt : time;
  updatedAt : time;
  workingHours : list (WorkingHour.t time)
}.
Arguments mk {time} _ _ _ _.
Arguments fields {time} _.
Arguments createdAt {time} _.
Arguments updatedAt {time} _.
Arguments workingHours {time} _.
End DealershipInfo.

(* ===================================================================== *)
(** * The world the actions run in                                        *)
(* ===================================================================== *)

Inductive Table : Type :=
| UserTable
| CarTable
| TestDriveBookingTable
| UserSavedCarTable
| DealershipInfoTable.

(** What an action does to its collaborators, in program order. *)
Inductive Effect : Type :=
| AuthCall
| DbRead (tbl : Table)
| DbWrite (tbl : Table)
| RevalidatePath (path : string)
| ConsoleError (label : string).

#[global] Instance Table_eq_dec : EqDecision Table.
Proof. solve_decision. Defined.
#[global] Instance Effect_eq_dec : EqDecision Effect.
Proof. solve_decision. Defined.

Record World : Type := mkWorld {
  session : option string;          (* [userId] of [auth()] *)
  user : list User.t;
  car : list Car.t;
  testDriveBooking : list TestDriveBooking.t;
  userSavedCar : list UserSavedCar.t;
  dealershipInfo : list (DealershipInfo.t instant);
  now : instant;
  trace : list Effect
}.

Definition set_trace (tr : list Effect) (w : World) : World :=
  mkWorld (session w) (user w) (car w) (testDriveBooking w) (userSavedCar w)
          (dealershipInfo w) (now w) tr.

Definition set_testDriveBooking (rows : list TestDriveBooking.t) (w : World) : World :=
  mkWorld (session w) (user w) (car w) rows (userSavedCar w)
          (dealershipInfo w) (now w) (trace w).

Definition set_userSavedCar (rows : list UserSavedCar.t) (w : World) : World :=
  mkWorld (session w) (user w) (car w) (testDriveBooking w) rows
          (dealershipInfo w) (now w) (trace w).

(** ** Actions: state passing with thrown errors *)

Inductive Completion (A : Type) : Type :=
| Normal (a : A)
| Throw (message : string).
Arguments Normal {A} a.
Arguments Throw {A} message.

Definition Action (A : Type) : Type := World -> Completion A * World.

Definition ret {A} (a : A) : Action A := fun w => (Normal a, w).

Definition bind {A B} (m : Action A) (k : A -> Action B) : Action B :=
  fun w =>
    match m w with
    | (Normal a, w') => k a w'
    | (Throw e, w') => (Throw e, w')
    end.

Definition throw {A} (message : string) : Action A := fun w => (Throw message, w).

(** [try { body } catch (error) { handler(error.message) }] *)
Definition try_catch {A} (body : Action A) (handler : string -> Action A) : Action A :=
  fun w =>
    match body w with
    | (Normal a, w') => (Normal a, w')
    | (Throw e, w') => handler e w'
    end.

Definition gets {A} (f : World -> A) : Action A := fun w => (Normal (f w), w).
Definition modify (f : World -> World) : Action unit := fun w => (Normal tt, f w).

Definition emit (e : Effect) : Action unit :=
  modify (fun w => set_trace (trace w ++ [e]) w).

Declare Scope action_scope.
Delimit Scope action_scope with action.
Notation "x <- m ;; k" := (bind m (fun x => k))
  (at level 100, m at next level, right associativity) : action_scope.
Notation "m ;; k" := (bind m (fun _ => k))
  (at level 100, right associativity) : action_scope.
Local Open Scope action_scope.

(** The value an action returns and the world it leaves. *)
Definition result {A} (m : Action A) (w : World) : Completion A := fst (m w).
Definition after {A} (m : Action A) (w : World) : World := snd (m w).
(** The effects an action adds to the trace. *)
Definition effects {A} (m : Action A) (w : World) : list Effect :=
  drop (length (trace w)) (trace (after m w)).

(** ** The collaborators *)

(** [auth()] of the identity provider: the session's [userId]. *)
Definition auth : Action (option string) :=
  emit AuthCall ;; gets session.

(** [!userId] *)
Definition no_userId (userId : option string) : bool :=
  match userId with
  | None => true
  | Some s => String.eqb s ""
  end.

(** A read of the store. *)
Definition db_read {A} (tbl : Table) (query : World -> A) : Action A :=
  emit (DbRead tbl) ;; gets query.

(** [revalidatePath(path)] *)
Definition revalidatePath (path : string) : Action unit :=
  emit (RevalidatePath path).

(* ===================================================================== *)
(** * The store's queries                                                 *)
(* ===================================================================== *)

Module Prisma.

(** String conditions; both are used with [mode: "insensitive"], which
    the store decides: the case of the ASCII letters is ignored. *)
Inductive StringFilter : Type :=
| contains (s : string)
| equals (s : string).

Definition string_matches (f : StringFilter) (v : string) : bool :=
  match f with
  | contains s => Js.includes (Js.ascii_lowercase s) (Js.ascii_lowercase v)
  | equals s => String.eqb (Js.ascii_lowercase s) (Js.ascii_lowercase v)
  end.

Definition option_matches (f : StringFilter) (v : option string) : bool :=
  match v with
  | Some s => string_matches f s
  | None => false
  end.

(** ** Cars *)

Inductive CarField : Type := f_make | f_model | f_description.

Definition car_field (f : CarField) (c : Car.t) : string :=
  match f with
  | f_make => Car.make c
  | f_model => Car.model c
  | f_description => Car.description c
  end.

Record PriceFilter : Type := mkPrice {
  gte : Js.number;
  lte : option Js.number
}.

(** The [where] object of a car query; [None] is an absent key. *)
Record CarWhere : Type := mkCarWhere {
  w_status : option string;
  w_OR : option (list (CarField * StringFilter));
  w_make : option StringFilter;
  w_bodyType : option StringFilter;
  w_fuelType : option StringFilter;
  w_transmission : option StringFilter;
  w_price : option PriceFilter
}.

Definition absent_or {A} (p : A -> bool) (o : option A) : bool :=
  match o with
  | Some a => p a
  | None => true
  end.

(** A stored decimal is compared with a numeric bound through the number
    it reads as; a NaN bound matches nothing. *)
Definition price_matches (pf : PriceFilter) (p : Q) : bool :=
  Js.leb (gte pf) (Js.of_Q p) && absent_or (fun hi => Js.leb (Js.of_Q p) hi) (lte pf).

(** The keys of a [where] object are combined with AND. *)
Definition car_matches (w : CarWhere) (c : Car.t) : bool :=
  absent_or (String.eqb (Car.status c)) (w_status w)
  && absent_or (existsb (fun cl => string_matches (snd cl) (car_field (fst cl) c))) (w_OR w)
  && absent_or (fun f => string_matches f (Car.make c)) (w_make w)
  && absent_or (fun f => string_matches f (Car.bodyType c)) (w_bodyType w)
  && absent_or (fun f => string_matches f (Car.fuelType c)) (w_fuelType w)
  && absent_or (fun f => string_matches f (Car.transmission c)) (w_transmission w)
  && absent_or (fun pf => price_matches pf (Car.price c)) (w_price w).

Inductive CarOrderBy : Type :=
| price_asc
| price_desc
| createdAt_desc.

Definition car_leb (o : CarOrderBy) (a b : Car.t) : bool :=
  match o with
  | price_asc => Qle_bool (Car.price a) (Car.price b)
  | price_desc => Qle_bool (Car.price b) (Car.price a)
  | createdAt_desc => Car.createdAt b <=? Car.createdAt a
  end.

(** The matching rows in the requested order (rows that compare equal
    keep their table order). *)
Definition car_sorted (w : CarWhere) (o : CarOrderBy) (rows : list Car.t) : list Car.t :=
  merge_sort (fun a b => Is_true (car_leb o a b)) (List.filter (car_matches w) rows).

(** [take] and [skip]: a negative [skip] is rejected by the store, a
    negative [take] counts from the end of the ordered rows. *)
Definition paginate {A} (take skip : Z) (rows : list A) : option (list A) :=
  if skip <? 0 then None
  else if 0 <=? take then
    Some (firstn (Z.to_nat take) (skipn (Z.to_nat skip) rows))
  else
    Some (rev (firstn (Z.to_nat (- take)) (skipn (Z.to_nat skip) (rev rows)))).

(** [db.car.count({ where })] *)
Definition car_count (w : CarWhere) (rows : list Car.t) : Z :=
  Z.of_nat (length (List.filter (car_matches w) rows)).

(** [db.car.findMany({ where, take, skip, orderBy })] *)
Definition car_findMany (w : CarWhere) (take skip : Z) (o : CarOrderBy)
    (rows : list Car.t) : option (list Car.t) :=
  paginate take skip (car_sorted w o rows).

(** [db.car.findUnique({ where: { id } })] *)
Definition car_findUnique (carId : string) (rows : list Car.t) : option Car.t :=
  List.find (fun c => String.eqb (Car.id c) carId) rows.

(** [db.car.findMany({ where: { status }, select: { f }, distinct: [f],
    orderBy: { f: "asc" } })]: the different values of the column among
    the matching rows, in ascending order. *)
Definition car_distinct (st : string) (column : Car.t -> string)
    (rows : list Car.t) : list string :=
  merge_sort (fun a b => Is_true (String.leb a b))
    (remove_dups (map column (List.filter (fun c => String.eqb (Car.status c) st) rows))).

Definition Qleast (a b : Q) : Q := if Qle_bool a b then a else b.
Definition Qgreatest (a b : Q) : Q := if Qle_bool a b then b else a.

Fixpoint aggregate (pick : Q -> Q -> Q) (l : list Q) : option Q :=
  match l with
  | [] => None
  | p :: r =>
      match aggregate pick r with
      | None => Some p
      | Some m => Some (pick p m)
      end
  end.

(** [db.car.aggregate({ where: { status }, _min: { price }, _max: { price } })];
    both are [null] when no row matches. *)
Definition car_aggregate_price (st : string) (rows : list Car.t) : option Q * option Q :=
  let prices := map Car.price (List.filter (fun c => String.eqb (Car.status c) st) rows) in
  (aggregate Qleast prices, aggregate Qgreatest prices).

(** ** Users *)

(** [db.user.findUnique({ where: { clerkUserId } })] *)
Definition user_findUnique (clerkUserId : string) (rows : list User.t) : option User.t :=
  List.find (fun u => String.eqb (User.clerkUserId u) clerkUserId) rows.

Definition user_by_id (userId : string) (rows : list User.t) : option User.t :=
  List.find (fun u => String.eqb (User.id u) userId) rows.

(** ** Test-drive bookings *)

(** [db.testDriveBooking.findUnique({ where: { id } })] *)
Definition booking_findUnique (bookingId : string)
    (rows : list TestDriveBooking.t) : option TestDriveBooking.t :=
  List.find (fun b => String.eqb (TestDriveBooking.id b) bookingId) rows.

(** [db.testDriveBooking.update({ where: { id }, data: { status } })] on
    the rows of the table: the column the action assigns. *)
Definition booking_update (bookingId st : string)
    (rows : list TestDriveBooking.t) : list TestDriveBooking.t :=
  map (fun b => if String.eqb (TestDriveBooking.id b) bookingId
                then TestDriveBooking.with_status st b else b) rows.

(** ** Saved cars *)

Definition same_pair (userId carId : string) (s : UserSavedCar.t) : bool :=
  String.eqb (UserSavedCar.userId s) userId && String.eqb (UserSavedCar.carId s) carId.

(** [db.userSavedCar.findUnique({ where: { userId_carId: { userId, carId } } })] *)
Definition saved_findUnique (userId carId : string)
    (rows : list UserSavedCar.t) : option UserSavedCar.t :=
  List.find (same_pair userId carId) rows.

(** [db.userSavedCar.delete({ where: { userId_carId } })] on the rows. *)
Definition saved_delete (userId carId : string)
    (rows : list UserSavedCar.t) : list UserSavedCar.t :=
  List.filter (fun s => negb (same_pair userId carId s)) rows.

(** [db.userSavedCar.create({ data: { userId, carId } })] on the rows;
    [savedAt] is the time of the insertion. *)
Definition saved_create (userId carId : string) (t : instant)
    (rows : list UserSavedCar.t) : list UserSavedCar.t :=
  rows ++ [UserSavedCar.mk userId carId t].

(** [db.userSavedCar.findMany({ where: { userId } })] *)
Definition saved_of_user (userId : string)
    (rows : list UserSavedCar.t) : list UserSavedCar.t :=
  List.filter (fun s => String.eqb (UserSavedCar.userId s) userId) rows.

End Prisma.

(* ===================================================================== *)
(** * Replies                                                             *)
(* ===================================================================== *)

(** The envelope an action answers with; [None] is [null] or an absent
    key ([message] is only set by [AdminTs.updateTestDriveStatus]). *)
Record Envelope (T : Type) : Type := mkEnvelope {
  success : bool;
  data : option T;
  error : option string;
  message : option string
}.
Arguments mkEnvelope {T} _ _ _ _.
Arguments success {T} _.
Arguments data {T} _.
Arguments error {T} _.
Arguments message {T} _.

Definition succeed {T} (d : T) : Envelope T := mkEnvelope true (Some d) None None.
Definition fail {T} (e : string) : Envelope T := mkEnvelope false None (Some e) None.

Module SerializedCar.
Record t : Type := mk {
  id : string;
  make : string;
  model : string;
  bodyType : string;
  fuelType : string;
  transmission : string;
  price : Js.number;
  status : string;
  featured : bool;
  description : string;
  createdAt : IsoString;
  updatedAt : IsoString;
  wishlisted : bool
}.
End SerializedCar.

(** Modelled from the spec: [serializeCarData] of [@/lib/helpers], which
    is imported by the actions but is not among the sources.  The car is
    copied with its monetary field as a decimal number, its timestamps as
    ISO-8601 strings, and the boolean saved flag it is called with
    ([false] when the argument is left out). *)
Definition serializeCarData (c : Car.t) (wishlisted : bool) : SerializedCar.t :=
  SerializedCar.mk (Car.id c) (Car.make c) (Car.model c) (Car.bodyType c)
    (Car.fuelType c) (Car.transmission c) (Js.of_Q (Car.price c)) (Car.status c)
    (Car.featured c) (Car.description c)
    (toISOString (Car.createdAt c)) (toISOString (Car.updatedAt c)) wishlisted.

(* ===================================================================== *)
(** * Admin actions: what both variants share                             *)
(* ===================================================================== *)

Module Admin.

(** [select: { id, name, email, imageUrl, phone }] *)
Record UserSelect : Type := mkUserSelect {
  u_id : string;
  u_name : option string;
  u_email : string;
  u_imageUrl : option string;
  u_phone : option string
}.

Definition select_user (u : User.t) : UserSelect :=
  mkUserSelect (User.id u) (User.name u) (User.email u) (User.imageUrl u) (User.phone u).

(** A booking with [include: { car: true, user: { select } }]. *)
Record BookingRow : Type := mkBookingRow {
  booking : TestDriveBooking.t;
  b_car : Car.t;
  b_user : UserSelect
}.

Inductive UserField : Type := f_name | f_email.

(** The conditions the two variants put in the [where] of the booking
    query. *)
#[warnings="-register-all"] Inductive Where : Type :=
| w_status (s : string)
| w_car (clauses : list (Prisma.CarField * Prisma.StringFilter))    (* car: { OR } *)
| w_user (clauses : list (UserField * Prisma.StringFilter))         (* user: { OR } *)
| w_OR (ws : list Where)
| w_AND (ws : list Where).

Definition user_field_matches (u : UserSelect) (cl : UserField * Prisma.StringFilter) : bool :=
  match fst cl with
  | f_name => Prisma.option_matches (snd cl) (u_name u)
  | f_email => Prisma.string_matches (snd cl) (u_email u)
  end.

Fixpoint matches (w : Where) (r : BookingRow) : bool :=
  match w with
  | w_status s => String.eqb (TestDriveBooking.status (booking r)) s
  | w_car cls =>
      existsb (fun cl => Prisma.string_matches (snd cl) (Prisma.car_field (fst cl) (b_car r))) cls
  | w_user cls => existsb (user_field_matches (b_user r)) cls
  | w_OR ws => existsb (fun w' => matches w' r) ws
  | w_AND ws => forallb (fun w' => matches w' r) ws
  end.

(** The search condition: the car's make or model, or the user's name
    or email, contains [search]. *)
Definition searchCondition (search : string) : Where :=
  w_OR [ w_car [ (Prisma.f_make, Prisma.contains search);
                 (Prisma.f_model, Prisma.contains search) ];
         w_user [ (f_name, Prisma.contains search);
                  (f_email, Prisma.contains search) ] ].

(** [orderBy: [{ bookingDate: "desc" }, { startTime: "asc" }]] *)
Definition booking_leb (a b : BookingRow) : bool :=
  let da := TestDriveBooking.bookingDate (booking a) in
  let db := TestDriveBooking.bookingDate (booking b) in
  (db <? da) ||
  ((db =? da) &&
   String.leb (TestDriveBooking.startTime (booking a)) (TestDriveBooking.startTime (booking b))).

Definition include (w : World) (b : TestDriveBooking.t) : option BookingRow :=
  match Prisma.car_findUnique (TestDriveBooking.carId b) (car w),
        Prisma.user_by_id (TestDriveBooking.userId b) (user w) with
  | Some c, Some u => Some (mkBookingRow b c (select_user u))
  | _, _ => None
  end.

(** [db.testDriveBooking.findMany({ where, include, orderBy })]; the
    relations are required, a booking whose car or user is missing is
    left out. *)
Definition booking_findMany (wh : Where) (w : World) : list BookingRow :=
  merge_sort (fun a b => Is_true (booking_leb a b))
    (List.filter (matches wh) (omap (include w) (testDriveBooking w))).

Module Formatted.
Record t : Type := mk {
  id : string;
  carId : string;
  car : SerializedCar.t;
  userId : string;
  user : UserSelect;
  bookingDate : IsoString;
  startTime : string;
  endTime : string;
  status : string;
  notes : option string;
  createdAt : IsoString;
  updatedAt : IsoString
}.
End Formatted.

Definition format (r : BookingRow) : Formatted.t :=
  let b := booking r in
  Formatted.mk (TestDriveBooking.id b) (TestDriveBooking.carId b)
    (serializeCarData (b_car r) false)
    (TestDriveBooking.userId b) (b_user r)
    (toISOString (TestDriveBooking.bookingDate b))
    (TestDriveBooking.startTime b) (TestDriveBooking.endTime b)
    (TestDriveBooking.status b) (TestDriveBooking.notes b)
    (toISOString (TestDriveBooking.createdAt b))
    (toISOString (TestDriveBooking.updatedAt b)).

Definition validStatuses : list string :=
  ["PENDING"; "CONFIRMED"; "COMPLETED"; "CANCELLED"; "NO_SHOW"].

(** [validStatuses.includes(newStatus)] *)
Definition includes (l : list string) (s : string) : bool :=
  existsb (String.eqb s) l.

(** [db.testDriveBooking.update]: throws when no row has the id. *)
Definition update_status (bookingId newStatus : string) : Action unit :=
  (emit (DbWrite TestDriveBookingTable) ;;
   rows <- gets testDriveBooking ;;
   match Prisma.booking_findUnique bookingId rows with
   | Some _ => modify (set_testDriveBooking (Prisma.booking_update bookingId newStatus rows))
   | None => throw "Record to update not found."
   end)%action.

(** [select: { id, status, featured }] and [select: { id, status, carId }] *)
Record CarSel : Type := mkCarSel {
  c_id : string;
  c_status : string;
  c_featured : bool
}.

Record TestDriveSel : Type := mkTestDriveSel {
  td_id : string;
  td_status : string;
  td_carId : string
}.

Definition select_car (c : Car.t) : CarSel :=
  mkCarSel (Car.id c) (Car.status c) (Car.featured c).

Definition select_testDrive (b : TestDriveBooking.t) : TestDriveSel :=
  mkTestDriveSel (TestDriveBooking.id b) (TestDriveBooking.status b)
                 (TestDriveBooking.carId b).

Record CarStats : Type := mkCarStats {
  total : nat;
  available : nat;
  sold : nat;
  unavailable : nat;
  featured : nat
}.

Record TestDriveStats : Type := mkTestDriveStats {
  td_total : nat;
  pending : nat;
  confirmed : nat;
  completed : nat;
  cancelled : nat;
  noShow : nat;
  conversionRate : Js.number
}.

Record Dashboard : Type := mkDashboard {
  cars : CarStats;
  testDrives : TestDriveStats
}.

Definition car_is (st : string) (c : CarSel) : bool := String.eqb (c_status c) st.
Definition td_is (st : string) (td : TestDriveSel) : bool := String.eqb (td_status td) st.

(** [l.filter(p).length] *)
Definition count {A} (p : A -> bool) (l : list A) : nat := length (List.filter p l).

Definition of_nat (n : nat) : Js.number := Js.of_Z (Z.of_nat n).

(** [completed > 0 ? (soldAfterTD / completed) * 100 : 0] *)
Definition rate (soldAfterTD completed : nat) : Js.number :=
  if (0 <? completed)%nat
  then Js.mul (Js.div (of_nat soldAfterTD) (of_nat completed)) (Js.of_Z 100)
  else Js.zero.

(** The statistics, given how many sold cars had a completed test drive. *)
Definition stats (carRows : list CarSel) (tdRows : list TestDriveSel)
    (soldAfterTD : nat) : Dashboard :=
  let completed := count (td_is "COMPLETED") tdRows in
  mkDashboard
    (mkCarStats (length carRows)
       (count (car_is "AVAILABLE") carRows)
       (count (car_is "SOLD") carRows)
       (count (car_is "UNAVAILABLE") carRows)
       (count c_featured carRows))
    (mkTestDriveStats (length tdRows)
       (count (td_is "PENDING") tdRows)
       (count (td_is "CONFIRMED") tdRows)
       completed
       (count (td_is "CANCELLED") tdRows)
       (count (td_is "NO_SHOW") tdRows)
       (Js.toFixed2_parseFloat (rate soldAfterTD completed))).

End Admin.

(* ===================================================================== *)
(** * [src/actions/admin.js]                                              *)
(* ===================================================================== *)

Module AdminJs.
Import Admin.

Definition getDbAdmin : Action (option User.t) :=
  userId <- auth ;;
  match userId with
  | None => ret None
  | Some uid =>
      if no_userId userId then ret None
      else
        u <- db_read UserTable (fun w => Prisma.user_findUnique uid (user w)) ;;
        match u with
        | None => ret None
        | Some usr =>
            if negb (String.eqb (User.role usr) "ADMIN") then ret None
            else ret (Some usr)
        end
  end.

Record AdminCheck : Type := mkAdminCheck {
  authorized : bool;
  admin_user : option User.t;
  reason : option string
}.

Definition getAdmin : Action (Envelope AdminCheck) :=
  try_catch
    (admin <- getDbAdmin ;;
     match admin with
     | None => ret (succeed (mkAdminCheck false None (Some "not-admin")))
     | Some a => ret (succeed (mkAdminCheck true (Some a) None))
     end)
    (fun _ => ret (fail "Failed to check admin")).

Definition getAdminTestDrives (search status : string)
    : Action (Envelope (list Formatted.t)) :=
  try_catch
    (admin <- getDbAdmin ;;
     match admin with
     | None => ret (fail "Unauthorized")
     | Some _ =>
         let where_ :=
           w_AND ((if String.eqb status "" then [] else [w_status status])
                  ++ (if String.eqb search "" then [] else [searchCondition search])) in
         bookings <- db_read TestDriveBookingTable (booking_findMany where_) ;;
         ret (succeed (map format bookings))
     end)
    (fun _ => ret (fail "Failed to fetch test drives")).

Definition updateTestDriveStatus (bookingId newStatus : string)
    : Action (Envelope string) :=
  try_catch
    (admin <- getDbAdmin ;;
     match admin with
     | None => ret (fail "Unauthorized")
     | Some _ =>
         booking <- db_read TestDriveBookingTable
                      (fun w => Prisma.booking_findUnique bookingId (testDriveBooking w)) ;;
         match booking with
         | None => ret (fail "Booking not found")
         | Some _ =>
             if negb (includes validStatuses newStatus) then ret (fail "Invalid status")
             else
               update_status bookingId newStatus ;;
               revalidatePath "/admin/test-drives" ;;
               revalidatePath "/reservations" ;;
               ret (succeed "Status updated")
         end
     end)
    (fun _ => ret (fail "Failed to update test drive status")).

(** [cars.filter((c) => c.status === "SOLD" && completedCarIds.includes(c.id)).length],
    [completedCarIds] an array. *)
Definition soldAfterTD (carRows : list CarSel) (tdRows : list TestDriveSel) : nat :=
  let completedCarIds := map td_carId (List.filter (td_is "COMPLETED") tdRows) in
  count (fun c => car_is "SOLD" c && includes completedCarIds (c_id c)) carRows.

Definition getDashboardData : Action (Envelope Dashboard) :=
  try_catch
    (admin <- getDbAdmin ;;
     match admin with
     | None => ret (fail "Unauthorized")
     | Some _ =>
         carRows <- db_read CarTable (fun w => map select_car (car w)) ;;
         tdRows <- db_read TestDriveBookingTable
                     (fun w => map select_testDrive (testDriveBooking w)) ;;
         ret (succeed (stats carRows tdRows (soldAfterTD carRows tdRows)))
     end)
    (fun _ => ret (fail "Failed to fetch dashboard data")).

End AdminJs.

(* ===================================================================== *)
(** * [src/unnamed/part_000]                                              *)
(* ===================================================================== *)

Module AdminTs.
Import Admin.

Definition requireAdmin : Action User.t :=
  userId <- auth ;;
  match userId with
  | None => throw "Unauthorized"
  | Some uid =>
      if no_userId userId then throw "Unauthorized"
      else
        u <- db_read UserTable (fun w => Prisma.user_findUnique uid (user w)) ;;
        match u with
        | None => throw "Unauthorized access"
        | Some usr =>
            if negb (String.eqb (User.role usr) "ADMIN") then throw "Unauthorized access"
            else ret usr
        end
  end.

Record AdminCheck : Type := mkAdminCheck {
  authorized : bool;
  admin_user : option User.t;
  reason : option string
}.

Definition getAdmin : Action AdminCheck :=
  try_catch
    (usr <- requireAdmin ;; ret (mkAdminCheck true (Some usr) None))
    (fun _ => ret (mkAdminCheck false None (Some "not-admin"))).

(** [{ success: false, error: error.message }] after [console.error]. *)
Definition report {T} (label : string) (message : string) : Action (Envelope T) :=
  emit (ConsoleError label) ;; ret (fail message).

Definition getAdminTestDrives (search status : string)
    : Action (Envelope (list Formatted.t)) :=
  try_catch
    (requireAdmin ;;
     let where_AND := if String.eqb status "" then [] else [w_status status] in
     let where_AND :=
       if String.eqb search "" then where_AND
       else where_AND ++ [searchCondition search] in
     bookings <- db_read TestDriveBookingTable (booking_findMany (w_AND where_AND)) ;;
     ret (succeed (map format bookings)))
    (report "Error fetching test drives:").

Definition updateTestDriveStatus (bookingId newStatus : string)
    : Action (Envelope unit) :=
  try_catch
    (requireAdmin ;;
     booking <- db_read TestDriveBookingTable
                  (fun w => Prisma.booking_findUnique bookingId (testDriveBooking w)) ;;
     match booking with
     | None => ret (fail "Booking not found")
     | Some _ =>
         if negb (includes validStatuses newStatus) then ret (fail "Invalid status")
         else
           update_status bookingId newStatus ;;
           revalidatePath "/admin/test-drives" ;;
           revalidatePath "/reservations" ;;
           ret (mkEnvelope true None None (Some "Test drive status updated successfully"))
     end)
    (report "Error updating test drive:").

(** [cars.filter((c) => c.status === "SOLD" && completedCarIds.has(c.id)).length],
    [completedCarIds] a [Set]. *)
Definition soldAfterTestDrive (carRows : list CarSel) (tdRows : list TestDriveSel) : nat :=
  let completedCarIds : gset string :=
    list_to_set (map td_carId (List.filter (td_is "COMPLETED") tdRows)) in
  count (fun c => car_is "SOLD" c && bool_decide (c_id c ∈ completedCarIds)) carRows.

Definition getDashboardData : Action (Envelope Dashboard) :=
  try_catch
    (requireAdmin ;;
     carRows <- db_read CarTable (fun w => map select_car (car w)) ;;
     tdRows <- db_read TestDriveBookingTable
                 (fun w => map select_testDrive (testDriveBooking w)) ;;
     ret (succeed (stats carRows tdRows (soldAfterTestDrive carRows tdRows))))
    (report "Error fetching dashboard data:").

End AdminTs.

(* ===================================================================== *)
(** * [src/unnamed/part_001]                                              *)
(* ===================================================================== *)

Module CarListing.

Definition getDbUser : Action (option User.t) :=
  userId <- auth ;;
  match userId with
  | None => ret None
  | Some uid =>
      if no_userId userId then ret None
      else db_read UserTable (fun w => Prisma.user_findUnique uid (user w))
  end.

(** ** [getCarFilters] *)

Record PriceRange : Type := mkPriceRange {
  min : Js.number;
  max : Js.number
}.

Record Filters : Type := mkFilters {
  makes : list string;
  bodyTypes : list string;
  fuelTypes : list string;
  transmissions : list string;
  priceRange : PriceRange
}.

(** [d ? parseFloat(d.toString()) : fallback] for a decimal or [null]. *)
Definition price_or (fallback : Z) (d : option Q) : Js.number :=
  match d with
  | Some p => Js.of_Q p
  | None => Js.of_Z fallback
  end.

Definition getCarFilters {engine : Js.LowerCase} : Action (Envelope Filters) :=
  try_catch
    (makes <- db_read CarTable (fun w => Prisma.car_distinct "AVAILABLE" Car.make (car w)) ;;
     bodyTypes <- db_read CarTable (fun w => Prisma.car_distinct "AVAILABLE" Car.bodyType (car w)) ;;
     fuelTypes <- db_read CarTable (fun w => Prisma.car_distinct "AVAILABLE" Car.fuelType (car w)) ;;
     transmissions <- db_read CarTable
                        (fun w => Prisma.car_distinct "AVAILABLE" Car.transmission (car w)) ;;
     priceAggregations <- db_read CarTable
                            (fun w => Prisma.car_aggregate_price "AVAILABLE" (car w)) ;;
     ret (succeed
            (mkFilters (map Js.toLowerCase makes)
                       (map Js.toLowerCase bodyTypes)
                       (map Js.toLowerCase fuelTypes)
                       (map Js.toLowerCase transmissions)
                       (mkPriceRange (price_or 0 (fst priceAggregations))
                                     (price_or 100000 (snd priceAggregations))))))
    (fun _ => ret (fail "Failed to fetch filters")).

(** ** [getCars] *)

(** The arguments; an absent string argument is its default [""], and
    [page] and [limit] are integers (1 and 6 when absent). *)
Record Params : Type := mkParams {
  search : string;
  make : string;
  bodyType : string;
  fuelType : string;
  transmission : string;
  minPrice : Js.value;
  maxPrice : Js.value;
  sortBy : string;
  page : Z;
  limit : Z
}.

Definition defaults : Params :=
  mkParams "" "" "" "" "" Js.Undefined Js.Undefined "newest" 1 6.

Definition present (s : string) : bool := negb (String.eqb s "").

(** [parseFloat(minPrice) || 0] *)
Definition lower_bound (minPrice : Js.value) : Js.number :=
  let p := Js.parseFloat (Js.default (Js.Num Js.zero) minPrice) in
  if Js.truthy_number p then p else Js.zero.

(** [maxPrice && maxPrice < Number.MAX_SAFE_INTEGER], then
    [parseFloat(maxPrice)]. *)
Definition upper_bound (maxPrice : Js.value) : option Js.number :=
  let v := Js.default (Js.Num Js.MAX_SAFE_INTEGER) maxPrice in
  if Js.truthy v && Js.lt v Js.MAX_SAFE_INTEGER then Some (Js.parseFloat v) else None.

Definition insensitive_equals (s : string) : option Prisma.StringFilter :=
  if present s then Some (Prisma.equals s) else None.

(** The [where] object as it stands when the query is run. *)
Definition build_where (p : Params) : Prisma.CarWhere :=
  Prisma.mkCarWhere
    (Some "AVAILABLE")
    (if present (search p)
     then Some [ (Prisma.f_make, Prisma.contains (search p));
                 (Prisma.f_model, Prisma.contains (search p));
                 (Prisma.f_description, Prisma.contains (search p)) ]
     else None)
    (insensitive_equals (make p))
    (insensitive_equals (bodyType p))
    (insensitive_equals (fuelType p))
    (insensitive_equals (transmission p))
    (Some (Prisma.mkPrice (lower_bound (minPrice p)) (upper_bound (maxPrice p)))).

Definition order_of (sortBy : string) : Prisma.CarOrderBy :=
  if String.eqb sortBy "priceAsc" then Prisma.price_asc
  else if String.eqb sortBy "priceDesc" then Prisma.price_desc
  else Prisma.createdAt_desc.

Record Pagination : Type := mkPagination {
  total : Z;
  pg_page : Z;
  pg_limit : Z;
  pages : Z
}.

(** [limit > 0 ? Math.ceil(totalCars / limit) : 0] on integers (the
    quotient of two counts below 2^53 is rounded to the same ceiling). *)
Definition page_count (totalCars limit : Z) : Z :=
  if 0 <? limit then - ((- totalCars) / limit) else 0.

Record CarsReply : Type := mkCarsReply {
  reply : Envelope (list SerializedCar.t);
  pagination : option Pagination
}.

Definition getCars (p : Params) : Action CarsReply :=
  try_catch
    (dbUser <- getDbUser ;;
     let where_ := build_where p in
     let skip := (page p - 1) * limit p in
     let orderBy := order_of (sortBy p) in
     totalCars <- db_read CarTable (fun w => Prisma.car_count where_ (car w)) ;;
     found <- db_read CarTable
                (fun w => Prisma.car_findMany where_ (limit p) skip orderBy (car w)) ;;
     match found with
     | None => throw "Invalid value for skip argument"
     | Some cars =>
         wishlisted <-
           match dbUser with
           | Some usr =>
               savedCars <- db_read UserSavedCarTable
                              (fun w => Prisma.saved_of_user (User.id usr) (userSavedCar w)) ;;
               ret (list_to_set (map UserSavedCar.carId savedCars) : gset string)
           | None => ret (∅ : gset string)
           end ;;
         let serializedCars :=
           map (fun c => serializeCarData c (bool_decide (Car.id c ∈ wishlisted))) cars in
         ret (mkCarsReply (succeed serializedCars)
                (Some (mkPagination totalCars (page p) (limit p)
                         (page_count totalCars (limit p)))))
     end)
    (fun _ => ret (mkCarsReply (fail "Failed to fetch cars") None)).

(** ** [toggleSavedCar] *)

Record Saved : Type := mkSaved { saved : bool }.

(** [db.userSavedCar.delete]: throws when the pair has no row. *)
Definition delete_saved (userId carId : string) : Action unit :=
  emit (DbWrite UserSavedCarTable) ;;
  rows <- gets userSavedCar ;;
  match Prisma.saved_findUnique userId carId rows with
  | Some _ => modify (set_userSavedCar (Prisma.saved_delete userId carId rows))
  | None => throw "Record to delete does not exist."
  end.

(** [db.userSavedCar.create]: throws when the pair already has a row
    (the table's compound key is unique). *)
Definition create_saved (userId carId : string) : Action unit :=
  emit (DbWrite UserSavedCarTable) ;;
  rows <- gets userSavedCar ;;
  t <- gets now ;;
  match Prisma.saved_findUnique userId carId rows with
  | Some _ => throw "Unique constraint failed on the fields: (`userId`,`carId`)"
  | None => modify (set_userSavedCar (Prisma.saved_create userId carId t rows))
  end.

Definition toggleSavedCar (carId : string) : Action (Envelope Saved) :=
  try_catch
    (dbUser <- getDbUser ;;
     match dbUser with
     | None => ret (fail "Unauthorized")
     | Some usr =>
         c <- db_read CarTable (fun w => Prisma.car_findUnique carId (car w)) ;;
         match c with
         | None => ret (fail "Car not found")
         | Some _ =>
             existingSave <- db_read UserSavedCarTable
                               (fun w => Prisma.saved_findUnique (User.id usr) carId
                                           (userSavedCar w)) ;;
             match existingSave with
             | Some _ =>
                 delete_saved (User.id usr) carId ;;
                 revalidatePath "/saved-cars" ;;
                 revalidatePath (String.append "/car/" carId) ;;
                 ret (succeed (mkSaved false))
             | None =>
                 create_saved (User.id usr) carId ;;
                 revalidatePath "/saved-cars" ;;
                 revalidatePath (String.append "/car/" carId) ;;
                 ret (succeed (mkSaved true))
             end
         end
     end)
    (fun _ => ret (fail "Failed to toggle saved car")).

(** ** [getCarById] *)

Record UserTestDrive : Type := mkUserTestDrive {
  utd_id : string;
  utd_status : string;
  utd_bookingDate : IsoString
}.

Record TestDriveInfo : Type := mkTestDriveInfo {
  userTestDrive : option UserTestDrive;
  dealership : option (DealershipInfo.t IsoString)
}.

Record CarDetails : Type := mkCarDetails {
  details : SerializedCar.t;
  testDriveInfo : TestDriveInfo
}.

(** [db.testDriveBooking.findFirst({ where: { carId, userId, status: { in } },
    orderBy: { createdAt: "desc" } })] *)
Definition existing_test_drive (carId userId : string)
    (rows : list TestDriveBooking.t) : option TestDriveBooking.t :=
  head
    (merge_sort
       (fun a b => Is_true (TestDriveBooking.createdAt b <=? TestDriveBooking.createdAt a))
       (List.filter
          (fun b => String.eqb (TestDriveBooking.carId b) carId
                    && String.eqb (TestDriveBooking.userId b) userId
                    && Admin.includes ["PENDING"; "CONFIRMED"; "COMPLETED"]
                         (TestDriveBooking.status b))
          rows)).

Definition serialize_hours (h : WorkingHour.t instant) : WorkingHour.t IsoString :=
  WorkingHour.mk (WorkingHour.fields h)
    (toISOString (WorkingHour.createdAt h)) (toISOString (WorkingHour.updatedAt h)).

Definition serialize_dealership (d : DealershipInfo.t instant) : DealershipInfo.t IsoString :=
  DealershipInfo.mk (DealershipInfo.fields d)
    (toISOString (DealershipInfo.createdAt d)) (toISOString (DealershipInfo.updatedAt d))
    (map serialize_hours (DealershipInfo.workingHours d)).

Definition getCarById (carId : string) : Action (Envelope CarDetails) :=
  try_catch
    (dbUser <- getDbUser ;;
     c <- db_read CarTable (fun w => Prisma.car_findUnique carId (car w)) ;;
     match c with
     | None => ret (fail "Car not found")
     | Some theCar =>
         isWishlisted <-
           match dbUser with
           | Some usr =>
               savedCar <- db_read UserSavedCarTable
                             (fun w => Prisma.saved_findUnique (User.id usr) carId
                                         (userSavedCar w)) ;;
               ret (bool_decide (is_Some savedCar))
           | None => ret false
           end ;;
         userTestDrive <-
           match dbUser with
           | Some usr =>
               existingTestDrive <-
                 db_read TestDriveBookingTable
                   (fun w => existing_test_drive carId (User.id usr) (testDriveBooking w)) ;;
               ret (option_map
                      (fun b => mkUserTestDrive (TestDriveBooking.id b)
                                  (TestDriveBooking.status b)
                                  (toISOString (TestDriveBooking.bookingDate b)))
                      existingTestDrive)
           | None => ret None
           end ;;
         dealership <- db_read DealershipInfoTable (fun w => head (dealershipInfo w)) ;;
         ret (succeed
                (mkCarDetails (serializeCarData theCar isWishlisted)
                   (mkTestDriveInfo userTestDrive
                      (option_map serialize_dealership dealership))))
     end)
    (fun _ => ret (fail "Failed to fetch car details")).

(** ** [getSavedCars] *)

(** [db.userSavedCar.findMany({ where: { userId }, include: { car: true },
    orderBy: { savedAt: "desc" } })]; the relation is required, a row
    whose car is missing is left out. *)
Definition saved_with_car (userId : string) (w : World) : list (UserSavedCar.t * Car.t) :=
  omap (fun s => option_map (pair s) (Prisma.car_findUnique (UserSavedCar.carId s) (car w)))
    (merge_sort (fun a b => Is_true (UserSavedCar.savedAt b <=? UserSavedCar.savedAt a))
       (Prisma.saved_of_user userId (userSavedCar w))).

Definition getSavedCars : Action (Envelope (list SerializedCar.t)) :=
  try_catch
    (dbUser <- getDbUser ;;
     match dbUser with
     | None => ret (fail "Unauthorized")
     | Some usr =>
         savedCars <- db_read UserSavedCarTable (saved_with_car (User.id usr)) ;;
         ret (succeed (map (fun s => serializeCarData (snd s) false) savedCars))
     end)
    (fun _ => ret (fail "Failed to fetch saved cars")).

End CarListing.

(* ===================================================================== *)
(** * Vocabulary of the statements                                        *)
(* ===================================================================== *)

(** The user record the session resolves to: none without a session, and
    none when no record carries the session's id. *)
Definition caller (w : World) : option User.t :=
  match session w with
  | Some uid => if String.eqb uid "" then None else Prisma.user_findUnique uid (user w)
  | None => None
  end.

Definition is_admin (u : User.t) : bool := String.eqb (User.role u) "ADMIN".

Definition admin_caller (w : World) : option User.t :=
  match caller w with
  | Some u => if is_admin u then Some u else None
  | None => None
  end.

(** What resolving the caller costs: the identity provider is asked, and
    the user table is read when there is a session. *)
Definition guard_effects (w : World) : list Effect :=
  if no_userId (session w) then [AuthCall] else [AuthCall; DbRead UserTable].

(** The message [requireAdmin] throws. *)
Definition refusal (w : World) : string :=
  if no_userId (session w) then "Unauthorized" else "Unauthorized access".

(** The world with more effects on its trace. *)
Definition logged (es : list Effect) (w : World) : World :=
  set_trace (trace w ++ es) w.

(** Two worlds with the same store, session and clock. *)
Definition same_state (w w' : World) : Prop :=
  session w' = session w /\ user w' = user w /\ car w' = car w /\
  testDriveBooking w' = testDriveBooking w /\ userSavedCar w' = userSavedCar w /\
  dealershipInfo w' = dealershipInfo w /\ now w' = now w.

(** An action is refused by the admin check: it answers with the
    failure envelope [msg], leaves store, session and clock as they were,
    and its only effects are those of resolving the caller, then
    [extra]. *)
Definition denies {T} (m : Action (Envelope T)) (w : World)
    (msg : string) (extra : list Effect) : Prop :=
  result m w = Normal (fail msg) /\
  same_state w (after m w) /\
  effects m w = guard_effects w ++ extra.

(** ** The dashboard *)

(** A car has a completed test drive: some booking with status COMPLETED
    refers to it. *)
Definition has_completed_booking (tdRows : list Admin.TestDriveSel) (carId : string) : Prop :=
  Exists (fun td => Admin.td_status td = "COMPLETED" /\ Admin.td_carId td = carId) tdRows.

(** A sold car that has a completed test drive. *)
Definition sold_after_test_drive (tdRows : list Admin.TestDriveSel) (c : Admin.CarSel) : Prop :=
  Admin.c_status c = "SOLD" /\ has_completed_booking tdRows (Admin.c_id c).

Definition is_completed (td : Admin.TestDriveSel) : Prop :=
  Admin.td_status td = "COMPLETED".

#[global] Instance has_completed_booking_dec tdRows carId :
  Decision (has_completed_booking tdRows carId).
Proof. unfold has_completed_booking. apply _. Defined.

#[global] Instance sold_after_test_drive_dec tdRows c :
  Decision (sold_after_test_drive tdRows c).
Proof. unfold sold_after_test_drive. apply _. Defined.

#[global] Instance is_completed_dec td : Decision (is_completed td).
Proof. unfold is_completed. apply _. Defined.

(** ** The wishlist *)

(** The pair is on the wishlist: the table has a row for it. *)
Definition wishlisted (userId carId : string) (w : World) : bool :=
  existsb (Prisma.same_pair userId carId) (userSavedCar w).

(** How many rows the table has for the pair. *)
Definition saved_rows (userId carId : string) (w : World) : nat :=
  length (List.filter (Prisma.same_pair userId carId) (userSavedCar w)).

(** The rows of the table after a toggle of the pair. *)
Definition toggled_rows (userId carId : string) (w : World) : list UserSavedCar.t :=
  if wishlisted userId carId w
  then Prisma.saved_delete userId carId (userSavedCar w)
  else Prisma.saved_create userId carId (now w) (userSavedCar w).

(** ** The listing *)

(** The ids of the cars the caller has saved; empty for an anonymous
    caller. *)
Definition saved_ids (w : World) : gset string :=
  match caller w with
  | Some usr =>
      list_to_set (map UserSavedCar.carId
                     (Prisma.saved_of_user (User.id usr) (userSavedCar w)))
  | None => ∅
  end.

Definition serialize_for (w : World) (c : Car.t) : SerializedCar.t :=
  serializeCarData c (bool_decide (Car.id c ∈ saved_ids w)).

(** The effects of a listing that the store accepts. *)
Definition listing_effects (w : World) : list Effect :=
  guard_effects w ++ [DbRead CarTable; DbRead CarTable] ++
  match caller w with
  | Some _ => [DbRead UserSavedCarTable]
  | None => []
  end.

(** The rows with status AVAILABLE. *)
Definition available_cars (w : World) : list Car.t :=
  filter (fun c => Car.status c = "AVAILABLE") (car w).

(** [out] holds the lowercase forms of the distinct values of a column
    among the available cars: there is a list of the stored values, each
    of them once, of which [out] is the image, entry by entry.  Its
    entries are pairwise different as soon as no two stored values have
    the same lowercase form. *)
Definition lowercase_of_distinct {engine : Js.LowerCase}
    (column : Car.t -> string) (w : World) (out : list string) : Prop :=
  exists values,
    out = map Js.toLowerCase values /\
    NoDup values /\
    (forall v, v ∈ values <->
       exists c, c ∈ car w /\ Car.status c = "AVAILABLE" /\ v = column c) /\
    ((forall a b, a ∈ values -> b ∈ values ->
        Js.toLowerCase a = Js.toLowerCase b -> a = b) ->
     NoDup out).

(** ** Reads and writes *)

(** An effect that changes nothing: no write to the store and no
    invalidation of a cached page. *)
Definition quiet (e : Effect) : bool :=
  match e with
  | DbWrite _ | RevalidatePath _ => false
  | _ => true
  end.

(** Run on [w], the action leaves store, session and clock as they were
    and has quiet effects only. *)
Definition reads_only {A} (m : Action A) (w : World) : Prop :=
  same_state w (after m w) /\ forallb quiet (effects m w) = true.

(** The action answers with [success: true]. *)
Definition succeeded {T} (m : Action (Envelope T)) (w : World) : bool :=
  match result m w with
  | Normal e => success e
  | Throw _ => false
  end.

(** ** Bookings *)

(** Every stored booking has one of the five statuses. *)
Definition statuses_valid (rows : list TestDriveBooking.t) : Prop :=
  forall b, b ∈ rows -> TestDriveBooking.status b ∈ Admin.validStatuses.

(** A booking of the car by the user that is pending, confirmed or
    completed. *)
Definition active_booking (carId userId : string) (b : TestDriveBooking.t) : Prop :=
  TestDriveBooking.carId b = carId /\ TestDriveBooking.userId b = userId /\
  TestDriveBooking.status b ∈ ["PENDING"; "CONFIRMED"; "COMPLETED"].

(** The status update is carried out: the caller is an administrator,
    the booking exists and the new status is one of the five. *)
Definition update_accepted (w : World) (bookingId newStatus : string) : bool :=
  match admin_caller w, Prisma.booking_findUnique bookingId (testDriveBooking w) with
  | Some _, Some _ => Admin.includes Admin.validStatuses newStatus
  | _, _ => false
  end.

(** What a status update that is carried out does, after resolving the
    caller. *)
Definition update_effects : list Effect :=
  [DbRead TestDriveBookingTable; DbWrite TestDriveBookingTable;
   RevalidatePath "/admin/test-drives"; RevalidatePath "/reservations"].

(** What a variant of [updateTestDriveStatus] comes to: carried out, it
    answers with success, the table is the updated one, users and session
    are as before and the effects are [update_effects]; otherwise it
    answers with a failure envelope, the world is as it was and the
    effects are quiet. *)
Definition update_outcome {T} (w : World) (bookingId newStatus : string)
    (m : Action (Envelope T)) : Prop :=
  if update_accepted w bookingId newStatus then
    (exists e, result m w = Normal e /\ success e = true) /\
    testDriveBooking (after m w)
    = Prisma.booking_update bookingId newStatus (testDriveBooking w) /\
    user (after m w) = user w /\ session (after m w) = session w /\
    effects m w = guard_effects w ++ update_effects
  else
    (exists e, result m w = Normal e /\ success e = false) /\
    same_state w (after m w) /\
    forallb quiet (effects m w) = true.

(** The [where] object both variants of [getAdminTestDrives] amount to. *)
Definition booking_where (search status : string) : Admin.Where :=
  Admin.w_AND ((if String.eqb status "" then [] else [Admin.w_status status])
               ++ (if String.eqb search "" then [] else [Admin.searchCondition search])).

(** The store's test [{ contains: needle, mode: "insensitive" }] holds of
    [hay]. *)
Definition contains_insensitive (needle hay : string) : Prop :=
  Prisma.string_matches (Prisma.contains needle) hay = true.

(** The store's test [{ equals: a, mode: "insensitive" }] holds of [b]. *)
Definition equals_insensitive (a b : string) : Prop :=
  Prisma.string_matches (Prisma.equals a) b = true.

(** The text filter [given], which is no filter when it is empty, lets
    the stored value through. *)
Definition passes (given stored : string) : Prop :=
  given = "" \/ equals_insensitive given stored.

(** The search text occurs in the booked car's make or model or in the
    booking user's name or email. *)
Definition search_hit (search : string) (r : Admin.BookingRow) : Prop :=
  contains_insensitive search (Car.make (Admin.b_car r)) \/
  contains_insensitive search (Car.model (Admin.b_car r)) \/
  (exists n, Admin.u_name (Admin.b_user r) = Some n /\ contains_insensitive search n) \/
  contains_insensitive search (Admin.u_email (Admin.b_user r)).

(** A formatted booking is not later than the next: its date is later,
    or the dates are equal and its start time is not greater. *)
Definition listed_before (a b : Admin.Formatted.t) : Prop :=
  match Admin.Formatted.bookingDate a, Admin.Formatted.bookingDate b with
  | Iso da, Iso db =>
      db < da \/
      (db = da /\ String.leb (Admin.Formatted.startTime a) (Admin.Formatted.startTime b) = true)
  end.

(** ** Listed cars *)

(** A serialised car with its saved flag cleared. *)
Definition without_flag (i : SerializedCar.t) : SerializedCar.t :=
  SerializedCar.mk (SerializedCar.id i) (SerializedCar.make i) (SerializedCar.model i)
    (SerializedCar.bodyType i) (SerializedCar.fuelType i) (SerializedCar.transmission i)
    (SerializedCar.price i) (SerializedCar.status i) (SerializedCar.featured i)
    (SerializedCar.description i) (SerializedCar.createdAt i) (SerializedCar.updatedAt i)
    false.

(** The answer of a listing with the saved flags cleared. *)
Definition public_part (r : CarListing.CarsReply) : CarListing.CarsReply :=
  CarListing.mkCarsReply
    (mkEnvelope (success (CarListing.reply r))
       (option_map (map without_flag) (data (CarListing.reply r)))
       (error (CarListing.reply r)) (message (CarListing.reply r)))
    (CarListing.pagination r).

(** ** Saved cars *)


(** The saved row [a] is not older than [b]. *)
Definition saved_later (a b : UserSavedCar.t) : Prop :=
  UserSavedCar.savedAt b <= UserSavedCar.savedAt a.

(** The car of a saved row is stored. *)
Definition car_stored (w : World) (s : UserSavedCar.t) : Prop :=
  is_Some (Prisma.car_findUnique (UserSavedCar.carId s) (car w)).

(** [i] is the car of the saved row [s] as [getSavedCars] shows it. *)
Definition shown_for (w : World) (s : UserSavedCar.t) (i : SerializedCar.t) : Prop :=
  exists c, Prisma.car_findUnique (UserSavedCar.carId s) (car w) = Some c /\
            i = serializeCarData c false.

(* ===================================================================== *)
(** * Sample data                                                         *)
(* ===================================================================== *)

Module Sample.

Definition ada : User.t :=
  User.mk "u-ada" "clerk-ada" "ADMIN" (Some "Ada") "ada@geargo.test" None None.

Definition bob : User.t :=
  User.mk "u-bob" "clerk-bob" "USER" (Some "Bob") "bob@geargo.test" None None.

Definition a_car (id make : string) (price : Q) (status : string) (created : instant)
    : Car.t :=
  Car.mk id make "Model" "SUV" "Petrol" "Automatic" price status false "" created created.

Definition a_booking (id carId userId status : string) : TestDriveBooking.t :=
  TestDriveBooking.mk id carId userId 0 "10:00" "11:00" status None 0 0.

Definition world (session : option string) (cars : list Car.t)
    (bookings : list TestDriveBooking.t) (saved : list UserSavedCar.t) : World :=
  mkWorld session [ada; bob] cars bookings saved [] 1000 [].

(** One sold car with two completed test drives. *)
Definition sold_twice_driven : World :=
  world (Some "clerk-ada")
    [a_car "c1" "Toyota" (20000 # 1) "SOLD" 1]
    [a_booking "b1" "c1" "u-bob" "COMPLETED"; a_booking "b2" "c1" "u-bob" "COMPLETED"]
    [].

(** One car, one pending booking, an administrator signed in. *)
Definition pending_drive : World :=
  world (Some "clerk-ada")
    [a_car "c1" "Toyota" (20000 # 1) "AVAILABLE" 1]
    [a_booking "b1" "c1" "u-bob" "PENDING"]
    [].

(** The same store with an ordinary user signed in. *)
Definition bob_signed_in : World :=
  world (Some "clerk-bob")
    [a_car "c1" "Toyota" (20000 # 1) "AVAILABLE" 1]
    [a_booking "b1" "c1" "u-bob" "PENDING"]
    [].

(** Fourteen available cars and one sold, nobody signed in; prices rise
    with the number of the car. *)
Definition forecourt : World :=
  world None
    [ a_car "c01" "Toyota" (1000 # 1) "AVAILABLE" 1;
      a_car "c02" "Toyota" (2000 # 1) "AVAILABLE" 2;
      a_car "c03" "Honda" (3000 # 1) "AVAILABLE" 3;
      a_car "c04" "Honda" (4000 # 1) "AVAILABLE" 4;
      a_car "c05" "Ford" (5000 # 1) "AVAILABLE" 5;
      a_car "c06" "Ford" (6000 # 1) "AVAILABLE" 6;
      a_car "c07" "Kia" (7000 # 1) "AVAILABLE" 7;
      a_car "sold" "Kia" (7500 # 1) "SOLD" 8;
      a_car "c08" "Kia" (8000 # 1) "AVAILABLE" 9;
      a_car "c09" "Audi" (9000 # 1) "AVAILABLE" 10;
      a_car "c10" "Audi" (10000 # 1) "AVAILABLE" 11;
      a_car "c11" "BMW" (11000 # 1) "AVAILABLE" 12;
      a_car "c12" "BMW" (12000 # 1) "AVAILABLE" 13;
      a_car "c13" "Tesla" (13000 # 1) "AVAILABLE" 14;
      a_car "c14" "Tesla" (14000 # 1) "AVAILABLE" 15 ]
    []
    [UserSavedCar.mk "u-bob" "c07" 500].

(** Page 2 of 6, cheapest first. *)
Definition second_page : CarListing.Params :=
  CarListing.mkParams "" "" "" "" "" Js.Undefined Js.Undefined "priceAsc" 2 6.



(** Bob signed in, with one car on his wishlist. *)
Definition bob_browsing : World :=
  world (Some "clerk-bob")
    [ a_car "c01" "Toyota" (1000 # 1) "AVAILABLE" 1;
      a_car "c07" "Kia" (7000 # 1) "AVAILABLE" 7 ]
    []
    [UserSavedCar.mk "u-bob" "c07" 500].

(** One sold car with one completed test drive. *)
Definition sold_once_driven : World :=
  world (Some "clerk-ada")
    [a_car "c1" "Toyota" (20000 # 1) "SOLD" 1]
    [a_booking "b1" "c1" "u-bob" "COMPLETED"]
    [].

(** Two available cars whose makes differ in case only. *)
Definition two_spellings : World :=
  world None
    [ a_car "c1" "TOYOTA" (1000 # 1) "AVAILABLE" 1;
      a_car "c2" "Toyota" (2000 # 1) "AVAILABLE" 2 ]
    [] [].

(** An engine that lowers the ASCII letters and nothing else: the
    examples, whose text is ASCII, are read with it. *)
Definition ascii_engine : Js.LowerCase :=
  {| Js.toLowerCase := Js.ascii_lowercase;
     Js.toLowerCase_ascii := fun _ _ => eq_refl |}.

(** Three bookings of Bob's on two days, an administrator signed in. *)
Definition diary : World :=
  world (Some "clerk-ada")
    [a_car "c1" "Toyota" (20000 # 1) "AVAILABLE" 1]
    [ TestDriveBooking.mk "b1" "c1" "u-bob" 100 "14:00" "15:00" "PENDING" None 1 1;
      TestDriveBooking.mk "b2" "c1" "u-bob" 200 "09:00" "10:00" "CANCELLED" None 2 2;
      TestDriveBooking.mk "b3" "c1" "u-bob" 100 "09:00" "10:00" "COMPLETED" None 3 3 ]
    [].

(** The same diary with Bob signed in, who has saved the car. *)
Definition bob_diary : World :=
  world (Some "clerk-bob")
    [a_car "c1" "Toyota" (20000 # 1) "AVAILABLE" 1]
    [ TestDriveBooking.mk "b1" "c1" "u-bob" 100 "14:00" "15:00" "PENDING" None 1 1;
      TestDriveBooking.mk "b2" "c1" "u-bob" 200 "09:00" "10:00" "CANCELLED" None 2 2;
      TestDriveBooking.mk "b3" "c1" "u-bob" 100 "09:00" "10:00" "COMPLETED" None 3 3 ]
    [UserSavedCar.mk "u-bob" "c1" 700].

(** Bob signed in with two saved cars, Ada with one. *)
Definition bob_two_saved : World :=
  world (Some "clerk-bob")
    [ a_car "c01" "Toyota" (1000 # 1) "AVAILABLE" 1;
      a_car "c07" "Kia" (7000 # 1) "AVAILABLE" 7;
      a_car "c09" "Audi" (9000 # 1) "SOLD" 9 ]
    []
    [ UserSavedCar.mk "u-bob" "c07" 500;
      UserSavedCar.mk "u-ada" "c09" 600;
      UserSavedCar.mk "u-bob" "c01" 700 ].

(** A cheap sold car, one available car, a dear unavailable car. *)
Definition mixed_lot : World :=
  world None
    [ a_car "cheap" "Fiat" (50 # 1) "SOLD" 1;
      a_car "mid" "Toyota" (200 # 1) "AVAILABLE" 2;
      a_car "dear" "Bentley" (900 # 1) "UNAVAILABLE" 3 ]
    [] [].

End Sample.

(* ===================================================================== *)
(** * Running the actions                                                 *)
(* ===================================================================== *)

Lemma logged_logged es1 es2 w : logged es2 (logged es1 w) = logged (es1 ++ es2) w.
Proof. destruct w; unfold logged, set_trace; simpl. by rewrite <- app_assoc. Qed.


Lemma same_state_logged es w : same_state w (logged es w).
Proof. destruct w; repeat split. Qed.


Lemma trace_logged es w : trace (logged es w) = trace w ++ es.
Proof. by destruct w. Qed.

Lemma emit_run e w : emit e w = (Normal tt, logged [e] w).
Proof. reflexivity. Qed.


Lemma car_logged es w : car (logged es w) = car w.
Proof. by destruct w. Qed.
Lemma testDriveBooking_logged es w : testDriveBooking (logged es w) = testDriveBooking w.
Proof. by destruct w. Qed.
Lemma userSavedCar_logged es w : userSavedCar (logged es w) = userSavedCar w.
Proof. by destruct w. Qed.

Lemma effects_logged {A} (m : Action A) w es r :
  m w = (r, logged es w) -> effects m w = es.
Proof.
  intros H. unfold effects, after. rewrite H. cbn [snd].
  rewrite trace_logged. by rewrite drop_app_length.
Qed.

Lemma caller_logged es w : caller (logged es w) = caller w.
Proof. by destruct w. Qed.

(** Unfolds the plumbing of an action run on a world given by its fields. *)
Ltac run :=
  cbv [bind ret throw try_catch gets modify emit db_read auth revalidatePath
       logged set_trace set_testDriveBooking set_userSavedCar
       session user car testDriveBooking userSavedCar
       dealershipInfo now trace fst snd negb];
  repeat rewrite <- app_assoc; cbn [app].

Lemma getDbUser_run w :
  CarListing.getDbUser w = (Normal (caller w), logged (guard_effects w) w).
Proof.
  destruct w as [s us cs bs ss ds n tr].
  unfold CarListing.getDbUser, caller, guard_effects.
  destruct s as [uid|]; [|reflexivity].
  run. simpl. destruct (String.eqb uid ""); [reflexivity|].
  run. reflexivity.
Qed.

Lemma getDbAdmin_run w :
  AdminJs.getDbAdmin w = (Normal (admin_caller w), logged (guard_effects w) w).
Proof.
  destruct w as [s us cs bs ss ds n tr].
  unfold AdminJs.getDbAdmin, admin_caller, caller, guard_effects, is_admin.
  destruct s as [uid|]; [|reflexivity].
  run. simpl. destruct (String.eqb uid ""); [reflexivity|].
  run. destruct (Prisma.user_findUnique uid us) as [u|]; [|reflexivity].
  by destruct (String.eqb (User.role u) "ADMIN").
Qed.

Lemma requireAdmin_run w :
  AdminTs.requireAdmin w =
  (match admin_caller w with Some u => Normal u | None => Throw (refusal w) end,
   logged (guard_effects w) w).
Proof.
  destruct w as [s us cs bs ss ds n tr].
  unfold AdminTs.requireAdmin, admin_caller, caller, guard_effects, refusal, is_admin.
  destruct s as [uid|]; [|reflexivity].
  run. simpl. destruct (String.eqb uid ""); [reflexivity|].
  run. destruct (Prisma.user_findUnique uid us) as [u|]; [|reflexivity].
  by destruct (String.eqb (User.role u) "ADMIN").
Qed.

(* ===================================================================== *)
(** * The admin check                                                     *)
(* ===================================================================== *)

Lemma non_admin_caller w :
  (forall u, caller w = Some u -> User.role u <> "ADMIN") -> admin_caller w = None.
Proof.
  intros H. unfold admin_caller, is_admin.
  destruct (caller w) as [u|]; [|done].
  destruct (String.eqb_spec (User.role u) "ADMIN") as [E|]; [|done].
  by destruct (H u eq_refl).
Qed.

Lemma admin_caller_Some w u :
  caller w = Some u -> User.role u = "ADMIN" -> admin_caller w = Some u.
Proof.
  intros Hc Hr. unfold admin_caller, is_admin. rewrite Hc, Hr. reflexivity.
Qed.

Lemma guard_effects_reads w e :
  e ∈ guard_effects w -> e = AuthCall \/ e = DbRead UserTable.
Proof.
  unfold guard_effects. intros H.
  destruct (no_userId (session w));
    repeat (apply elem_of_cons in H as [->|H]; [auto|]); by apply elem_of_nil in H.
Qed.

Lemma denies_intro {T} (m : Action (Envelope T)) w msg extra :
  m w = (Normal (fail msg), logged (guard_effects w ++ extra) w) ->
  denies m w msg extra.
Proof.
  intros H. split; [|split].
  - unfold result. by rewrite H.
  - unfold after. rewrite H. apply same_state_logged.
  - by apply (effects_logged _ _ _ _ H).
Qed.

(** Unfolds an action down to its admin check and runs the check. *)
Ltac through_guard :=
  unfold try_catch, bind;
  first [ rewrite getDbAdmin_run | rewrite requireAdmin_run ].

Section Refused.
Context (w : World) (Hguard : admin_caller w = None).

Lemma AdminJs_getAdminTestDrives_refused search status :
  denies (AdminJs.getAdminTestDrives search status) w "Unauthorized" [].
Proof.
  apply denies_intro. unfold AdminJs.getAdminTestDrives. through_guard.
  rewrite Hguard. by rewrite app_nil_r.
Qed.

Lemma AdminJs_updateTestDriveStatus_refused bookingId newStatus :
  denies (AdminJs.updateTestDriveStatus bookingId newStatus) w "Unauthorized" [].
Proof.
  apply denies_intro. unfold AdminJs.updateTestDriveStatus. through_guard.
  rewrite Hguard. by rewrite app_nil_r.
Qed.

Lemma AdminJs_getDashboardData_refused :
  denies AdminJs.getDashboardData w "Unauthorized" [].
Proof.
  apply denies_intro. unfold AdminJs.getDashboardData. through_guard.
  rewrite Hguard. by rewrite app_nil_r.
Qed.

Lemma AdminTs_getAdminTestDrives_refused search status :
  denies (AdminTs.getAdminTestDrives search status) w (refusal w)
         [ConsoleError "Error fetching test drives:"].
Proof.
  apply denies_intro. unfold AdminTs.getAdminTestDrives. through_guard.
  rewrite Hguard. unfold AdminTs.report, bind. rewrite emit_run.
  by rewrite logged_logged.
Qed.

Lemma AdminTs_updateTestDriveStatus_refused bookingId newStatus :
  denies (AdminTs.updateTestDriveStatus bookingId newStatus) w (refusal w)
         [ConsoleError "Error updating test drive:"].
Proof.
  apply denies_intro. unfold AdminTs.updateTestDriveStatus. through_guard.
  rewrite Hguard. unfold AdminTs.report, bind. rewrite emit_run.
  by rewrite logged_logged.
Qed.

Lemma AdminTs_getDashboardData_refused :
  denies AdminTs.getDashboardData w (refusal w)
         [ConsoleError "Error fetching dashboard data:"].
Proof.
  apply denies_intro. unfold AdminTs.getDashboardData. through_guard.
  rewrite Hguard. unfold AdminTs.report, bind. rewrite emit_run.
  by rewrite logged_logged.
Qed.
End Refused.

(* ===================================================================== *)
(** * Status updates                                                      *)
(* ===================================================================== *)

Lemma includes_elem_of l s : Admin.includes l s = true <-> s ∈ l.
Proof.
  unfold Admin.includes. rewrite existsb_exists. split.
  - intros (x & Hin & Heq). apply String.eqb_eq in Heq as ->.
    by apply list_elem_of_In.
  - intros Hin. exists s. split; [by apply list_elem_of_In | apply String.eqb_refl].
Qed.


Lemma booking_update_same bookingId st rows b :
  Prisma.booking_findUnique bookingId rows = Some b ->
  Prisma.booking_findUnique bookingId (Prisma.booking_update bookingId st rows)
  = Some (TestDriveBooking.with_status st b).
Proof.
  unfold Prisma.booking_findUnique, Prisma.booking_update.
  induction rows as [|r rows IH]; simpl; [done|].
  destruct (String.eqb (TestDriveBooking.id r) bookingId) eqn:E; simpl.
  - intros [= ->]. by rewrite E.
  - rewrite E. exact IH.
Qed.

Lemma booking_update_other bookingId other st rows :
  other <> bookingId ->
  Prisma.booking_findUnique other (Prisma.booking_update bookingId st rows)
  = Prisma.booking_findUnique other rows.
Proof.
  intros Hne. unfold Prisma.booking_findUnique, Prisma.booking_update.
  induction rows as [|r rows IH]; simpl; [done|].
  destruct (String.eqb_spec (TestDriveBooking.id r) bookingId) as [E|E]; simpl.
  - destruct (String.eqb_spec (TestDriveBooking.id r) other) as [E'|E']; [congruence|].
    exact IH.
  - by rewrite IH.
Qed.


Section UpdateStatus.
Context (w : World) (bookingId newStatus : string).

Let js := AdminJs.updateTestDriveStatus bookingId newStatus.
Let ts := AdminTs.updateTestDriveStatus bookingId newStatus.
Let lookup := Prisma.booking_findUnique bookingId (testDriveBooking w).

Lemma update_js_run admin :
  admin_caller w = Some admin ->
  js w =
  match lookup with
  | None =>
      (Normal (fail "Booking not found"),
       logged (guard_effects w ++ [DbRead TestDriveBookingTable]) w)
  | Some _ =>
      if Admin.includes Admin.validStatuses newStatus then
        (Normal (succeed "Status updated"),
         logged [RevalidatePath "/admin/test-drives"; RevalidatePath "/reservations"]
           (set_testDriveBooking
              (Prisma.booking_update bookingId newStatus (testDriveBooking w))
              (logged (guard_effects w ++
                       [DbRead TestDriveBookingTable; DbWrite TestDriveBookingTable]) w)))
      else
        (Normal (fail "Invalid status"),
         logged (guard_effects w ++ [DbRead TestDriveBookingTable]) w)
  end.
Proof.
  intros Hadmin. subst js lookup. unfold AdminJs.updateTestDriveStatus. through_guard.
  rewrite Hadmin. generalize (guard_effects w) as g. intros g.
  destruct w as [s us cs bs ss ds n tr]. run.
  destruct (Prisma.booking_findUnique bookingId bs) eqn:E; [|reflexivity].
  destruct (Admin.includes Admin.validStatuses newStatus); [|reflexivity].
  unfold Admin.update_status. run. rewrite E. run. reflexivity.
Qed.

Lemma update_ts_run admin :
  admin_caller w = Some admin ->
  ts w =
  match lookup with
  | None =>
      (Normal (fail "Booking not found"),
       logged (guard_effects w ++ [DbRead TestDriveBookingTable]) w)
  | Some _ =>
      if Admin.includes Admin.validStatuses newStatus then
        (Normal (mkEnvelope true None None
                   (Some "Test drive status updated successfully")),
         logged [RevalidatePath "/admin/test-drives"; RevalidatePath "/reservations"]
           (set_testDriveBooking
              (Prisma.booking_update bookingId newStatus (testDriveBooking w))
              (logged (guard_effects w ++
                       [DbRead TestDriveBookingTable; DbWrite TestDriveBookingTable]) w)))
      else
        (Normal (fail "Invalid status"),
         logged (guard_effects w ++ [DbRead TestDriveBookingTable]) w)
  end.
Proof.
  intros Hadmin. subst ts lookup. unfold AdminTs.updateTestDriveStatus. through_guard.
  rewrite Hadmin. generalize (guard_effects w) as g. intros g.
  destruct w as [s us cs bs ss ds n tr]. run.
  destruct (Prisma.booking_findUnique bookingId bs) eqn:E; [|reflexivity].
  destruct (Admin.includes Admin.validStatuses newStatus); [|reflexivity].
  unfold Admin.update_status. run. rewrite E. run. reflexivity.
Qed.
End UpdateStatus.

Lemma testDriveBooking_set rows w :
  testDriveBooking (set_testDriveBooking rows w) = rows.
Proof. by destruct w. Qed.

(** C3. For an administrator, [updateTestDriveStatus] (both variants)
    answers "Booking not found" when no booking has the id, whatever the
    new status is; when the booking exists and the new status is not one
    of PENDING, CONFIRMED, COMPLETED, CANCELLED, NO_SHOW it answers
    "Invalid status" and leaves the store (so the booking's status)
    untouched; otherwise it succeeds and the booking afterwards carries
    the new status, whatever its old status was, the other bookings
    being as before. *)
Theorem updateTestDriveStatus_checks
    (w : World) (admin : User.t) (bookingId newStatus : string) :
  caller w = Some admin ->
  User.role admin = "ADMIN" ->
  let js := AdminJs.updateTestDriveStatus bookingId newStatus in
  let ts := AdminTs.updateTestDriveStatus bookingId newStatus in
  let rows := testDriveBooking w in
  (Prisma.booking_findUnique bookingId rows = None ->
     result js w = Normal (fail "Booking not found") /\
     result ts w = Normal (fail "Booking not found") /\
     same_state w (after js w) /\ same_state w (after ts w))
  /\
  (forall b, Prisma.booking_findUnique bookingId rows = Some b ->
     newStatus ∉ Admin.validStatuses ->
     result js w = Normal (fail "Invalid status") /\
     result ts w = Normal (fail "Invalid status") /\
     same_state w (after js w) /\ same_state w (after ts w) /\
     (DbWrite TestDriveBookingTable ∉ effects js w) /\
     DbWrite TestDriveBookingTable ∉ effects ts w)
  /\
  (forall b, Prisma.booking_findUnique bookingId rows = Some b ->
     newStatus ∈ Admin.validStatuses ->
     let updated := Prisma.booking_update bookingId newStatus rows in
     result js w = Normal (succeed "Status updated") /\
     result ts w = Normal (mkEnvelope true None None
                             (Some "Test drive status updated successfully")) /\
     testDriveBooking (after js w) = updated /\
     testDriveBooking (after ts w) = updated /\
     Prisma.booking_findUnique bookingId updated
       = Some (TestDriveBooking.with_status newStatus b) /\
     TestDriveBooking.status (TestDriveBooking.with_status newStatus b) = newStatus /\
     (forall other, other <> bookingId ->
        Prisma.booking_findUnique other updated = Prisma.booking_findUnique other rows)).
Proof.
  intros Hcaller Hrole js ts rows.
  pose proof (admin_caller_Some _ _ Hcaller Hrole) as Hadmin.
  pose proof (update_js_run w bookingId newStatus admin Hadmin) as Hjs.
  pose proof (update_ts_run w bookingId newStatus admin Hadmin) as Hts.
  fold js in Hjs. fold ts in Hts. fold rows in Hjs, Hts.
  split; [|split].
  - intros Hnone. rewrite Hnone in Hjs, Hts.
    unfold result, after. rewrite Hjs, Hts. cbn [fst snd].
    repeat split; try reflexivity; apply same_state_logged.
  - intros b Hsome Hbad. rewrite Hsome in Hjs, Hts.
    destruct (Admin.includes Admin.validStatuses newStatus) eqn:E.
    { apply includes_elem_of in E. contradiction. }
    rewrite (effects_logged _ _ _ _ Hjs), (effects_logged _ _ _ _ Hts).
    unfold result, after. rewrite Hjs, Hts. cbn [fst snd].
    repeat split; try reflexivity; try apply same_state_logged.
    all: intros Hin; apply elem_of_app in Hin as [Hin|Hin];
      [ apply guard_effects_reads in Hin as [?|?]; discriminate
      | apply list_elem_of_singleton in Hin; discriminate ].
  - intros b Hsome Hok updated. rewrite Hsome in Hjs, Hts.
    apply includes_elem_of in Hok. rewrite Hok in Hjs, Hts.
    unfold result, after. rewrite Hjs, Hts. cbn [fst snd].
    rewrite !testDriveBooking_logged, !testDriveBooking_set.
    split_and!; try reflexivity.
    + by apply booking_update_same.
    + intros other Hne. by apply booking_update_other.
Qed.

(* ===================================================================== *)
(** * Past the admin check                                                *)
(* ===================================================================== *)

Section PastGuard.
Context (w : World) (admin : User.t) (Hadmin : admin_caller w = Some admin).

Let carRows := map Admin.select_car (car w).
Let tdRows := map Admin.select_testDrive (testDriveBooking w).

Lemma dashboard_js_run :
  AdminJs.getDashboardData w =
  (Normal (succeed (Admin.stats carRows tdRows (AdminJs.soldAfterTD carRows tdRows))),
   logged (guard_effects w ++ [DbRead CarTable; DbRead TestDriveBookingTable]) w).
Proof.
  subst carRows tdRows. unfold AdminJs.getDashboardData. through_guard.
  rewrite Hadmin. generalize (guard_effects w) as g. intros g.
  destruct w as [s us cs bs ss ds n tr]. run. reflexivity.
Qed.

Lemma dashboard_ts_run :
  AdminTs.getDashboardData w =
  (Normal (succeed (Admin.stats carRows tdRows
                      (AdminTs.soldAfterTestDrive carRows tdRows))),
   logged (guard_effects w ++ [DbRead CarTable; DbRead TestDriveBookingTable]) w).
Proof.
  subst carRows tdRows. unfold AdminTs.getDashboardData. through_guard.
  rewrite Hadmin. generalize (guard_effects w) as g. intros g.
  destruct w as [s us cs bs ss ds n tr]. run. reflexivity.
Qed.

Lemma testDrives_js_run search status :
  exists wh,
    AdminJs.getAdminTestDrives search status w =
    (Normal (succeed (map Admin.format (Admin.booking_findMany wh w))),
     logged (guard_effects w ++ [DbRead TestDriveBookingTable]) w).
Proof.
  eexists. unfold AdminJs.getAdminTestDrives. through_guard.
  rewrite Hadmin. generalize (guard_effects w) as g. intros g.
  destruct w as [s us cs bs ss ds n tr]. run. reflexivity.
Qed.

Lemma testDrives_ts_run search status :
  exists wh,
    AdminTs.getAdminTestDrives search status w =
    (Normal (succeed (map Admin.format (Admin.booking_findMany wh w))),
     logged (guard_effects w ++ [DbRead TestDriveBookingTable]) w).
Proof.
  eexists. unfold AdminTs.getAdminTestDrives. through_guard.
  rewrite Hadmin. generalize (guard_effects w) as g. intros g.
  destruct w as [s us cs bs ss ds n tr]. run. reflexivity.
Qed.
End PastGuard.

Lemma effects_trace {A} (m : Action A) w es :
  trace (after m w) = trace w ++ es -> effects m w = es.
Proof. intros H. unfold effects. rewrite H. by rewrite drop_app_length. Qed.

Lemma trace_set_testDriveBooking rows w :
  trace (set_testDriveBooking rows w) = trace w.
Proof. by destruct w. Qed.

Lemma update_reads_booking w admin bookingId newStatus :
  admin_caller w = Some admin ->
  DbRead TestDriveBookingTable ∈ effects (AdminJs.updateTestDriveStatus bookingId newStatus) w /\
  DbRead TestDriveBookingTable ∈ effects (AdminTs.updateTestDriveStatus bookingId newStatus) w.
Proof.
  intros Hadmin.
  pose proof (update_js_run w bookingId newStatus admin Hadmin) as Hjs.
  pose proof (update_ts_run w bookingId newStatus admin Hadmin) as Hts.
  destruct (Prisma.booking_findUnique bookingId (testDriveBooking w)).
  2:{ rewrite (effects_logged _ _ _ _ Hjs), (effects_logged _ _ _ _ Hts).
      split; apply elem_of_app; right; apply list_elem_of_singleton; reflexivity. }
  destruct (Admin.includes Admin.validStatuses newStatus).
  2:{ rewrite (effects_logged _ _ _ _ Hjs), (effects_logged _ _ _ _ Hts).
      split; apply elem_of_app; right; apply list_elem_of_singleton; reflexivity. }
  split.
  - erewrite effects_trace.
    2:{ unfold after. rewrite Hjs. cbn [snd].
        rewrite trace_logged, trace_set_testDriveBooking, trace_logged.
        rewrite <- !app_assoc. reflexivity. }
    apply elem_of_app; right. apply elem_of_app; left. apply elem_of_cons; by left.
  - erewrite effects_trace.
    2:{ unfold after. rewrite Hts. cbn [snd].
        rewrite trace_logged, trace_set_testDriveBooking, trace_logged.
        rewrite <- !app_assoc. reflexivity. }
    apply elem_of_app; right. apply elem_of_app; left. apply elem_of_cons; by left.
Qed.

(** C8. A caller that is anonymous, has no user record, or whose record
    does not have role ADMIN is refused by [getAdminTestDrives],
    [updateTestDriveStatus] and [getDashboardData] (both variants): the
    answer is the unauthorized failure envelope, store, session and clock
    are as before, and nothing was done but ask the identity provider and
    possibly read the user table (the TypeScript variant also logs the
    error).  A caller with role ADMIN goes on to read the bookings. *)
Theorem admin_actions_guard
    (w : World) (search status bookingId newStatus : string) :
  let js1 := AdminJs.getAdminTestDrives search status in
  let js2 := AdminJs.updateTestDriveStatus bookingId newStatus in
  let js3 := AdminJs.getDashboardData in
  let ts1 := AdminTs.getAdminTestDrives search status in
  let ts2 := AdminTs.updateTestDriveStatus bookingId newStatus in
  let ts3 := AdminTs.getDashboardData in
  ((forall u, caller w = Some u -> User.role u <> "ADMIN") ->
     denies js1 w "Unauthorized" [] /\
     denies js2 w "Unauthorized" [] /\
     denies js3 w "Unauthorized" [] /\
     denies ts1 w (refusal w) [ConsoleError "Error fetching test drives:"] /\
     denies ts2 w (refusal w) [ConsoleError "Error updating test drive:"] /\
     denies ts3 w (refusal w) [ConsoleError "Error fetching dashboard data:"] /\
     (refusal w = "Unauthorized" \/ refusal w = "Unauthorized access") /\
     (forall e, e ∈ guard_effects w -> e = AuthCall \/ e = DbRead UserTable))
  /\
  (forall u, caller w = Some u -> User.role u = "ADMIN" ->
     DbRead TestDriveBookingTable ∈ effects js1 w /\
     DbRead TestDriveBookingTable ∈ effects js2 w /\
     DbRead TestDriveBookingTable ∈ effects js3 w /\
     DbRead TestDriveBookingTable ∈ effects ts1 w /\
     DbRead TestDriveBookingTable ∈ effects ts2 w /\
     DbRead TestDriveBookingTable ∈ effects ts3 w).
Proof.
  intros js1 js2 js3 ts1 ts2 ts3. split.
  - intros Hnon. apply non_admin_caller in Hnon.
    split_and!.
    + apply (AdminJs_getAdminTestDrives_refused w Hnon).
    + apply (AdminJs_updateTestDriveStatus_refused w Hnon).
    + apply (AdminJs_getDashboardData_refused w Hnon).
    + apply (AdminTs_getAdminTestDrives_refused w Hnon).
    + apply (AdminTs_updateTestDriveStatus_refused w Hnon).
    + apply (AdminTs_getDashboardData_refused w Hnon).
    + unfold refusal. destruct (no_userId (session w)); auto.
    + apply guard_effects_reads.
  - intros u Hc Hr. pose proof (admin_caller_Some _ _ Hc Hr) as Hadmin.
    destruct (testDrives_js_run w u Hadmin search status) as [wh1 H1].
    destruct (testDrives_ts_run w u Hadmin search status) as [wh2 H2].
    destruct (update_reads_booking w u bookingId newStatus Hadmin) as [H3 H4].
    subst js1 js2 js3 ts1 ts2 ts3.
    rewrite (effects_logged _ _ _ _ H1), (effects_logged _ _ _ _ H2).
    rewrite (effects_logged _ _ _ _ (dashboard_js_run w u Hadmin)).
    rewrite (effects_logged _ _ _ _ (dashboard_ts_run w u Hadmin)).
    split_and!; try assumption;
      apply elem_of_app; right;
      repeat first [ apply list_elem_of_singleton; reflexivity
                   | apply elem_of_cons; first [ left; reflexivity | right ] ].
Qed.

(* ===================================================================== *)
(** * The dashboard's conversion rate                                     *)
(* ===================================================================== *)

Lemma filter_bool_Prop {A} (p : A -> bool) (P : A -> Prop) `{!forall x, Decision (P x)} l :
  (forall x, p x = true <-> P x) -> List.filter p l = filter P l.
Proof.
  intros Hp. induction l as [|x l IH]; [done|].
  simpl. rewrite filter_cons. destruct (decide (P x)) as [HP|HP].
  - apply Hp in HP. rewrite HP. by f_equal.
  - destruct (p x) eqn:E; [|done]. apply Hp in E. contradiction.
Qed.

Lemma td_is_completed td : Admin.td_is "COMPLETED" td = true <-> is_completed td.
Proof. unfold Admin.td_is, is_completed. apply String.eqb_eq. Qed.

Lemma includes_completed tdRows carId :
  Admin.includes (map Admin.td_carId (List.filter (Admin.td_is "COMPLETED") tdRows)) carId = true
  <-> has_completed_booking tdRows carId.
Proof.
  rewrite includes_elem_of. unfold has_completed_booking.
  rewrite Exists_exists, list_elem_of_In, in_map_iff. split.
  - intros (td & Hid & Hin). apply filter_In in Hin as [Hin Hc].
    exists td. split; [by apply list_elem_of_In|]. split; [by apply td_is_completed | done].
  - intros (td & Hin & Hc & Hid). exists td. split; [done|].
    apply filter_In. split; [by apply list_elem_of_In | by apply td_is_completed].
Qed.

Lemma has_completed tdRows carId :
  bool_decide
    (carId ∈ (list_to_set (map Admin.td_carId
                (List.filter (Admin.td_is "COMPLETED") tdRows)) : gset string)) = true
  <-> has_completed_booking tdRows carId.
Proof.
  rewrite bool_decide_eq_true, elem_of_list_to_set, <- includes_elem_of.
  apply includes_completed.
Qed.

Lemma soldAfterTD_filter carRows tdRows :
  AdminJs.soldAfterTD carRows tdRows
  = length (filter (sold_after_test_drive tdRows) carRows).
Proof.
  unfold AdminJs.soldAfterTD, Admin.count. f_equal.
  apply filter_bool_Prop. intros c. unfold sold_after_test_drive.
  rewrite andb_true_iff, includes_completed. unfold Admin.car_is.
  by rewrite String.eqb_eq.
Qed.

Lemma soldAfterTestDrive_filter carRows tdRows :
  AdminTs.soldAfterTestDrive carRows tdRows
  = length (filter (sold_after_test_drive tdRows) carRows).
Proof.
  unfold AdminTs.soldAfterTestDrive, Admin.count. f_equal.
  apply filter_bool_Prop. intros c. unfold sold_after_test_drive.
  rewrite andb_true_iff, has_completed. unfold Admin.car_is.
  by rewrite String.eqb_eq.
Qed.

Lemma completed_filter tdRows :
  Admin.count (Admin.td_is "COMPLETED") tdRows = length (filter is_completed tdRows).
Proof.
  unfold Admin.count. f_equal. apply filter_bool_Prop. apply td_is_completed.
Qed.

Lemma has_completed_again tdRows td carId :
  is_completed td ->
  has_completed_booking tdRows (Admin.td_carId td) ->
  has_completed_booking (td :: tdRows) carId <-> has_completed_booking tdRows carId.
Proof.
  unfold has_completed_booking, is_completed. intros Hc Hex. rewrite Exists_cons.
  split; [|auto]. intros [[_ <-]|H]; done.
Qed.

Lemma sold_distinct carRows tdRows :
  NoDup (map Admin.c_id carRows) ->
  length (filter (sold_after_test_drive tdRows) carRows)
  = size (list_to_set (map Admin.c_id (filter (sold_after_test_drive tdRows) carRows))
            : gset string).
Proof.
  intros Hnd. rewrite size_list_to_set; [by rewrite length_map|].
  eapply sublist_NoDup; [exact Hnd|].
  apply (fmap_sublist Admin.c_id), sublist_filter.
Qed.

(** C1. The numerator of the conversion rate is the number of cars with
    status SOLD that have at least one COMPLETED booking, each such car
    counted once however many completed bookings it has (with unique car
    ids: the number of distinct such ids); the denominator is the number
    of bookings with status COMPLETED, so a further completed booking of
    a car that already has one raises the denominator and not the
    numerator.  One SOLD car with two COMPLETED bookings gives 50.  Both
    variants of [getDashboardData] compute this. *)
Theorem conversion_rate_counts
    (carRows : list Admin.CarSel) (tdRows : list Admin.TestDriveSel) :
  let numerator := AdminJs.soldAfterTD carRows tdRows in
  let denominator := Admin.count (Admin.td_is "COMPLETED") tdRows in
  let board := Admin.stats carRows tdRows numerator in
  AdminTs.soldAfterTestDrive carRows tdRows = numerator /\
  numerator = length (filter (sold_after_test_drive tdRows) carRows) /\
  (NoDup (map Admin.c_id carRows) ->
     numerator
     = size (list_to_set (map Admin.c_id (filter (sold_after_test_drive tdRows) carRows))
               : gset string)) /\
  denominator = length (filter is_completed tdRows) /\
  Admin.completed (Admin.testDrives board) = denominator /\
  Admin.conversionRate (Admin.testDrives board)
  = Js.toFixed2_parseFloat
      (if (0 <? denominator)%nat
       then Js.mul (Js.div (Admin.of_nat numerator) (Admin.of_nat denominator)) (Js.of_Z 100)
       else Js.zero) /\
  (forall td, is_completed td -> has_completed_booking tdRows (Admin.td_carId td) ->
     AdminJs.soldAfterTD carRows (td :: tdRows) = numerator /\
     Admin.count (Admin.td_is "COMPLETED") (td :: tdRows) = S denominator) /\
  (forall w u, caller w = Some u -> User.role u = "ADMIN" ->
     carRows = map Admin.select_car (car w) ->
     tdRows = map Admin.select_testDrive (testDriveBooking w) ->
     result AdminJs.getDashboardData w = Normal (succeed board) /\
     result AdminTs.getDashboardData w = Normal (succeed board)) /\
  (forall carId isFeatured b1 b2,
     let sold := [Admin.mkCarSel carId "SOLD" isFeatured] in
     let twice := [Admin.mkTestDriveSel b1 "COMPLETED" carId;
                   Admin.mkTestDriveSel b2 "COMPLETED" carId] in
     AdminJs.soldAfterTD sold twice = 1%nat /\
     Admin.count (Admin.td_is "COMPLETED") twice = 2%nat /\
     Admin.conversionRate
       (Admin.testDrives (Admin.stats sold twice (AdminJs.soldAfterTD sold twice)))
     = Js.of_Z 50).
Proof.
  intros numerator denominator board.
  assert (AdminTs.soldAfterTestDrive carRows tdRows = numerator) as Hsame.
  { subst numerator. by rewrite soldAfterTestDrive_filter, soldAfterTD_filter. }
  split_and!.
  - exact Hsame.
  - apply soldAfterTD_filter.
  - intros Hnd. subst numerator. rewrite soldAfterTD_filter. by apply sold_distinct.
  - apply completed_filter.
  - reflexivity.
  - reflexivity.
  - intros td Hc Hhas. split.
    + subst numerator. rewrite !soldAfterTD_filter. f_equal.
      apply list_filter_iff. intros c. unfold sold_after_test_drive.
      by rewrite (has_completed_again tdRows td).
    + unfold Admin.count. simpl. apply td_is_completed in Hc. by rewrite Hc.
  - intros w u Hc Hr -> ->. pose proof (admin_caller_Some _ _ Hc Hr) as Hadmin.
    unfold result. rewrite (dashboard_js_run w u Hadmin), (dashboard_ts_run w u Hadmin).
    cbn [fst]. subst board numerator. by rewrite Hsame.
  - intros carId isFeatured b1 b2 sold twice.
    assert (AdminJs.soldAfterTD sold twice = 1%nat) as Hone.
    { unfold AdminJs.soldAfterTD, Admin.count, Admin.includes, Admin.car_is, Admin.td_is.
      simpl. by rewrite String.eqb_refl. }
    split; [exact Hone|]. split; [reflexivity|].
    rewrite Hone. reflexivity.
Qed.

Lemma count_completed_none tdRows :
  (forall td, td ∈ tdRows -> ~ is_completed td) ->
  Admin.count (Admin.td_is "COMPLETED") tdRows = 0%nat.
Proof.
  intros Hno. unfold Admin.count.
  induction tdRows as [|td tdRows IH]; [done|]. simpl.
  destruct (Admin.td_is "COMPLETED" td) eqn:E.
  - apply td_is_completed in E. destruct (Hno td); [apply elem_of_cons; by left | done].
  - apply IH. intros td' Hin. apply Hno. apply elem_of_cons; by right.
Qed.

Lemma rate_zero_completed carRows tdRows n :
  Admin.count (Admin.td_is "COMPLETED") tdRows = 0%nat ->
  Admin.conversionRate (Admin.testDrives (Admin.stats carRows tdRows n)) = Js.zero.
Proof. intros H. unfold Admin.stats. simpl. rewrite H. reflexivity. Qed.

(** C2. When no booking has status COMPLETED, [getDashboardData] (both
    variants, for an administrator) succeeds with [conversionRate]
    exactly 0: the quotient is not formed whatever the number of cars,
    so the rate is neither NaN nor infinite. *)
Theorem conversion_rate_zero_without_completed (w : World) (u : User.t) :
  caller w = Some u ->
  User.role u = "ADMIN" ->
  (forall b, b ∈ testDriveBooking w -> TestDriveBooking.status b <> "COMPLETED") ->
  exists js ts,
    result AdminJs.getDashboardData w = Normal (succeed js) /\
    result AdminTs.getDashboardData w = Normal (succeed ts) /\
    Admin.completed (Admin.testDrives js) = 0%nat /\
    Admin.completed (Admin.testDrives ts) = 0%nat /\
    Admin.conversionRate (Admin.testDrives js) = S754_zero false /\
    Admin.conversionRate (Admin.testDrives ts) = S754_zero false /\
    (forall soldAfterTD, Admin.rate soldAfterTD 0 = S754_zero false).
Proof.
  intros Hc Hr Hno. pose proof (admin_caller_Some _ _ Hc Hr) as Hadmin.
  assert (Admin.count (Admin.td_is "COMPLETED")
            (map Admin.select_testDrive (testDriveBooking w)) = 0%nat) as Hzero.
  { apply count_completed_none. intros td Hin Hcompl.
    apply list_elem_of_fmap in Hin as (b & -> & Hb).
    by apply (Hno b Hb). }
  eexists _, _. unfold result.
  rewrite (dashboard_js_run w u Hadmin), (dashboard_ts_run w u Hadmin). cbn [fst].
  split_and!; try reflexivity; try exact Hzero; by apply rate_zero_completed.
Qed.

(* ===================================================================== *)
(** * The wishlist toggle                                                 *)
(* ===================================================================== *)

Lemma saved_findUnique_existsb userId carId rows :
  Prisma.saved_findUnique userId carId rows = None
  <-> existsb (Prisma.same_pair userId carId) rows = false.
Proof.
  unfold Prisma.saved_findUnique. induction rows as [|r rows IH]; simpl; [done|].
  destruct (Prisma.same_pair userId carId r); simpl; [split; discriminate | exact IH].
Qed.

Lemma same_pair_iff userId carId s :
  Prisma.same_pair userId carId s = true
  <-> UserSavedCar.userId s = userId /\ UserSavedCar.carId s = carId.
Proof. unfold Prisma.same_pair. by rewrite andb_true_iff, !String.eqb_eq. Qed.

Lemma same_pair_other userId carId userId' carId' s :
  (userId', carId') <> (userId, carId) ->
  Prisma.same_pair userId' carId' s = true ->
  Prisma.same_pair userId carId s = false.
Proof.
  intros Hne H'. apply same_pair_iff in H' as [<- <-].
  destruct (Prisma.same_pair userId carId s) eqn:E; [|done].
  apply same_pair_iff in E as [<- <-]. done.
Qed.

Lemma delete_removes userId carId rows :
  List.filter (Prisma.same_pair userId carId) (Prisma.saved_delete userId carId rows) = [].
Proof.
  unfold Prisma.saved_delete. induction rows as [|r rows IH]; simpl; [done|].
  destruct (Prisma.same_pair userId carId r) eqn:E; simpl; [exact IH|].
  by rewrite E.
Qed.

Lemma delete_keeps_others userId carId userId' carId' rows :
  (userId', carId') <> (userId, carId) ->
  List.filter (Prisma.same_pair userId' carId') (Prisma.saved_delete userId carId rows)
  = List.filter (Prisma.same_pair userId' carId') rows.
Proof.
  intros Hne. unfold Prisma.saved_delete.
  induction rows as [|r rows IH]; simpl; [done|].
  destruct (Prisma.same_pair userId' carId' r) eqn:E'.
  - rewrite (same_pair_other _ _ _ _ _ Hne E'). simpl. rewrite E'. by f_equal.
  - destruct (Prisma.same_pair userId carId r); simpl; [exact IH|]. by rewrite E'.
Qed.

Lemma create_adds userId carId t rows :
  existsb (Prisma.same_pair userId carId) rows = false ->
  List.filter (Prisma.same_pair userId carId) (Prisma.saved_create userId carId t rows)
  = [UserSavedCar.mk userId carId t].
Proof.
  intros Hno. unfold Prisma.saved_create. rewrite List.filter_app. simpl.
  unfold Prisma.same_pair at 2. simpl. rewrite !String.eqb_refl. simpl.
  replace (List.filter (Prisma.same_pair userId carId) rows) with (@nil UserSavedCar.t); [done|].
  symmetry. induction rows as [|r rows IH]; simpl in *; [done|].
  apply orb_false_iff in Hno as [-> Hno]. by apply IH.
Qed.

Lemma create_keeps_others userId carId userId' carId' t rows :
  (userId', carId') <> (userId, carId) ->
  List.filter (Prisma.same_pair userId' carId') (Prisma.saved_create userId carId t rows)
  = List.filter (Prisma.same_pair userId' carId') rows.
Proof.
  intros Hne. unfold Prisma.saved_create. rewrite List.filter_app. simpl.
  destruct (Prisma.same_pair userId' carId' (UserSavedCar.mk userId carId t)) eqn:E.
  - apply same_pair_iff in E as [E1 E2]. simpl in *. by subst.
  - by rewrite app_nil_r.
Qed.

Lemma existsb_filter_nil {A} (p : A -> bool) l :
  existsb p l = negb (Nat.eqb (length (List.filter p l)) 0).
Proof.
  induction l as [|x l IH]; simpl; [done|]. by destruct (p x).
Qed.

Section Toggle.
Context (w : World) (usr : User.t) (carId : string) (theCar : Car.t).
Context (Hcaller : caller w = Some usr).
Context (Hcar : Prisma.car_findUnique carId (car w) = Some theCar).

Let userId := User.id usr.
Let rows := userSavedCar w.

Lemma toggle_run :
  CarListing.toggleSavedCar carId w =
  (Normal (succeed (CarListing.mkSaved (negb (wishlisted userId carId w)))),
   logged [RevalidatePath "/saved-cars"; RevalidatePath (String.append "/car/" carId)]
     (set_userSavedCar (toggled_rows userId carId w)
        (logged (guard_effects w ++
                 [DbRead CarTable; DbRead UserSavedCarTable; DbWrite UserSavedCarTable])
                w))).
Proof.
  unfold toggled_rows, wishlisted. subst userId rows.
  unfold CarListing.toggleSavedCar, try_catch, bind. rewrite getDbUser_run, Hcaller.
  generalize (guard_effects w) as g. intros g.
  destruct w as [s us cs bs ss ds n tr]. run. simpl in Hcar. rewrite Hcar.
  destruct (Prisma.saved_findUnique (User.id usr) carId ss) eqn:E.
  - assert (existsb (Prisma.same_pair (User.id usr) carId) ss = true) as ->.
    { destruct (existsb _ ss) eqn:E'; [done|].
      apply saved_findUnique_existsb in E'. congruence. }
    unfold CarListing.delete_saved. run. rewrite E. run. reflexivity.
  - pose proof E as E'. apply saved_findUnique_existsb in E'. rewrite E'.
    unfold CarListing.create_saved. run. rewrite E. run. reflexivity.
Qed.
End Toggle.

Lemma userSavedCar_set rows w : userSavedCar (set_userSavedCar rows w) = rows.
Proof. by destruct w. Qed.

Lemma caller_set_userSavedCar rows w : caller (set_userSavedCar rows w) = caller w.
Proof. by destruct w. Qed.

Lemma car_set_userSavedCar rows w : car (set_userSavedCar rows w) = car w.
Proof. by destruct w. Qed.

Lemma toggled_membership userId carId w :
  existsb (Prisma.same_pair userId carId) (toggled_rows userId carId w)
  = negb (wishlisted userId carId w).
Proof.
  unfold toggled_rows. destruct (wishlisted userId carId w) eqn:E.
  - by rewrite existsb_filter_nil, delete_removes.
  - rewrite existsb_filter_nil, create_adds; done.
Qed.

Lemma toggled_count userId carId w :
  length (List.filter (Prisma.same_pair userId carId) (toggled_rows userId carId w))
  = if wishlisted userId carId w then 0%nat else 1%nat.
Proof.
  unfold toggled_rows. destruct (wishlisted userId carId w) eqn:E.
  - by rewrite delete_removes.
  - by rewrite create_adds.
Qed.

Lemma toggled_others userId carId userId' carId' w :
  (userId', carId') <> (userId, carId) ->
  List.filter (Prisma.same_pair userId' carId') (toggled_rows userId carId w)
  = List.filter (Prisma.same_pair userId' carId') (userSavedCar w).
Proof.
  intros Hne. unfold toggled_rows. destruct (wishlisted userId carId w).
  - by apply delete_keeps_others.
  - by apply create_keeps_others.
Qed.

(** C4. For an authenticated caller and an existing car, one call of
    [toggleSavedCar] flips the membership of the pair and reports the new
    membership ([saved] true after a create, false after a delete); a
    second call flips it back, so two calls leave the membership as it
    was; after either call the table has at most one row for the pair
    (exactly one when saved, none otherwise), and the other pairs are as
    before. *)
Theorem toggleSavedCar_twice
    (w : World) (usr : User.t) (carId : string) (theCar : Car.t) :
  caller w = Some usr ->
  Prisma.car_findUnique carId (car w) = Some theCar ->
  let toggle := CarListing.toggleSavedCar carId in
  let userId := User.id usr in
  let w1 := after toggle w in
  let w2 := after toggle w1 in
  result toggle w = Normal (succeed (CarListing.mkSaved (negb (wishlisted userId carId w)))) /\
  wishlisted userId carId w1 = negb (wishlisted userId carId w) /\
  result toggle w1 = Normal (succeed (CarListing.mkSaved (wishlisted userId carId w))) /\
  wishlisted userId carId w2 = wishlisted userId carId w /\
  saved_rows userId carId w1 = (if wishlisted userId carId w then 0 else 1)%nat /\
  saved_rows userId carId w2 = (if wishlisted userId carId w then 1 else 0)%nat /\
  (saved_rows userId carId w1 <= 1)%nat /\
  (saved_rows userId carId w2 <= 1)%nat /\
  (forall userId' carId', (userId', carId') <> (userId, carId) ->
     saved_rows userId' carId' w1 = saved_rows userId' carId' w /\
     saved_rows userId' carId' w2 = saved_rows userId' carId' w).
Proof.
  intros Hcaller Hcar toggle userId w1 w2.
  pose proof (toggle_run w usr carId theCar Hcaller Hcar) as H1.
  assert (userSavedCar w1 = toggled_rows userId carId w) as Hrows1.
  { subst w1 toggle. unfold after. rewrite H1. cbn [snd].
    by rewrite userSavedCar_logged, userSavedCar_set. }
  assert (caller w1 = Some usr) as Hcaller1.
  { subst w1 toggle. unfold after. rewrite H1. cbn [snd].
    by rewrite caller_logged, caller_set_userSavedCar, caller_logged. }
  assert (Prisma.car_findUnique carId (car w1) = Some theCar) as Hcar1.
  { subst w1 toggle. unfold after. rewrite H1. cbn [snd].
    by rewrite car_logged, car_set_userSavedCar, car_logged. }
  pose proof (toggle_run w1 usr carId theCar Hcaller1 Hcar1) as H2.
  assert (userSavedCar w2 = toggled_rows userId carId w1) as Hrows2.
  { subst w2 toggle. unfold after. rewrite H2. cbn [snd].
    by rewrite userSavedCar_logged, userSavedCar_set. }
  assert (wishlisted userId carId w1 = negb (wishlisted userId carId w)) as Hflip1.
  { unfold wishlisted at 1. rewrite Hrows1. apply toggled_membership. }
  assert (wishlisted userId carId w2 = wishlisted userId carId w) as Hflip2.
  { unfold wishlisted at 1. rewrite Hrows2, toggled_membership, Hflip1.
    apply negb_involutive. }
  assert (saved_rows userId carId w1
          = (if wishlisted userId carId w then 0 else 1)%nat) as Hn1.
  { unfold saved_rows. rewrite Hrows1. apply toggled_count. }
  assert (saved_rows userId carId w2
          = (if wishlisted userId carId w then 1 else 0)%nat) as Hn2.
  { unfold saved_rows. rewrite Hrows2, toggled_count, Hflip1.
    by destruct (wishlisted userId carId w). }
  split_and!.
  - unfold result, toggle. by rewrite H1.
  - exact Hflip1.
  - unfold result, toggle. rewrite H2. cbn [fst]. fold userId.
    by rewrite Hflip1, negb_involutive.
  - exact Hflip2.
  - exact Hn1.
  - exact Hn2.
  - rewrite Hn1. destruct (wishlisted userId carId w); lia.
  - rewrite Hn2. destruct (wishlisted userId carId w); lia.
  - intros userId' carId' Hne. unfold saved_rows.
    rewrite Hrows2, (toggled_others _ _ _ _ w1 Hne), Hrows1.
    by rewrite (toggled_others _ _ _ _ w Hne).
Qed.

(* ===================================================================== *)
(** * The car listing                                                     *)
(* ===================================================================== *)

Lemma getCars_run p w :
  CarListing.getCars p w =
  match Prisma.car_findMany (CarListing.build_where p) (CarListing.limit p)
          ((CarListing.page p - 1) * CarListing.limit p)
          (CarListing.order_of (CarListing.sortBy p)) (car w) with
  | None =>
      (Normal (CarListing.mkCarsReply (fail "Failed to fetch cars") None),
       logged (guard_effects w ++ [DbRead CarTable; DbRead CarTable]) w)
  | Some cars =>
      (Normal
         (CarListing.mkCarsReply
            (succeed (map (serialize_for w) cars))
            (Some (CarListing.mkPagination
                     (Prisma.car_count (CarListing.build_where p) (car w))
                     (CarListing.page p) (CarListing.limit p)
                     (CarListing.page_count
                        (Prisma.car_count (CarListing.build_where p) (car w))
                        (CarListing.limit p))))),
       logged (listing_effects w) w)
  end.
Proof.
  unfold CarListing.getCars, try_catch, bind. rewrite getDbUser_run.
  unfold listing_effects, serialize_for, saved_ids.
  generalize (guard_effects w) as g. intros g.
  destruct (caller w) as [usr|] eqn:Hc.
  - destruct w as [s us cs bs ss ds n tr]. run.
    destruct (Prisma.car_findMany _ _ _ _ cs); run; reflexivity.
  - destruct w as [s us cs bs ss ds n tr]. run.
    destruct (Prisma.car_findMany _ _ _ _ cs); run; reflexivity.
Qed.

Lemma paginate_elem_of {A} take skip (rows l : list A) x :
  Prisma.paginate take skip rows = Some l -> x ∈ l -> x ∈ rows.
Proof.
  unfold Prisma.paginate. destruct (skip <? 0); [discriminate|].
  destruct (0 <=? take); intros [= <-] Hin.
  - by apply subseteq_take, subseteq_drop in Hin.
  - apply list_elem_of_In, in_rev, list_elem_of_In in Hin.
    apply subseteq_take, subseteq_drop in Hin.
    by apply list_elem_of_In, in_rev, list_elem_of_In.
Qed.

Lemma car_sorted_perm wh o rows :
  Prisma.car_sorted wh o rows ≡ₚ List.filter (Prisma.car_matches wh) rows.
Proof. apply merge_sort_Permutation. Qed.

Lemma car_sorted_elem_of wh o rows c :
  c ∈ Prisma.car_sorted wh o rows <-> c ∈ rows /\ Prisma.car_matches wh c = true.
Proof.
  rewrite car_sorted_perm, !list_elem_of_In. apply filter_In.
Qed.

(** Every item of a successful listing is the serialisation of a stored
    car that matches the [where] object. *)
Lemma getCars_items p w r items :
  result (CarListing.getCars p) w = Normal r ->
  data (CarListing.reply r) = Some items ->
  forall item, item ∈ items ->
    exists c, c ∈ car w /\ Prisma.car_matches (CarListing.build_where p) c = true /\
              item = serialize_for w c.
Proof.
  unfold result. rewrite getCars_run.
  destruct (Prisma.car_findMany _ _ _ _ _) as [cars|] eqn:E; cbn [fst];
    intros [= <-]; cbn; [|discriminate].
  intros [= <-] item Hin. apply list_elem_of_fmap in Hin as (c & -> & Hc).
  exists c. unfold Prisma.car_findMany in E.
  apply (paginate_elem_of _ _ _ _ _ E), car_sorted_elem_of in Hc as [Hc Hm]. done.
Qed.


Lemma car_matches_build_where p c :
  Prisma.car_matches (CarListing.build_where p) c = true ->
  Car.status c = "AVAILABLE" /\
  Prisma.price_matches
    (Prisma.mkPrice (CarListing.lower_bound (CarListing.minPrice p))
                    (CarListing.upper_bound (CarListing.maxPrice p)))
    (Car.price c) = true.
Proof.
  unfold Prisma.car_matches, CarListing.build_where. cbn.
  rewrite !andb_true_iff. intros [[[[[[Hs _] _] _] _] _] Hp].
  split; [by apply String.eqb_eq | done].
Qed.

(** C10. Every car a call of [getCars] returns has status AVAILABLE,
    whatever the search, categorical, price, sort and pagination
    arguments are: the [where] object always carries
    [status: "AVAILABLE"], and no argument changes that key. *)
Theorem getCars_only_available
    (w : World) (p : CarListing.Params) (r : CarListing.CarsReply)
    (items : list SerializedCar.t) :
  result (CarListing.getCars p) w = Normal r ->
  data (CarListing.reply r) = Some items ->
  Prisma.w_status (CarListing.build_where p) = Some "AVAILABLE" /\
  (forall item, item ∈ items -> SerializedCar.status item = "AVAILABLE") /\
  (forall item, item ∈ items ->
     exists c, c ∈ car w /\ Car.status c = "AVAILABLE" /\ SerializedCar.id item = Car.id c).
Proof.
  intros Hr Hd. split; [reflexivity|]. split.
  - intros item Hin.
    destruct (getCars_items p w r items Hr Hd item Hin) as (c & _ & Hm & ->).
    by apply car_matches_build_where in Hm as [Hs _].
  - intros item Hin.
    destruct (getCars_items p w r items Hr Hd item Hin) as (c & Hc & Hm & ->).
    exists c. by apply car_matches_build_where in Hm as [Hs _].
Qed.

(* ===================================================================== *)
(** * Price bounds of the listing                                         *)
(* ===================================================================== *)






(* ===================================================================== *)
(** * Pagination of the listing                                           *)
(* ===================================================================== *)

Lemma Qle_bool_total a b : Qle_bool a b = true \/ Qle_bool b a = true.
Proof.
  destruct (Qlt_le_dec b a) as [H|H].
  - right. apply Qle_bool_iff. by apply Qlt_le_weak.
  - left. by apply Qle_bool_iff.
Qed.

#[global] Instance car_order_total o : Total (fun a b => Is_true (Prisma.car_leb o a b)).
Proof.
  intros a b. unfold Prisma.car_leb. destruct o.
  - destruct (Qle_bool_total (Car.price a) (Car.price b)) as [-> | ->]; simpl; auto.
  - destruct (Qle_bool_total (Car.price b) (Car.price a)) as [-> | ->]; simpl; auto.
  - destruct (Z.leb_spec (Car.createdAt b) (Car.createdAt a)); [left; done|].
    right. apply Is_true_true, Z.leb_le. lia.
Qed.

Lemma car_sorted_Sorted wh o rows :
  Sorted (fun a b => Is_true (Prisma.car_leb o a b)) (Prisma.car_sorted wh o rows).
Proof. apply (Sorted_merge_sort _). Qed.

Lemma page_lookup {A} (l : list A) (n k i : nat) :
  take n (drop k l) !! i = if decide (i < n)%nat then l !! (k + i)%nat else None.
Proof.
  destruct (decide (i < n)%nat) as [Hlt|Hge].
  - by rewrite lookup_take_lt, lookup_drop.
  - apply lookup_take_ge. lia.
Qed.

Lemma paginate_positive {A} take_ skip (rows : list A) :
  0 <= take_ -> 0 <= skip ->
  Prisma.paginate take_ skip rows
  = Some (take (Z.to_nat take_) (drop (Z.to_nat skip) rows)).
Proof.
  intros Ht Hs. unfold Prisma.paginate.
  destruct (Z.ltb_spec skip 0); [lia|].
  destruct (Z.leb_spec 0 take_); [reflexivity | lia].
Qed.

(** [page_count] is the ceiling of the quotient. *)
Lemma page_count_ceiling totalCars limit :
  0 < limit ->
  let pages := CarListing.page_count totalCars limit in
  (pages - 1) * limit < totalCars <= pages * limit.
Proof.
  intros Hl. unfold CarListing.page_count.
  destruct (Z.ltb_spec 0 limit); [|lia]. cbn zeta.
  pose proof (Z.div_mod (- totalCars) limit ltac:(lia)) as Hdm.
  pose proof (Z.mod_pos_bound (- totalCars) limit Hl) as Hb.
  nia.
Qed.

Lemma page_count_no_limit totalCars limit :
  limit <= 0 -> CarListing.page_count totalCars limit = 0.
Proof.
  intros Hl. unfold CarListing.page_count. destruct (Z.ltb_spec 0 limit); [lia | done].
Qed.

(** C6. For positive [page] and [limit], [getCars] succeeds and its
    i-th item (i < limit) is element (page-1)*limit + i of the matching
    cars in the requested order: elements (page-1)*limit+1 to page*limit
    counted from one, so items 7 to 12 for page 2 and limit 6.
    [pagination.total] is the number of matching cars whatever the page,
    [pagination.pages] is the ceiling of total/limit (and 0 when limit is
    not positive), and a page past the end is empty, not an error. *)
Theorem getCars_pagination (w : World) (p : CarListing.Params) :
  0 < CarListing.page p ->
  0 < CarListing.limit p ->
  let wh := CarListing.build_where p in
  let order := CarListing.order_of (CarListing.sortBy p) in
  let matching := List.filter (Prisma.car_matches wh) (car w) in
  let sorted := Prisma.car_sorted wh order (car w) in
  let skip := Z.to_nat ((CarListing.page p - 1) * CarListing.limit p) in
  exists items pg,
    result (CarListing.getCars p) w
    = Normal (CarListing.mkCarsReply (succeed items) (Some pg)) /\
    sorted ≡ₚ matching /\
    Sorted (fun a b => Is_true (Prisma.car_leb order a b)) sorted /\
    (forall i : nat,
       items !! i
       = if decide (i < Z.to_nat (CarListing.limit p))%nat
         then serialize_for w <$> sorted !! (skip + i)%nat
         else None) /\
    (CarListing.page p = 2 -> CarListing.limit p = 6 ->
     forall i : nat, (i < 6)%nat ->
       items !! i = serialize_for w <$> sorted !! (6 + i)%nat) /\
    CarListing.total pg = Z.of_nat (length matching) /\
    CarListing.pg_page pg = CarListing.page p /\
    CarListing.pg_limit pg = CarListing.limit p /\
    (CarListing.pages pg - 1) * CarListing.limit p < CarListing.total pg
      <= CarListing.pages pg * CarListing.limit p /\
    (CarListing.total pg <= (CarListing.page p - 1) * CarListing.limit p -> items = []) /\
    (forall totalCars limit, limit <= 0 -> CarListing.page_count totalCars limit = 0).
Proof.
  intros Hpage Hlimit wh order matching sorted skip.
  assert (forall i : nat,
            (serialize_for w <$> take (Z.to_nat (CarListing.limit p)) (drop skip sorted)) !! i
            = if decide (i < Z.to_nat (CarListing.limit p))%nat
              then serialize_for w <$> sorted !! (skip + i)%nat
              else None) as Hlookup.
  { intros i. rewrite list_lookup_fmap, page_lookup. by case_decide. }
  eexists _, _. unfold result. rewrite getCars_run. unfold Prisma.car_findMany.
  rewrite paginate_positive by nia. cbn [fst]. split_and!.
  - reflexivity.
  - apply car_sorted_perm.
  - apply car_sorted_Sorted.
  - exact Hlookup.
  - intros Hp2 Hl6 i Hi. rewrite Hlookup. subst skip. rewrite Hp2, Hl6.
    case_decide; [reflexivity | lia].
  - reflexivity.
  - reflexivity.
  - reflexivity.
  - cbn [CarListing.total CarListing.pages]. by apply page_count_ceiling.
  - cbn [CarListing.total CarListing.pages]. by apply page_count_ceiling.
  - cbn [CarListing.total]. unfold Prisma.car_count. fold wh matching. intros Hpast.
    rewrite drop_ge; [by rewrite take_nil|].
    fold order. fold sorted. subst sorted. rewrite car_sorted_perm.
    fold matching. subst skip. lia.
  - apply page_count_no_limit.
Qed.

(* ===================================================================== *)
(** * The filters of the marketplace                                      *)
(* ===================================================================== *)

Lemma status_filter st rows :
  List.filter (fun c => String.eqb (Car.status c) st) rows
  = filter (fun c => Car.status c = st) rows.
Proof. apply filter_bool_Prop. intros c. apply String.eqb_eq. Qed.

Lemma getCarFilters_run {engine : Js.LowerCase} w :
  result CarListing.getCarFilters w =
  Normal (succeed
    (CarListing.mkFilters
       (map Js.toLowerCase (Prisma.car_distinct "AVAILABLE" Car.make (car w)))
       (map Js.toLowerCase (Prisma.car_distinct "AVAILABLE" Car.bodyType (car w)))
       (map Js.toLowerCase (Prisma.car_distinct "AVAILABLE" Car.fuelType (car w)))
       (map Js.toLowerCase (Prisma.car_distinct "AVAILABLE" Car.transmission (car w)))
       (CarListing.mkPriceRange
          (CarListing.price_or 0 (fst (Prisma.car_aggregate_price "AVAILABLE" (car w))))
          (CarListing.price_or 100000
             (snd (Prisma.car_aggregate_price "AVAILABLE" (car w))))))).
Proof.
  unfold result, CarListing.getCarFilters. destruct w as [s us cs bs ss ds n tr].
  run. reflexivity.
Qed.

Lemma car_distinct_elem_of st column rows v :
  v ∈ Prisma.car_distinct st column rows <->
  exists c, c ∈ rows /\ Car.status c = st /\ v = column c.
Proof.
  unfold Prisma.car_distinct. rewrite status_filter.
  rewrite merge_sort_Permutation, elem_of_remove_dups, list_elem_of_fmap.
  split.
  - intros (c & -> & Hc). apply list_elem_of_filter in Hc as [Hs Hc]. by exists c.
  - intros (c & Hc & Hs & ->). exists c. split; [done|].
    by apply list_elem_of_filter.
Qed.

Lemma car_distinct_NoDup st column rows :
  NoDup (Prisma.car_distinct st column rows).
Proof.
  unfold Prisma.car_distinct. rewrite merge_sort_Permutation. apply NoDup_remove_dups.
Qed.

Lemma car_distinct_lowercase {engine : Js.LowerCase} column w :
  lowercase_of_distinct column w
    (map Js.toLowerCase (Prisma.car_distinct "AVAILABLE" column (car w))).
Proof.
  exists (Prisma.car_distinct "AVAILABLE" column (car w)). split_and!.
  - reflexivity.
  - apply car_distinct_NoDup.
  - intros v. apply car_distinct_elem_of.
  - intros Hinj. apply NoDup_fmap_2_strong; [|apply car_distinct_NoDup].
    intros a b Ha Hb Hab. by apply Hinj.
Qed.

Lemma aggregate_None pick l : Prisma.aggregate pick l = None <-> l = [].
Proof.
  destruct l as [|p l]; simpl; [done|].
  destruct (Prisma.aggregate pick l); split; discriminate.
Qed.

Lemma Qle_bool_false a b : Qle_bool a b = false -> Qle b a.
Proof.
  intros H. destruct (Qlt_le_dec b a) as [Hlt|Hle]; [by apply Qlt_le_weak|].
  apply Qle_bool_iff in Hle. congruence.
Qed.

Lemma aggregate_least l m :
  Prisma.aggregate Prisma.Qleast l = Some m ->
  m ∈ l /\ forall x, x ∈ l -> Qle m x.
Proof.
  revert m. induction l as [|p l IH]; simpl; [discriminate|].
  destruct (Prisma.aggregate Prisma.Qleast l) as [m'|] eqn:E.
  - intros m [= <-]. destruct (IH m' eq_refl) as [Hin Hle].
    unfold Prisma.Qleast. destruct (Qle_bool p m') eqn:Hc.
    + apply Qle_bool_iff in Hc. split; [apply elem_of_cons; by left|].
      intros x [->|Hx]%elem_of_cons; [apply Qle_refl|].
      eapply Qle_trans; [exact Hc | by apply Hle].
    + apply Qle_bool_false in Hc. split; [apply elem_of_cons; by right|].
      intros x [->|Hx]%elem_of_cons; [exact Hc | by apply Hle].
  - apply aggregate_None in E as ->. intros m [= <-].
    split; [apply elem_of_cons; by left|].
    intros x [->|Hx]%elem_of_cons; [apply Qle_refl | by apply elem_of_nil in Hx].
Qed.

Lemma aggregate_greatest l m :
  Prisma.aggregate Prisma.Qgreatest l = Some m ->
  m ∈ l /\ forall x, x ∈ l -> Qle x m.
Proof.
  revert m. induction l as [|p l IH]; simpl; [discriminate|].
  destruct (Prisma.aggregate Prisma.Qgreatest l) as [m'|] eqn:E.
  - intros m [= <-]. destruct (IH m' eq_refl) as [Hin Hle].
    unfold Prisma.Qgreatest. destruct (Qle_bool p m') eqn:Hc.
    + apply Qle_bool_iff in Hc. split; [apply elem_of_cons; by right|].
      intros x [->|Hx]%elem_of_cons; [exact Hc | by apply Hle].
    + apply Qle_bool_false in Hc. split; [apply elem_of_cons; by left|].
      intros x [->|Hx]%elem_of_cons; [apply Qle_refl|].
      eapply Qle_trans; [by apply Hle | exact Hc].
  - apply aggregate_None in E as ->. intros m [= <-].
    split; [apply elem_of_cons; by left|].
    intros x [->|Hx]%elem_of_cons; [apply Qle_refl | by apply elem_of_nil in Hx].
Qed.

(** C7, as the code has it.  [getCarFilters] returns, for each of make,
    bodyType, fuelType and transmission, the lowercase forms of the
    distinct values stored among the cars with status AVAILABLE, one
    entry for each stored value (so that the entries are pairwise
    different whenever no two stored values share a lowercase form), and
    the least and the greatest price among the cars with status
    AVAILABLE as well (not among all cars); when no car is AVAILABLE the
    range is 0 to 100000. *)
Theorem getCarFilters_available {engine : Js.LowerCase} (w : World) :
  exists f,
    result CarListing.getCarFilters w = Normal (succeed f) /\
    lowercase_of_distinct Car.make w (CarListing.makes f) /\
    lowercase_of_distinct Car.bodyType w (CarListing.bodyTypes f) /\
    lowercase_of_distinct Car.fuelType w (CarListing.fuelTypes f) /\
    lowercase_of_distinct Car.transmission w (CarListing.transmissions f) /\
    (available_cars w = [] ->
       CarListing.min (CarListing.priceRange f) = Js.of_Z 0 /\
       CarListing.max (CarListing.priceRange f) = Js.of_Z 100000) /\
    (available_cars w <> [] ->
       exists cheapest dearest,
         cheapest ∈ available_cars w /\ dearest ∈ available_cars w /\
         CarListing.min (CarListing.priceRange f) = Js.of_Q (Car.price cheapest) /\
         CarListing.max (CarListing.priceRange f) = Js.of_Q (Car.price dearest) /\
         forall c, c ∈ available_cars w ->
           Qle (Car.price cheapest) (Car.price c) /\ Qle (Car.price c) (Car.price dearest)).
Proof.
  eexists. split; [apply getCarFilters_run|].
  cbn [CarListing.makes CarListing.bodyTypes CarListing.fuelTypes
       CarListing.transmissions CarListing.priceRange CarListing.min CarListing.max].
  unfold Prisma.car_aggregate_price, available_cars. rewrite status_filter. cbn [fst snd].
  set (avail := filter (fun c => Car.status c = "AVAILABLE") (car w)).
  split_and!; try apply car_distinct_lowercase.
  - intros Hnil. rewrite Hnil. done.
  - intros Hne.
    destruct (Prisma.aggregate Prisma.Qleast (map Car.price avail)) as [lo|] eqn:Elo.
    2:{ apply aggregate_None in Elo. by destruct avail. }
    destruct (Prisma.aggregate Prisma.Qgreatest (map Car.price avail)) as [hi|] eqn:Ehi.
    2:{ apply aggregate_None in Ehi. by destruct avail. }
    apply aggregate_least in Elo as [Hlo Hleast].
    apply aggregate_greatest in Ehi as [Hhi Hgreatest].
    apply list_elem_of_fmap in Hlo as (cheapest & -> & Hc).
    apply list_elem_of_fmap in Hhi as (dearest & -> & Hd).
    exists cheapest, dearest. split_and!; try done.
    intros c Hin. split.
    + apply Hleast. by apply list_elem_of_fmap_2.
    + apply Hgreatest. by apply list_elem_of_fmap_2.
Qed.

(* ===================================================================== *)
(** * Anonymous callers                                                   *)
(* ===================================================================== *)

Lemma getCarById_anonymous w carId theCar :
  caller w = None ->
  Prisma.car_findUnique carId (car w) = Some theCar ->
  CarListing.getCarById carId w =
  (Normal (succeed
     (CarListing.mkCarDetails (serializeCarData theCar false)
        (CarListing.mkTestDriveInfo None
           (option_map CarListing.serialize_dealership (head (dealershipInfo w)))))),
   logged (guard_effects w ++ [DbRead CarTable; DbRead DealershipInfoTable]) w).
Proof.
  intros Hc Hcar. unfold CarListing.getCarById, try_catch, bind.
  rewrite getDbUser_run, Hc. generalize (guard_effects w) as g. intros g.
  destruct w as [s us cs bs ss ds n tr]. run. simpl in Hcar. rewrite Hcar.
  run. reflexivity.
Qed.

Lemma not_in_guard_effects w tbl :
  tbl <> UserTable -> DbRead tbl ∉ guard_effects w.
Proof.
  intros Hne Hin. apply guard_effects_reads in Hin as [?|[= ?]]; [discriminate | done].
Qed.

(** A read of a table other than the user table is not among the effects
    of resolving the caller followed by the listed ones. *)
Ltac not_an_effect :=
  let Hin := fresh "Hin" in
  intros Hin; apply elem_of_app in Hin as [Hin|Hin];
  [ by apply not_in_guard_effects in Hin
  | repeat (apply elem_of_cons in Hin as [Hin|Hin]; [discriminate|]);
    by apply elem_of_nil in Hin ].

(** C9. For a caller without a resolvable identity, [getCars] answers
    (successfully whenever the store accepts the page) with every item's
    saved flag false and without any read of the saved-car table, and
    [getCarById] of an existing car succeeds with the car, its wishlist
    flag false and no [userTestDrive], reading neither the saved-car nor
    the booking table. *)
Theorem anonymous_caller_sees_no_wishlist
    (w : World) (p : CarListing.Params) (carId : string) (theCar : Car.t) :
  caller w = None ->
  Prisma.car_findUnique carId (car w) = Some theCar ->
  (exists r,
     result (CarListing.getCars p) w = Normal r /\
     (0 <= (CarListing.page p - 1) * CarListing.limit p ->
      success (CarListing.reply r) = true /\ is_Some (data (CarListing.reply r))) /\
     (forall items, data (CarListing.reply r) = Some items ->
        forall item, item ∈ items -> SerializedCar.wishlisted item = false)) /\
  (DbRead UserSavedCarTable ∉ effects (CarListing.getCars p) w) /\
  (exists details,
     result (CarListing.getCarById carId) w = Normal (succeed details) /\
     CarListing.details details = serializeCarData theCar false /\
     SerializedCar.wishlisted (CarListing.details details) = false /\
     CarListing.userTestDrive (CarListing.testDriveInfo details) = None) /\
  (DbRead UserSavedCarTable ∉ effects (CarListing.getCarById carId) w) /\
  (DbRead TestDriveBookingTable ∉ effects (CarListing.getCarById carId) w).
Proof.
  intros Hc Hcar.
  pose proof (getCars_run p w) as Hrun.
  pose proof (getCarById_anonymous w carId theCar Hc Hcar) as Hby.
  assert (forall c, serialize_for w c = serializeCarData c false) as Hflag.
  { intros c. unfold serialize_for, saved_ids. rewrite Hc. reflexivity. }
  unfold listing_effects in Hrun. rewrite Hc, app_nil_r in Hrun.
  split_and!.
  - unfold result. rewrite Hrun. unfold Prisma.car_findMany, Prisma.paginate.
    destruct (Z.ltb_spec ((CarListing.page p - 1) * CarListing.limit p) 0).
    + eexists. split; [reflexivity|]. split; [lia|]. discriminate.
    + destruct (0 <=? CarListing.limit p);
        (eexists; split; [reflexivity|]; split; [by eauto|];
         intros items [= <-] item Hin;
         apply list_elem_of_fmap in Hin as (c & -> & _);
         by rewrite Hflag).
  - destruct (Prisma.car_findMany _ _ _ _ _);
      rewrite (effects_logged _ _ _ _ Hrun);
      not_an_effect.
  - eexists. unfold result. rewrite Hby. done.
  - rewrite (effects_logged _ _ _ _ Hby).
    not_an_effect.
  - rewrite (effects_logged _ _ _ _ Hby).
    not_an_effect.
Qed.

(* ===================================================================== *)
(** * The theorems at the sample data                                     *)
(* ===================================================================== *)

Lemma conversion_rate_counts_witness :
  exists board,
    result AdminJs.getDashboardData Sample.sold_twice_driven = Normal (succeed board) /\
    result AdminTs.getDashboardData Sample.sold_twice_driven = Normal (succeed board) /\
    Admin.completed (Admin.testDrives board) = 2%nat /\
    Admin.conversionRate (Admin.testDrives board) = Js.of_Z 50.
Proof.
  destruct (conversion_rate_counts
              (map Admin.select_car (car Sample.sold_twice_driven))
              (map Admin.select_testDrive (testDriveBooking Sample.sold_twice_driven)))
    as (_ & _ & _ & _ & _ & _ & _ & Hrun & _).
  destruct (Hrun Sample.sold_twice_driven Sample.ada) as [Hjs Hts];
    try reflexivity.
  eexists. split; [exact Hjs|]. split; [exact Hts|]. split; vm_compute; reflexivity.
Defined.

Lemma conversion_rate_zero_witness :
  exists js ts,
    result AdminJs.getDashboardData Sample.pending_drive = Normal (succeed js) /\
    result AdminTs.getDashboardData Sample.pending_drive = Normal (succeed ts) /\
    Admin.conversionRate (Admin.testDrives js) = S754_zero false /\
    Admin.conversionRate (Admin.testDrives ts) = S754_zero false.
Proof.
  destruct (conversion_rate_zero_without_completed Sample.pending_drive Sample.ada)
    as (js & ts & Hjs & Hts & _ & _ & Hrj & Hrt & _).
  - reflexivity.
  - reflexivity.
  - intros b Hb. apply list_elem_of_singleton in Hb. subst b. discriminate.
  - exists js, ts. auto.
Defined.

(** Decides a closed decidable proposition by evaluation. *)
Ltac by_evaluation :=
  match goal with |- ?P => apply (bool_decide_eq_true_1 P) end; vm_compute; reflexivity.

Lemma updateTestDriveStatus_checks_witness :
  result (AdminJs.updateTestDriveStatus "b9" "BOGUS") Sample.pending_drive
    = Normal (fail "Booking not found") /\
  result (AdminTs.updateTestDriveStatus "b1" "BOGUS") Sample.pending_drive
    = Normal (fail "Invalid status") /\
  testDriveBooking (after (AdminTs.updateTestDriveStatus "b1" "BOGUS") Sample.pending_drive)
    = testDriveBooking Sample.pending_drive /\
  Prisma.booking_findUnique "b1"
    (testDriveBooking (after (AdminJs.updateTestDriveStatus "b1" "NO_SHOW")
                             Sample.pending_drive))
    = Some (Sample.a_booking "b1" "c1" "u-bob" "NO_SHOW").
Proof.
  destruct (updateTestDriveStatus_checks Sample.pending_drive Sample.ada "b9" "BOGUS")
    as (Hmissing & _ & _); [reflexivity | reflexivity |].
  destruct (updateTestDriveStatus_checks Sample.pending_drive Sample.ada "b1" "BOGUS")
    as (_ & Hbad & _); [reflexivity | reflexivity |].
  destruct (updateTestDriveStatus_checks Sample.pending_drive Sample.ada "b1" "NO_SHOW")
    as (_ & _ & Hgood); [reflexivity | reflexivity |].
  destruct (Hmissing eq_refl) as (H1 & _).
  destruct (Hbad (Sample.a_booking "b1" "c1" "u-bob" "PENDING") eq_refl)
    as (_ & H2 & _ & (_ & _ & _ & H3 & _) & _); [by_evaluation|].
  destruct (Hgood (Sample.a_booking "b1" "c1" "u-bob" "PENDING") eq_refl)
    as (_ & _ & H4 & _ & H5 & _); [by_evaluation|].
  split; [exact H1|]. split; [exact H2|]. split; [exact H3|].
  rewrite H4. exact H5.
Defined.

Lemma toggleSavedCar_twice_witness :
  let remove := CarListing.toggleSavedCar "c07" in
  let add := CarListing.toggleSavedCar "c01" in
  result remove Sample.bob_browsing = Normal (succeed (CarListing.mkSaved false)) /\
  result add Sample.bob_browsing = Normal (succeed (CarListing.mkSaved true)) /\
  wishlisted "u-bob" "c07" (after remove (after remove Sample.bob_browsing)) = true /\
  wishlisted "u-bob" "c01" (after add (after add Sample.bob_browsing)) = false /\
  saved_rows "u-bob" "c01" (after add Sample.bob_browsing) = 1%nat.
Proof.
  intros remove add.
  destruct (toggleSavedCar_twice Sample.bob_browsing Sample.bob "c07"
              (Sample.a_car "c07" "Kia" (7000 # 1) "AVAILABLE" 7))
    as (H1 & _ & _ & H2 & _); [reflexivity | reflexivity |].
  destruct (toggleSavedCar_twice Sample.bob_browsing Sample.bob "c01"
              (Sample.a_car "c01" "Toyota" (1000 # 1) "AVAILABLE" 1))
    as (H3 & _ & _ & H4 & H5 & _); [reflexivity | reflexivity |].
  split; [exact H1|]. split; [exact H3|]. split; [exact H2|]. split; [exact H4 | exact H5].
Defined.



Lemma getCars_pagination_witness :
  exists items pg,
    result (CarListing.getCars Sample.second_page) Sample.forecourt
      = Normal (CarListing.mkCarsReply (succeed items) (Some pg)) /\
    map SerializedCar.id items = ["c07"; "c08"; "c09"; "c10"; "c11"; "c12"] /\
    CarListing.total pg = 14 /\
    CarListing.pages pg = 3.
Proof.
  destruct (getCars_pagination Sample.forecourt Sample.second_page)
    as (items & pg & Hr & _); [reflexivity | reflexivity |].
  exists items, pg. split; [exact Hr|].
  unfold result in Hr. vm_compute in Hr. injection Hr as <- <-.
  split; [reflexivity|]. split; reflexivity.
Defined.

(** C7 at work: with the engine of the examples, on the lot with one
    available car. *)
Lemma getCarFilters_available_witness :
  exists f,
    result (CarListing.getCarFilters (engine := Sample.ascii_engine)) Sample.mixed_lot
    = Normal (succeed f) /\
    lowercase_of_distinct (engine := Sample.ascii_engine) Car.make Sample.mixed_lot
      (CarListing.makes f) /\
    CarListing.makes f = ["toyota"] /\
    CarListing.min (CarListing.priceRange f) = Js.of_Z 200.
Proof.
  destruct (getCarFilters_available (engine := Sample.ascii_engine) Sample.mixed_lot)
    as (f & Hrun & Hmakes & _).
  exists f. split; [exact Hrun|]. split; [exact Hmakes|].
  rewrite getCarFilters_run in Hrun. injection Hrun as <-. split; reflexivity.
Defined.

(** C7, as stated, fails, whatever the engine's case mapping is beyond
    ASCII.  The price range is taken among the available cars only, here
    200 to 200, although the table has a sold car at 50 and an
    unavailable one at 900.  And the store tells apart values that differ
    in case, so two available cars of makes TOYOTA and Toyota give the
    same lowercase form twice. *)
Lemma getCarFilters_range_and_repeats :
  (forall engine : Js.LowerCase,
     exists f cheap dear,
       result CarListing.getCarFilters Sample.mixed_lot = Normal (succeed f) /\
       CarListing.min (CarListing.priceRange f) = Js.of_Z 200 /\
       CarListing.max (CarListing.priceRange f) = Js.of_Z 200 /\
       cheap ∈ car Sample.mixed_lot /\ Car.price cheap = 50 # 1 /\
       dear ∈ car Sample.mixed_lot /\ Car.price dear = 900 # 1 /\
       Js.ltb (Js.of_Q (Car.price cheap)) (CarListing.min (CarListing.priceRange f)) = true /\
       Js.ltb (CarListing.max (CarListing.priceRange f)) (Js.of_Q (Car.price dear)) = true) /\
  (forall engine : Js.LowerCase,
     exists f,
       result CarListing.getCarFilters Sample.two_spellings = Normal (succeed f) /\
       CarListing.makes f = ["toyota"; "toyota"] /\
       ~ NoDup (CarListing.makes f)).
Proof.
  split; intros engine.
  - eexists _, (Sample.a_car "cheap" "Fiat" (50 # 1) "SOLD" 1),
            (Sample.a_car "dear" "Bentley" (900 # 1) "UNAVAILABLE" 3).
    split; [apply getCarFilters_run|].
    split; [vm_compute; reflexivity|]. split; [vm_compute; reflexivity|].
    split; [apply elem_of_cons; left; reflexivity|]. split; [reflexivity|].
    split; [do 2 (apply elem_of_cons; right); apply elem_of_cons; left; reflexivity|].
    split; [reflexivity|]. split; vm_compute; reflexivity.
  - eexists. split; [apply getCarFilters_run|]. cbn [CarListing.makes].
    assert (Prisma.car_distinct "AVAILABLE" Car.make (car Sample.two_spellings)
            = ["TOYOTA"; "Toyota"]) as -> by (vm_compute; reflexivity).
    cbn [map]. rewrite !Js.toLowerCase_ascii by reflexivity.
    split; [reflexivity|].
    intros [Hnot _]%NoDup_cons. apply Hnot, elem_of_cons. by left.
Qed.

Lemma admin_actions_guard_witness :
  result (AdminJs.getAdminTestDrives "toyota" "") Sample.bob_signed_in
    = Normal (fail "Unauthorized") /\
  result (AdminTs.updateTestDriveStatus "b1" "COMPLETED") Sample.bob_signed_in
    = Normal (fail "Unauthorized access") /\
  testDriveBooking (after (AdminTs.updateTestDriveStatus "b1" "COMPLETED")
                          Sample.bob_signed_in)
    = testDriveBooking Sample.bob_signed_in /\
  effects AdminJs.getDashboardData Sample.bob_signed_in = [AuthCall; DbRead UserTable] /\
  DbRead TestDriveBookingTable ∈ effects AdminJs.getDashboardData Sample.pending_drive.
Proof.
  destruct (admin_actions_guard Sample.bob_signed_in "toyota" "" "b1" "COMPLETED")
    as [Hrefused _].
  destruct Hrefused as ((H1 & _) & _ & (_ & _ & H3) & _ & (H2 & Hsame & _) & _).
  { intros u [= <-]. discriminate. }
  destruct (admin_actions_guard Sample.pending_drive "" "" "b1" "COMPLETED")
    as [_ Hproceeds].
  destruct (Hproceeds Sample.ada eq_refl eq_refl) as (_ & _ & H4 & _).
  split; [exact H1|]. split; [exact H2|].
  split; [by destruct Hsame as (_ & _ & _ & ? & _)|]. split; [exact H3 | exact H4].
Defined.

Lemma anonymous_caller_witness :
  exists r details,
    result (CarListing.getCars Sample.second_page) Sample.forecourt = Normal r /\
    success (CarListing.reply r) = true /\
    result (CarListing.getCarById "c07") Sample.forecourt = Normal (succeed details) /\
    SerializedCar.wishlisted (CarListing.details details) = false /\
    CarListing.userTestDrive (CarListing.testDriveInfo details) = None.
Proof.
  destruct (anonymous_caller_sees_no_wishlist Sample.forecourt Sample.second_page "c07"
              (Sample.a_car "c07" "Kia" (7000 # 1) "AVAILABLE" 7))
    as ((r & Hr & Hok & _) & _ & (details & Hd & _ & Hw & Ht) & _);
    [reflexivity | reflexivity |].
  exists r, details. split; [exact Hr|].
  split; [apply Hok; vm_compute; discriminate|]. auto.
Defined.

Lemma getCars_only_available_witness :
  exists r items,
    result (CarListing.getCars Sample.second_page) Sample.forecourt = Normal r /\
    data (CarListing.reply r) = Some items /\
    length items = 6%nat /\
    forall item, item ∈ items -> SerializedCar.status item = "AVAILABLE".
Proof.
  eexists _, _. split; [vm_compute; reflexivity|]. split; [reflexivity|].
  split; [reflexivity|].
  edestruct (getCars_only_available Sample.forecourt Sample.second_page)
    as (_ & Hall & _); [vm_compute; reflexivity | reflexivity |].
  exact Hall.
Defined.

(** One sold car with one completed test drive: 100. *)
Example one_sold_one_completed :
  result AdminJs.getDashboardData Sample.sold_once_driven
  = result AdminTs.getDashboardData Sample.sold_once_driven /\
  (Admin.conversionRate <$> (Admin.testDrives <$>
     match result AdminJs.getDashboardData Sample.sold_once_driven with
     | Normal e => data e
     | Throw _ => None
     end)) = Some (Js.of_Z 100).
Proof. split; vm_compute; reflexivity. Qed.

(** The rate is computed in binary64: 201 sold cars for 20000 completed
    test drives give the double just below 1.005, which prints as 1.00. *)
Example rate_of_201_in_20000 :
  Js.toFixed2_parseFloat (Admin.rate 201 (Z.to_nat 20000)) = Js.of_Z 1.
Proof. vm_compute. reflexivity. Qed.

(* ===================================================================== *)
(** * Every action, for every caller                                      *)
(* ===================================================================== *)

Lemma getAdmin_js_run w :
  AdminJs.getAdmin w =
  (Normal (succeed
     match admin_caller w with
     | Some a => AdminJs.mkAdminCheck true (Some a) None
     | None => AdminJs.mkAdminCheck false None (Some "not-admin")
     end),
   logged (guard_effects w) w).
Proof.
  unfold AdminJs.getAdmin. through_guard. by destruct (admin_caller w).
Qed.

Lemma getAdmin_ts_run w :
  AdminTs.getAdmin w =
  (Normal
     match admin_caller w with
     | Some a => AdminTs.mkAdminCheck true (Some a) None
     | None => AdminTs.mkAdminCheck false None (Some "not-admin")
     end,
   logged (guard_effects w) w).
Proof.
  unfold AdminTs.getAdmin. through_guard. by destruct (admin_caller w).
Qed.

Lemma booking_findMany_logged wh es w :
  Admin.booking_findMany wh (logged es w) = Admin.booking_findMany wh w.
Proof. by destruct w. Qed.

Lemma testDrives_js_any search status w :
  AdminJs.getAdminTestDrives search status w =
  match admin_caller w with
  | None => (Normal (fail "Unauthorized"), logged (guard_effects w) w)
  | Some _ =>
      (Normal (succeed (map Admin.format
                          (Admin.booking_findMany (booking_where search status) w))),
       logged (guard_effects w ++ [DbRead TestDriveBookingTable]) w)
  end.
Proof.
  unfold AdminJs.getAdminTestDrives. through_guard.
  destruct (admin_caller w); [|reflexivity].
  rewrite <- (booking_findMany_logged _ (guard_effects w ++ [DbRead TestDriveBookingTable]) w).
  generalize (guard_effects w) as g. intros g.
  destruct w as [s us cs bs ss ds n tr]. run. reflexivity.
Qed.

Lemma testDrives_ts_any search status w :
  AdminTs.getAdminTestDrives search status w =
  match admin_caller w with
  | None =>
      (Normal (fail (refusal w)),
       logged (guard_effects w ++ [ConsoleError "Error fetching test drives:"]) w)
  | Some _ =>
      (Normal (succeed (map Admin.format
                          (Admin.booking_findMany (booking_where search status) w))),
       logged (guard_effects w ++ [DbRead TestDriveBookingTable]) w)
  end.
Proof.
  unfold AdminTs.getAdminTestDrives. through_guard.
  destruct (admin_caller w).
  - rewrite <- (booking_findMany_logged _ (guard_effects w ++ [DbRead TestDriveBookingTable]) w).
    generalize (guard_effects w) as g. intros g. unfold booking_where.
    destruct w as [s us cs bs ss ds n tr]. run.
    destruct (String.eqb search ""); [by rewrite app_nil_r | reflexivity].
  - unfold AdminTs.report, bind. rewrite emit_run. by rewrite logged_logged.
Qed.

Lemma dashboard_js_any w :
  exists r es,
    AdminJs.getDashboardData w = (r, logged (guard_effects w ++ es) w) /\
    forallb quiet es = true.
Proof.
  destruct (admin_caller w) as [a|] eqn:E.
  - eexists _, _. split; [apply (dashboard_js_run w a E) | reflexivity].
  - exists (Normal (fail "Unauthorized")), []. split; [|reflexivity].
    unfold AdminJs.getDashboardData. through_guard. by rewrite E, app_nil_r.
Qed.

Lemma dashboard_ts_any w :
  exists r es,
    AdminTs.getDashboardData w = (r, logged (guard_effects w ++ es) w) /\
    forallb quiet es = true.
Proof.
  destruct (admin_caller w) as [a|] eqn:E.
  - eexists _, _. split; [apply (dashboard_ts_run w a E) | reflexivity].
  - eexists _, [ConsoleError "Error fetching dashboard data:"]. split; [|reflexivity].
    unfold AdminTs.getDashboardData. through_guard. rewrite E.
    unfold AdminTs.report, bind. rewrite emit_run. by rewrite logged_logged.
Qed.

Lemma getCarFilters_world {engine : Js.LowerCase} w :
  after CarListing.getCarFilters w
  = logged [DbRead CarTable; DbRead CarTable; DbRead CarTable; DbRead CarTable;
            DbRead CarTable] w.
Proof.
  unfold after, CarListing.getCarFilters. destruct w as [s us cs bs ss ds n tr].
  run. reflexivity.
Qed.

Lemma saved_findUnique_bool userId carId rows :
  bool_decide (is_Some (Prisma.saved_findUnique userId carId rows))
  = existsb (Prisma.same_pair userId carId) rows.
Proof.
  destruct (Prisma.saved_findUnique userId carId rows) eqn:E.
  - destruct (existsb _ rows) eqn:E'; [done|].
    apply saved_findUnique_existsb in E'. congruence.
  - apply saved_findUnique_existsb in E. by rewrite E.
Qed.

(** The answer of [getCarById] for a caller and a car that exists. *)
Lemma getCarById_run w carId :
  CarListing.getCarById carId w =
  match Prisma.car_findUnique carId (car w) with
  | None =>
      (Normal (fail "Car not found"), logged (guard_effects w ++ [DbRead CarTable]) w)
  | Some theCar =>
      match caller w with
      | None =>
          (Normal (succeed
             (CarListing.mkCarDetails (serializeCarData theCar false)
                (CarListing.mkTestDriveInfo None
                   (option_map CarListing.serialize_dealership (head (dealershipInfo w)))))),
           logged (guard_effects w ++ [DbRead CarTable; DbRead DealershipInfoTable]) w)
      | Some usr =>
          (Normal (succeed
             (CarListing.mkCarDetails
                (serializeCarData theCar (wishlisted (User.id usr) carId w))
                (CarListing.mkTestDriveInfo
                   (option_map
                      (fun b => CarListing.mkUserTestDrive (TestDriveBooking.id b)
                                  (TestDriveBooking.status b)
                                  (toISOString (TestDriveBooking.bookingDate b)))
                      (CarListing.existing_test_drive carId (User.id usr)
                         (testDriveBooking w)))
                   (option_map CarListing.serialize_dealership (head (dealershipInfo w)))))),
           logged (guard_effects w ++
                   [DbRead CarTable; DbRead UserSavedCarTable;
                    DbRead TestDriveBookingTable; DbRead DealershipInfoTable]) w)
      end
  end.
Proof.
  unfold CarListing.getCarById, try_catch, bind. rewrite getDbUser_run.
  unfold wishlisted. generalize (guard_effects w) as g. intros g.
  destruct (caller w) as [usr|];
    destruct w as [s us cs bs ss ds n tr]; run;
    destruct (Prisma.car_findUnique carId cs); run; try reflexivity.
  by rewrite saved_findUnique_bool.
Qed.

Lemma getSavedCars_run w :
  CarListing.getSavedCars w =
  match caller w with
  | None => (Normal (fail "Unauthorized"), logged (guard_effects w) w)
  | Some usr =>
      (Normal (succeed (map (fun s => serializeCarData (snd s) false)
                          (CarListing.saved_with_car (User.id usr) w))),
       logged (guard_effects w ++ [DbRead UserSavedCarTable]) w)
  end.
Proof.
  unfold CarListing.getSavedCars, try_catch, bind. rewrite getDbUser_run.
  destruct (caller w) as [usr|]; [|reflexivity].
  generalize (guard_effects w) as g. intros g.
  destruct w as [s us cs bs ss ds n tr]. run. reflexivity.
Qed.

Lemma guard_effects_quiet w : forallb quiet (guard_effects w) = true.
Proof. unfold guard_effects. by destruct (no_userId (session w)). Qed.

Lemma reads_only_intro {A} (m : Action A) w r es :
  m w = (r, logged (guard_effects w ++ es) w) ->
  forallb quiet es = true ->
  reads_only m w.
Proof.
  intros Hrun Hes. split.
  - unfold after. rewrite Hrun. apply same_state_logged.
  - rewrite (effects_logged _ _ _ _ Hrun), forallb_app, guard_effects_quiet. exact Hes.
Qed.

Lemma reads_only_guard {A} (m : Action A) w r :
  m w = (r, logged (guard_effects w) w) -> reads_only m w.
Proof.
  intros Hrun. apply (reads_only_intro m w r []); [by rewrite app_nil_r | reflexivity].
Qed.

(** X1. The actions that only answer questions change nothing: for every
    caller, every store and every argument, [getAdmin],
    [getAdminTestDrives] and [getDashboardData] (both variants),
    [getCarFilters], [getCars], [getCarById] and [getSavedCars] leave the
    store, the session and the clock as they were, write to no table and
    invalidate no cached page. *)
Theorem queries_change_nothing {engine : Js.LowerCase}
    (w : World) (search status carId : string) (p : CarListing.Params) :
  reads_only AdminJs.getAdmin w /\
  reads_only AdminTs.getAdmin w /\
  reads_only (AdminJs.getAdminTestDrives search status) w /\
  reads_only (AdminTs.getAdminTestDrives search status) w /\
  reads_only AdminJs.getDashboardData w /\
  reads_only AdminTs.getDashboardData w /\
  reads_only CarListing.getCarFilters w /\
  reads_only (CarListing.getCars p) w /\
  reads_only (CarListing.getCarById carId) w /\
  reads_only CarListing.getSavedCars w.
Proof.
  split_and!.
  - apply (reads_only_guard _ _ _ (getAdmin_js_run w)).
  - apply (reads_only_guard _ _ _ (getAdmin_ts_run w)).
  - pose proof (testDrives_js_any search status w) as H.
    destruct (admin_caller w).
    + by apply (reads_only_intro _ _ _ _ H).
    + by apply (reads_only_guard _ _ _ H).
  - pose proof (testDrives_ts_any search status w) as H.
    destruct (admin_caller w); by apply (reads_only_intro _ _ _ _ H).
  - destruct (dashboard_js_any w) as (r & es & H & Hq).
    by apply (reads_only_intro _ _ _ _ H).
  - destruct (dashboard_ts_any w) as (r & es & H & Hq).
    by apply (reads_only_intro _ _ _ _ H).
  - split.
    + rewrite getCarFilters_world. apply same_state_logged.
    + unfold effects. rewrite getCarFilters_world, trace_logged, drop_app_length.
      reflexivity.
  - pose proof (getCars_run p w) as H. unfold listing_effects in H.
    destruct (Prisma.car_findMany _ _ _ _ _).
    + apply (reads_only_intro _ _ _ _ H). by destruct (caller w).
    + by apply (reads_only_intro _ _ _ _ H).
  - pose proof (getCarById_run w carId) as H.
    destruct (Prisma.car_findUnique carId (car w)).
    + destruct (caller w); by apply (reads_only_intro _ _ _ _ H).
    + by apply (reads_only_intro _ _ _ _ H).
  - pose proof (getSavedCars_run w) as H. destruct (caller w).
    + by apply (reads_only_intro _ _ _ _ H).
    + by apply (reads_only_guard _ _ _ H).
Qed.

Lemma admin_caller_iff w u :
  admin_caller w = Some u <-> caller w = Some u /\ User.role u = "ADMIN".
Proof.
  unfold admin_caller, is_admin. destruct (caller w) as [v|].
  - destruct (String.eqb_spec (User.role v) "ADMIN") as [Hr|Hr].
    + split; [intros [= <-]; auto | intros [[= <-] _]; reflexivity].
    + split; [discriminate | intros [[= <-] ?]; contradiction].
  - split; [discriminate | intros [? _]; discriminate].
Qed.


(* ===================================================================== *)
(** * The admin's list of test drives                                     *)
(* ===================================================================== *)

Lemma searchCondition_hit search r :
  Admin.matches (Admin.searchCondition search) r = true <-> search_hit search r.
Proof.
  unfold search_hit, contains_insensitive. cbn.
  rewrite !orb_false_r, !orb_true_iff.
  destruct (Admin.u_name (Admin.b_user r)) as [n|]; cbn.
  - split.
    + intros [[?|?]|[?|?]]; eauto 6.
    + intros [?|[?|[(n' & [= <-] & ?)|?]]]; auto.
  - split.
    + intros [[?|?]|[?|?]]; auto. discriminate.
    + intros [?|[?|[(n' & ? & ?)|?]]]; auto. discriminate.
Qed.

Lemma booking_where_matches search status r :
  Admin.matches (booking_where search status) r = true <->
  (status = "" \/ TestDriveBooking.status (Admin.booking r) = status) /\
  (search = "" \/ search_hit search r).
Proof.
  unfold booking_where. cbn [Admin.matches]. rewrite forallb_app, andb_true_iff.
  assert (forallb (fun w' => Admin.matches w' r)
            (if String.eqb status "" then [] else [Admin.w_status status]) = true
          <-> status = "" \/ TestDriveBooking.status (Admin.booking r) = status) as ->.
  { destruct (String.eqb_spec status ""); cbn.
    - split; auto.
    - rewrite andb_true_r, String.eqb_eq. split; [auto | by intros [?|?]]. }
  assert (forallb (fun w' => Admin.matches w' r)
            (if String.eqb search "" then [] else [Admin.searchCondition search]) = true
          <-> search = "" \/ search_hit search r) as ->; [|done].
  destruct (String.eqb_spec search "").
  - split; auto.
  - cbn [forallb]. rewrite andb_true_r, searchCondition_hit.
    split; [auto | by intros [?|?]].
Qed.

Lemma booking_findMany_elem_of wh w r :
  r ∈ Admin.booking_findMany wh w <->
  (exists b, b ∈ testDriveBooking w /\ Admin.include w b = Some r) /\
  Admin.matches wh r = true.
Proof.
  unfold Admin.booking_findMany.
  rewrite merge_sort_Permutation, list_elem_of_In, filter_In, <- list_elem_of_In.
  by rewrite list_elem_of_omap.
Qed.

(** X3. For an administrator, both variants of [getAdminTestDrives]
    answer with the same list: exactly the bookings (joined with their
    car and user) that carry the requested status, if one is given, and
    whose car's make or model or whose user's name or email passes the
    store's case-insensitive [contains] test for the search text, if one
    is given. *)
Theorem getAdminTestDrives_selects
    (w : World) (admin : User.t) (search status : string) :
  caller w = Some admin ->
  User.role admin = "ADMIN" ->
  exists rows,
    result (AdminJs.getAdminTestDrives search status) w
      = Normal (succeed (map Admin.format rows)) /\
    result (AdminTs.getAdminTestDrives search status) w
      = Normal (succeed (map Admin.format rows)) /\
    forall r, r ∈ rows <->
      (exists b, b ∈ testDriveBooking w /\ Admin.include w b = Some r) /\
      (status = "" \/ TestDriveBooking.status (Admin.booking r) = status) /\
      (search = "" \/ search_hit search r).
Proof.
  intros Hc Hr. pose proof (proj2 (admin_caller_iff w admin) (conj Hc Hr)) as Hadmin.
  exists (Admin.booking_findMany (booking_where search status) w).
  unfold result. rewrite testDrives_js_any, testDrives_ts_any, Hadmin. cbn [fst].
  split; [reflexivity|]. split; [reflexivity|].
  intros r. by rewrite booking_findMany_elem_of, booking_where_matches.
Qed.

#[global] Instance booking_order_total :
  Total (fun a b => Is_true (Admin.booking_leb a b)).
Proof.
  intros a b. unfold Admin.booking_leb.
  set (da := TestDriveBooking.bookingDate (Admin.booking a)).
  set (db := TestDriveBooking.bookingDate (Admin.booking b)).
  destruct (Z.lt_trichotomy da db) as [Hlt|[Heq|Hgt]].
  - right. apply Is_true_true, orb_true_iff. left. by apply Z.ltb_lt.
  - destruct (String.leb_total (TestDriveBooking.startTime (Admin.booking a))
                               (TestDriveBooking.startTime (Admin.booking b))) as [H|H].
    + left. apply Is_true_true, orb_true_iff. right.
      rewrite H, andb_true_r. apply Z.eqb_eq. lia.
    + right. apply Is_true_true, orb_true_iff. right.
      rewrite H, andb_true_r. apply Z.eqb_eq. lia.
  - left. apply Is_true_true, orb_true_iff. left. by apply Z.ltb_lt.
Qed.

Lemma booking_leb_listed a b :
  Is_true (Admin.booking_leb a b) -> listed_before (Admin.format a) (Admin.format b).
Proof.
  unfold Admin.booking_leb, listed_before. cbn.
  intros H. apply Is_true_true, orb_true_iff in H as [H|H].
  - left. by apply Z.ltb_lt.
  - right. apply andb_true_iff in H as [H1 H2]. split; [by apply Z.eqb_eq | done].
Qed.

(** X4. For an administrator, the list [getAdminTestDrives] answers with
    (both variants) is ordered by booking date, latest first, and by
    start time, smallest first, among bookings of one date: each booking
    and the one after it are in that order. *)
Theorem getAdminTestDrives_order
    (w : World) (admin : User.t) (search status : string) :
  caller w = Some admin ->
  User.role admin = "ADMIN" ->
  exists listed,
    result (AdminJs.getAdminTestDrives search status) w = Normal (succeed listed) /\
    result (AdminTs.getAdminTestDrives search status) w = Normal (succeed listed) /\
    Sorted listed_before listed.
Proof.
  intros Hc Hr. pose proof (proj2 (admin_caller_iff w admin) (conj Hc Hr)) as Hadmin.
  eexists. unfold result. rewrite testDrives_js_any, testDrives_ts_any, Hadmin. cbn [fst].
  split; [reflexivity|]. split; [reflexivity|].
  apply (Sorted_fmap _ (fun a b => Is_true (Admin.booking_leb a b))).
  - apply booking_leb_listed.
  - apply (Sorted_merge_sort _).
Qed.

(* ===================================================================== *)
(** * Status updates, for every caller                                    *)
(* ===================================================================== *)

Section UpdateOutcome.
Context (w : World) (bookingId newStatus : string).

Lemma update_outcome_rejected {T} (m : Action (Envelope T)) e es :
  update_accepted w bookingId newStatus = false ->
  m w = (Normal e, logged (guard_effects w ++ es) w) ->
  success e = false -> forallb quiet es = true ->
  update_outcome w bookingId newStatus m.
Proof.
  intros Hno Hrun He Hes. unfold update_outcome. rewrite Hno. split_and!.
  - exists e. unfold result. by rewrite Hrun.
  - unfold after. rewrite Hrun. apply same_state_logged.
  - rewrite (effects_logged _ _ _ _ Hrun), forallb_app, guard_effects_quiet. exact Hes.
Qed.

Lemma update_outcome_accepted {T} (m : Action (Envelope T)) e :
  update_accepted w bookingId newStatus = true ->
  m w = (Normal e,
         logged [RevalidatePath "/admin/test-drives"; RevalidatePath "/reservations"]
           (set_testDriveBooking
              (Prisma.booking_update bookingId newStatus (testDriveBooking w))
              (logged (guard_effects w ++
                       [DbRead TestDriveBookingTable; DbWrite TestDriveBookingTable]) w))) ->
  success e = true ->
  update_outcome w bookingId newStatus m.
Proof.
  intros Hyes Hrun He. unfold update_outcome. rewrite Hyes. split_and!.
  - exists e. unfold result. by rewrite Hrun.
  - unfold after. rewrite Hrun. cbn [snd].
    by rewrite testDriveBooking_logged, testDriveBooking_set.
  - unfold after. rewrite Hrun. by destruct w.
  - unfold after. rewrite Hrun. by destruct w.
  - apply effects_trace. unfold after. rewrite Hrun. cbn [snd].
    rewrite trace_logged, trace_set_testDriveBooking, trace_logged.
    by rewrite <- !app_assoc.
Qed.

Lemma update_js_outcome :
  update_outcome w bookingId newStatus (AdminJs.updateTestDriveStatus bookingId newStatus).
Proof.
  destruct (admin_caller w) as [a|] eqn:Ea.
  - pose proof (update_js_run w bookingId newStatus a Ea) as Hrun.
    destruct (Prisma.booking_findUnique bookingId (testDriveBooking w)) eqn:Eb.
    + destruct (Admin.includes Admin.validStatuses newStatus) eqn:Ei.
      * eapply update_outcome_accepted; [|exact Hrun|reflexivity].
        unfold update_accepted. by rewrite Ea, Eb.
      * eapply (update_outcome_rejected _ _ [DbRead TestDriveBookingTable]);
          [|exact Hrun|reflexivity|reflexivity].
        unfold update_accepted. by rewrite Ea, Eb.
    + eapply (update_outcome_rejected _ _ [DbRead TestDriveBookingTable]);
        [|exact Hrun|reflexivity|reflexivity].
      unfold update_accepted. by rewrite Ea, Eb.
  - eapply (update_outcome_rejected _ (fail "Unauthorized") []);
      [by unfold update_accepted; rewrite Ea| |reflexivity|reflexivity].
    unfold AdminJs.updateTestDriveStatus. through_guard. by rewrite Ea, app_nil_r.
Qed.

Lemma update_ts_outcome :
  update_outcome w bookingId newStatus (AdminTs.updateTestDriveStatus bookingId newStatus).
Proof.
  destruct (admin_caller w) as [a|] eqn:Ea.
  - pose proof (update_ts_run w bookingId newStatus a Ea) as Hrun.
    destruct (Prisma.booking_findUnique bookingId (testDriveBooking w)) eqn:Eb.
    + destruct (Admin.includes Admin.validStatuses newStatus) eqn:Ei.
      * eapply update_outcome_accepted; [|exact Hrun|reflexivity].
        unfold update_accepted. by rewrite Ea, Eb.
      * eapply (update_outcome_rejected _ _ [DbRead TestDriveBookingTable]);
          [|exact Hrun|reflexivity|reflexivity].
        unfold update_accepted. by rewrite Ea, Eb.
    + eapply (update_outcome_rejected _ _ [DbRead TestDriveBookingTable]);
        [|exact Hrun|reflexivity|reflexivity].
      unfold update_accepted. by rewrite Ea, Eb.
  - eapply (update_outcome_rejected _ (fail (refusal w))
              [ConsoleError "Error updating test drive:"]);
      [by unfold update_accepted; rewrite Ea| |reflexivity|reflexivity].
    unfold AdminTs.updateTestDriveStatus. through_guard. rewrite Ea.
    unfold AdminTs.report, bind. rewrite emit_run. by rewrite logged_logged.
Qed.
End UpdateOutcome.


Lemma booking_update_valid bookingId st rows :
  st ∈ Admin.validStatuses ->
  statuses_valid rows ->
  statuses_valid (Prisma.booking_update bookingId st rows).
Proof.
  intros Hst Hrows b Hb. unfold Prisma.booking_update in Hb.
  apply list_elem_of_fmap in Hb as (b0 & -> & Hb0).
  destruct (String.eqb (TestDriveBooking.id b0) bookingId); [exact Hst | by apply Hrows].
Qed.

Lemma update_outcome_valid {T} w bookingId newStatus (m : Action (Envelope T)) :
  update_outcome w bookingId newStatus m ->
  statuses_valid (testDriveBooking w) ->
  statuses_valid (testDriveBooking (after m w)).
Proof.
  unfold update_outcome, update_accepted. intros H Hv.
  destruct (admin_caller w); [destruct (Prisma.booking_findUnique _ _)|].
  1: destruct (Admin.includes Admin.validStatuses newStatus) eqn:Ei.
  1: { destruct H as (_ & -> & _). apply booking_update_valid; [|exact Hv].
       by apply includes_elem_of. }
  all: destruct H as (_ & (_ & _ & _ & -> & _) & _); exact Hv.
Qed.

(** X6. No call of [updateTestDriveStatus] brings a status into the table
    that is not one of the five: if every stored booking has one of the
    five statuses before the call, so it is after it, for every caller
    and every argument, in both variants. *)
Theorem updateTestDriveStatus_keeps_statuses_valid
    (w : World) (bookingId newStatus : string) :
  statuses_valid (testDriveBooking w) ->
  statuses_valid
    (testDriveBooking (after (AdminJs.updateTestDriveStatus bookingId newStatus) w)) /\
  statuses_valid
    (testDriveBooking (after (AdminTs.updateTestDriveStatus bookingId newStatus) w)).
Proof.
  intros Hv. split.
  - apply (update_outcome_valid _ _ _ _ (update_js_outcome w bookingId newStatus) Hv).
  - apply (update_outcome_valid _ _ _ _ (update_ts_outcome w bookingId newStatus) Hv).
Qed.

Lemma booking_update_twice bookingId s1 s2 rows :
  Prisma.booking_update bookingId s2 (Prisma.booking_update bookingId s1 rows)
  = Prisma.booking_update bookingId s2 rows.
Proof.
  unfold Prisma.booking_update. rewrite map_map. apply map_ext. intros b.
  destruct (String.eqb (TestDriveBooking.id b) bookingId) eqn:E; cbn; by rewrite E.
Qed.

Lemma admin_caller_same w w' :
  user w' = user w -> session w' = session w -> admin_caller w' = admin_caller w.
Proof. unfold admin_caller, caller. by intros -> ->. Qed.

Lemma update_outcome_twice {T1 T2 T3} w bookingId s1 s2
    (m1 : Action (Envelope T1)) (m2 : Action (Envelope T2)) (m : Action (Envelope T3)) :
  update_accepted w bookingId s1 = true ->
  update_accepted w bookingId s2 = true ->
  update_outcome w bookingId s1 m1 ->
  update_outcome (after m1 w) bookingId s2 m2 ->
  update_outcome w bookingId s2 m ->
  succeeded m2 (after m1 w) = true /\
  testDriveBooking (after m2 (after m1 w)) = testDriveBooking (after m w).
Proof.
  intros A1 A2 H1 H2 H. unfold update_outcome in H1, H. rewrite A1 in H1. rewrite A2 in H.
  destruct H1 as (_ & Ht1 & Hu1 & Hs1 & _). destruct H as (_ & Ht & _).
  assert (update_accepted (after m1 w) bookingId s2 = true) as A.
  { unfold update_accepted in *. rewrite (admin_caller_same _ _ Hu1 Hs1), Ht1.
    destruct (admin_caller w); [|discriminate].
    destruct (Prisma.booking_findUnique bookingId (testDriveBooking w)) as [b|] eqn:Eb;
      [|discriminate].
    by rewrite (booking_update_same _ _ _ _ Eb). }
  unfold update_outcome in H2. rewrite A in H2. destruct H2 as ((e & He & Hok) & Ht2 & _).
  split; [unfold succeeded; by rewrite He|].
  by rewrite Ht2, Ht1, Ht, booking_update_twice.
Qed.

(** X7. The later update wins.  When an administrator sets a booking that
    exists to one valid status and then to another, the second call
    succeeds too and the table is what the second call alone would have
    left: nothing of the first status remains, in either variant. *)
Theorem updateTestDriveStatus_last_wins
    (w : World) (admin : User.t) (bookingId first second : string) :
  caller w = Some admin ->
  User.role admin = "ADMIN" ->
  is_Some (Prisma.booking_findUnique bookingId (testDriveBooking w)) ->
  first ∈ Admin.validStatuses ->
  second ∈ Admin.validStatuses ->
  (succeeded (AdminJs.updateTestDriveStatus bookingId second)
     (after (AdminJs.updateTestDriveStatus bookingId first) w) = true /\
   testDriveBooking
     (after (AdminJs.updateTestDriveStatus bookingId second)
        (after (AdminJs.updateTestDriveStatus bookingId first) w))
   = testDriveBooking (after (AdminJs.updateTestDriveStatus bookingId second) w)) /\
  (succeeded (AdminTs.updateTestDriveStatus bookingId second)
     (after (AdminTs.updateTestDriveStatus bookingId first) w) = true /\
   testDriveBooking
     (after (AdminTs.updateTestDriveStatus bookingId second)
        (after (AdminTs.updateTestDriveStatus bookingId first) w))
   = testDriveBooking (after (AdminTs.updateTestDriveStatus bookingId second) w)).
Proof.
  intros Hc Hr [b Hb] H1 H2.
  pose proof (proj2 (admin_caller_iff w admin) (conj Hc Hr)) as Hadmin.
  assert (forall s, s ∈ Admin.validStatuses -> update_accepted w bookingId s = true) as Hacc.
  { intros s Hs. unfold update_accepted. rewrite Hadmin, Hb. by apply includes_elem_of. }
  split.
  - apply (update_outcome_twice w bookingId first second); auto using update_js_outcome.
  - apply (update_outcome_twice w bookingId first second); auto using update_ts_outcome.
Qed.

Lemma updateTestDriveStatus_keeps_statuses_valid_witness :
  statuses_valid (testDriveBooking Sample.pending_drive) /\
  statuses_valid
    (testDriveBooking
       (after (AdminJs.updateTestDriveStatus "b1" "COMPLETED") Sample.pending_drive)) /\
  statuses_valid
    (testDriveBooking
       (after (AdminTs.updateTestDriveStatus "b1" "BOGUS") Sample.pending_drive)).
Proof.
  assert (statuses_valid (testDriveBooking Sample.pending_drive)) as Hv.
  { intros b Hb. apply list_elem_of_singleton in Hb as ->.
    apply includes_elem_of. reflexivity. }
  split; [exact Hv|]. split.
  - apply (updateTestDriveStatus_keeps_statuses_valid
             Sample.pending_drive "b1" "COMPLETED" Hv).
  - apply (updateTestDriveStatus_keeps_statuses_valid
             Sample.pending_drive "b1" "BOGUS" Hv).
Defined.

Lemma updateTestDriveStatus_last_wins_witness :
  Prisma.booking_findUnique "b1"
    (testDriveBooking
       (after (AdminJs.updateTestDriveStatus "b1" "COMPLETED")
          (after (AdminJs.updateTestDriveStatus "b1" "CONFIRMED") Sample.pending_drive)))
  = Some (Sample.a_booking "b1" "c1" "u-bob" "COMPLETED").
Proof.
  destruct (updateTestDriveStatus_last_wins Sample.pending_drive Sample.ada
              "b1" "CONFIRMED" "COMPLETED") as [[_ H] _];
    [reflexivity | reflexivity | by eexists
    | apply includes_elem_of; reflexivity | apply includes_elem_of; reflexivity |].
  rewrite H. reflexivity.
Defined.

Lemma getAdminTestDrives_selects_witness :
  exists rows,
    rows <> [] /\
    result (AdminJs.getAdminTestDrives "TOYOTA" "PENDING") Sample.pending_drive
      = Normal (succeed (map Admin.format rows)) /\
    result (AdminTs.getAdminTestDrives "TOYOTA" "PENDING") Sample.pending_drive
      = Normal (succeed (map Admin.format rows)).
Proof.
  destruct (getAdminTestDrives_selects Sample.pending_drive Sample.ada "TOYOTA" "PENDING")
    as (rows & Hjs & Hts & _); [reflexivity | reflexivity |].
  exists rows. split; [|by split].
  intros ->. vm_compute in Hjs. discriminate Hjs.
Defined.

(* ===================================================================== *)
(** * The wishlist, for every caller                                      *)
(* ===================================================================== *)



Lemma StronglySorted_filter_impl {A} (R R' : relation A) (p : A -> bool) l :
  (forall a b, R a b -> R' a b) ->
  StronglySorted R l -> StronglySorted R' (List.filter p l).
Proof.
  intros Himpl. induction 1 as [|a l Hl IH Ha]; simpl; [constructor|].
  destruct (p a); [|exact IH]. constructor; [exact IH|].
  apply List.Forall_forall. intros b Hb. apply filter_In in Hb as [Hb _].
  apply Himpl. by apply (proj1 (List.Forall_forall _ _) Ha).
Qed.

#[global] Instance saved_order_total :
  Total (fun a b => Is_true (UserSavedCar.savedAt b <=? UserSavedCar.savedAt a)).
Proof.
  intros a b. destruct (Z.le_ge_cases (UserSavedCar.savedAt a) (UserSavedCar.savedAt b)).
  - right. by apply Is_true_true, Z.leb_le.
  - left. by apply Is_true_true, Z.leb_le.
Qed.

#[global] Instance saved_order_transitive :
  Transitive (fun a b => Is_true (UserSavedCar.savedAt b <=? UserSavedCar.savedAt a)).
Proof.
  intros a b c Hab Hbc. apply Is_true_true, Z.leb_le in Hab, Hbc.
  apply Is_true_true, Z.leb_le. lia.
Qed.

Lemma saved_with_car_elem_of userId w s c :
  (s, c) ∈ CarListing.saved_with_car userId w <->
  s ∈ userSavedCar w /\ UserSavedCar.userId s = userId /\
  Prisma.car_findUnique (UserSavedCar.carId s) (car w) = Some c.
Proof.
  unfold CarListing.saved_with_car, Prisma.saved_of_user.
  rewrite list_elem_of_omap. split.
  - intros (s' & Hs' & Hf).
    destruct (Prisma.car_findUnique (UserSavedCar.carId s') (car w)) as [c'|] eqn:E;
      [|discriminate].
    injection Hf as <- <-.
    rewrite merge_sort_Permutation, list_elem_of_In, filter_In, <- list_elem_of_In in Hs'.
    destruct Hs' as [Hin Hu]. by apply String.eqb_eq in Hu.
  - intros (Hin & Hu & Hf). exists s. split; [|by rewrite Hf].
    rewrite merge_sort_Permutation, list_elem_of_In, filter_In, <- list_elem_of_In.
    split; [done | by apply String.eqb_eq].
Qed.

Lemma omap_with_car_fst (find : UserSavedCar.t -> option Car.t) l :
  map fst (omap (fun s => option_map (pair s) (find s)) l)
  = List.filter (fun s => match find s with Some _ => true | None => false end) l.
Proof.
  induction l as [|s l IH]; [done|]. cbn. destruct (find s); cbn; by rewrite IH.
Qed.

Lemma omap_with_car_shown w l :
  Forall2 (shown_for w)
    (map fst (omap (fun s => option_map (pair s)
                               (Prisma.car_findUnique (UserSavedCar.carId s) (car w))) l))
    (map (fun s => serializeCarData (snd s) false)
       (omap (fun s => option_map (pair s)
                         (Prisma.car_findUnique (UserSavedCar.carId s) (car w))) l)).
Proof.
  induction l as [|s l IH]; [constructor|]. cbn.
  destruct (Prisma.car_findUnique (UserSavedCar.carId s) (car w)) as [c|] eqn:E; cbn;
    [|exact IH].
  constructor; [|exact IH]. by exists c.
Qed.

(** X9. [getSavedCars] answers "Unauthorized" without a resolvable caller
    and reads no saved row then; for a caller with a user record it
    succeeds with one item for each saved row of that caller whose car is
    stored, and for no other row, each item being that car with its saved
    flag false, in the order of the rows, latest saved first. *)
Theorem getSavedCars_lists_saved (w : World) :
  match caller w with
  | None => denies CarListing.getSavedCars w "Unauthorized" []
  | Some usr =>
      exists rows items,
        result CarListing.getSavedCars w = Normal (succeed items) /\
        Forall2 (shown_for w) rows items /\
        StronglySorted saved_later rows /\
        (forall s, s ∈ rows <->
           s ∈ userSavedCar w /\ UserSavedCar.userId s = User.id usr /\ car_stored w s)
  end.
Proof.
  pose proof (getSavedCars_run w) as H. destruct (caller w) as [usr|].
  - exists (map fst (CarListing.saved_with_car (User.id usr) w)),
           (map (fun s => serializeCarData (snd s) false)
              (CarListing.saved_with_car (User.id usr) w)).
    split; [unfold result; by rewrite H|]. split; [apply omap_with_car_shown|]. split.
    + unfold CarListing.saved_with_car. rewrite omap_with_car_fst.
      apply (StronglySorted_filter_impl
               (fun a b => Is_true (UserSavedCar.savedAt b <=? UserSavedCar.savedAt a))).
      * intros a b Hab. by apply Is_true_true, Z.leb_le in Hab.
      * apply (StronglySorted_merge_sort _).
    + intros s. rewrite list_elem_of_fmap. unfold car_stored. split.
      * intros ([s' c] & -> & Hin). apply saved_with_car_elem_of in Hin as (? & ? & Hf).
        cbn. by rewrite Hf.
      * intros (Hin & Hu & [c Hf]). exists (s, c). split; [done|].
        by apply saved_with_car_elem_of.
  - apply denies_intro. by rewrite app_nil_r.
Qed.

Lemma car_findUnique_id carId rows c :
  Prisma.car_findUnique carId rows = Some c -> Car.id c = carId.
Proof.
  unfold Prisma.car_findUnique. intros H. apply find_some in H as [_ H].
  by apply String.eqb_eq.
Qed.

Lemma getSavedCars_items w usr :
  caller w = Some usr ->
  result CarListing.getSavedCars w
  = Normal (succeed (map (fun s => serializeCarData (snd s) false)
                       (CarListing.saved_with_car (User.id usr) w))).
Proof. intros Hc. unfold result. by rewrite getSavedCars_run, Hc. Qed.

Lemma saved_item_elem_of userId w c :
  serializeCarData c false
    ∈ map (fun s => serializeCarData (snd s) false) (CarListing.saved_with_car userId w) <->
  exists s c', s ∈ userSavedCar w /\ UserSavedCar.userId s = userId /\
               Prisma.car_findUnique (UserSavedCar.carId s) (car w) = Some c' /\
               serializeCarData c' false = serializeCarData c false.
Proof.
  rewrite list_elem_of_fmap. split.
  - intros ([s c'] & Heq & Hin). apply saved_with_car_elem_of in Hin as (? & ? & ?).
    by exists s, c'.
  - intros (s & c' & Hin & Hu & Hf & Heq). exists (s, c'). split; [done|].
    by apply saved_with_car_elem_of.
Qed.

Lemma elem_of_same_pair userId carId rows :
  existsb (Prisma.same_pair userId carId) rows = true <->
  exists s, s ∈ rows /\ UserSavedCar.userId s = userId /\ UserSavedCar.carId s = carId.
Proof.
  rewrite existsb_exists. split.
  - intros (s & Hin & Hp). apply same_pair_iff in Hp. exists s.
    split; [by apply list_elem_of_In | done].
  - intros (s & Hin & Hp). exists s. split; [by apply list_elem_of_In|].
    by apply same_pair_iff.
Qed.

Lemma elem_of_pair_filter userId carId rows s :
  s ∈ List.filter (Prisma.same_pair userId carId) rows <->
  s ∈ rows /\ UserSavedCar.userId s = userId /\ UserSavedCar.carId s = carId.
Proof. by rewrite list_elem_of_In, filter_In, <- list_elem_of_In, same_pair_iff. Qed.

Section AfterToggle.
Context (w : World) (usr : User.t) (carId : string) (theCar : Car.t).
Context (Hcaller : caller w = Some usr).
Context (Hcar : Prisma.car_findUnique carId (car w) = Some theCar).

Lemma after_toggle :
  caller (after (CarListing.toggleSavedCar carId) w) = Some usr /\
  car (after (CarListing.toggleSavedCar carId) w) = car w /\
  userSavedCar (after (CarListing.toggleSavedCar carId) w)
  = toggled_rows (User.id usr) carId w.
Proof.
  unfold after. rewrite (toggle_run w usr carId theCar Hcaller Hcar). cbn [snd].
  rewrite caller_logged, caller_set_userSavedCar, caller_logged.
  rewrite car_logged, car_set_userSavedCar, car_logged.
  by rewrite userSavedCar_logged, userSavedCar_set.
Qed.
End AfterToggle.

(** X10. The wishlist shows what the toggle did.  After a caller with a
    user record has toggled a stored car, [getSavedCars] for that caller
    lists the car exactly when it was not saved before the toggle, and
    lists every car of another id exactly when it did before. *)
Theorem toggleSavedCar_then_getSavedCars
    (w : World) (usr : User.t) (carId : string) (theCar : Car.t) :
  caller w = Some usr ->
  Prisma.car_findUnique carId (car w) = Some theCar ->
  exists before after_toggle,
    result CarListing.getSavedCars w = Normal (succeed before) /\
    result CarListing.getSavedCars (after (CarListing.toggleSavedCar carId) w)
    = Normal (succeed after_toggle) /\
    (serializeCarData theCar false ∈ after_toggle <->
       wishlisted (User.id usr) carId w = false) /\
    (forall c, Car.id c <> carId ->
       serializeCarData c false ∈ after_toggle <-> serializeCarData c false ∈ before).
Proof.
  intros Hc Hcar.
  destruct (after_toggle w usr carId theCar Hc Hcar) as (Hc' & Hcars & Hrows).
  eexists _, _. split; [apply (getSavedCars_items w usr Hc)|].
  split; [apply (getSavedCars_items _ usr Hc')|].
  pose proof (car_findUnique_id _ _ _ Hcar) as Hid.
  split.
  - rewrite saved_item_elem_of, Hcars, Hrows.
    rewrite <- (negb_true_iff (wishlisted _ _ _)), <- toggled_membership, elem_of_same_pair.
    split.
    + intros (s & c' & Hin & Hu & Hf & Heq). exists s. split_and!; [done..|].
      apply car_findUnique_id in Hf.
      apply (f_equal SerializedCar.id) in Heq. cbn in Heq. congruence.
    + intros (s & Hin & Hu & Hk). exists s, theCar. split_and!; [done..| |done].
      by rewrite Hk.
  - intros c Hne. rewrite !saved_item_elem_of, Hcars, Hrows.
    assert (forall s c', Prisma.car_findUnique (UserSavedCar.carId s) (car w) = Some c' ->
              serializeCarData c' false = serializeCarData c false ->
              (s ∈ toggled_rows (User.id usr) carId w /\
               UserSavedCar.userId s = User.id usr <->
               s ∈ userSavedCar w /\ UserSavedCar.userId s = User.id usr)) as Hsame.
    { intros s c' Hf Heq. apply car_findUnique_id in Hf.
      apply (f_equal SerializedCar.id) in Heq. cbn in Heq.
      assert ((User.id usr, UserSavedCar.carId s) <> (User.id usr, carId)) as Hpair
        by congruence.
      pose proof (toggled_others (User.id usr) carId _ _ w Hpair) as Hfilter.
      pose proof (elem_of_pair_filter (User.id usr) (UserSavedCar.carId s)
                    (toggled_rows (User.id usr) carId w) s) as H1.
      pose proof (elem_of_pair_filter (User.id usr) (UserSavedCar.carId s)
                    (userSavedCar w) s) as H2.
      rewrite Hfilter in H1. tauto. }
    split; intros (s & c' & Hin & Hu & Hf & Heq); exists s, c';
      (split_and!; [|done..]); by apply (Hsame s c' Hf Heq).
Qed.

Lemma saved_ids_wishlisted w usr k :
  caller w = Some usr ->
  bool_decide (k ∈ saved_ids w) = wishlisted (User.id usr) k w.
Proof.
  intros Hc. unfold saved_ids, wishlisted. rewrite Hc.
  assert (k ∈ (list_to_set (map UserSavedCar.carId
                              (Prisma.saved_of_user (User.id usr) (userSavedCar w)))
               : gset string)
          <-> existsb (Prisma.same_pair (User.id usr) k) (userSavedCar w) = true) as Hiff.
  { rewrite elem_of_list_to_set, list_elem_of_fmap, elem_of_same_pair.
    unfold Prisma.saved_of_user. split.
    - intros (s & -> & Hin).
      rewrite list_elem_of_In, filter_In, <- list_elem_of_In, String.eqb_eq in Hin.
      destruct Hin as [Hin Hu]. by exists s.
    - intros (s & Hin & Hu & Hk). exists s. split; [done|].
      by rewrite list_elem_of_In, filter_In, <- list_elem_of_In, String.eqb_eq. }
  destruct (existsb _ (userSavedCar w)) eqn:E.
  - apply bool_decide_eq_true. by apply Hiff.
  - apply bool_decide_eq_false. intros Hin. apply Hiff in Hin. discriminate.
Qed.

(** X11. A caller with a user record sees their own wishlist, and only
    their own: every item [getCars] returns carries a saved flag that is
    true exactly when the table has a row for this caller and that car,
    and [getCarById] of a stored car succeeds with the car and the flag
    decided in the same way; rows of other users play no part. *)
Theorem caller_sees_own_wishlist
    (w : World) (usr : User.t) (p : CarListing.Params) (carId : string) (theCar : Car.t) :
  caller w = Some usr ->
  Prisma.car_findUnique carId (car w) = Some theCar ->
  (exists r,
     result (CarListing.getCars p) w = Normal r /\
     (forall items, data (CarListing.reply r) = Some items ->
        forall item, item ∈ items ->
          SerializedCar.wishlisted item
          = wishlisted (User.id usr) (SerializedCar.id item) w)) /\
  (exists details,
     result (CarListing.getCarById carId) w = Normal (succeed details) /\
     CarListing.details details
     = serializeCarData theCar (wishlisted (User.id usr) carId w)).
Proof.
  intros Hc Hcar. split.
  - unfold result. rewrite getCars_run.
    destruct (Prisma.car_findMany _ _ _ _ _) as [cars|]; cbn [fst].
    + eexists. split; [reflexivity|]. cbn. intros items [= <-] item Hin.
      apply list_elem_of_fmap in Hin as (c & -> & _).
      unfold serialize_for. cbn. by apply saved_ids_wishlisted.
    + eexists. split; [reflexivity|]. cbn. discriminate.
  - unfold result. rewrite getCarById_run, Hcar, Hc. cbn [fst].
    eexists. split; reflexivity.
Qed.

Lemma caller_sees_own_wishlist_witness :
  exists r items details,
    result (CarListing.getCars (CarListing.defaults)) Sample.bob_two_saved = Normal r /\
    data (CarListing.reply r) = Some items /\
    map (fun i => (SerializedCar.id i, SerializedCar.wishlisted i)) items
    = [("c07", true); ("c01", true)] /\
    result (CarListing.getCarById "c09") Sample.bob_two_saved = Normal (succeed details) /\
    SerializedCar.wishlisted (CarListing.details details) = false.
Proof.
  destruct (caller_sees_own_wishlist Sample.bob_two_saved Sample.bob CarListing.defaults
              "c09" (Sample.a_car "c09" "Audi" (9000 # 1) "SOLD" 9))
    as ((r & Hr & _) & (details & Hd & Hflag)); [reflexivity | reflexivity |].
  exists r, (match data (CarListing.reply r) with Some l => l | None => [] end), details.
  vm_compute in Hr. injection Hr as <-.
  split; [vm_compute; reflexivity|]. split; [reflexivity|]. split; [reflexivity|].
  split; [exact Hd|]. rewrite Hflag. reflexivity.
Defined.

#[global] Instance booking_created_total :
  Total (fun a b => Is_true (TestDriveBooking.createdAt b <=? TestDriveBooking.createdAt a)).
Proof.
  intros a b.
  destruct (Z.le_ge_cases (TestDriveBooking.createdAt a) (TestDriveBooking.createdAt b)).
  - right. by apply Is_true_true, Z.leb_le.
  - left. by apply Is_true_true, Z.leb_le.
Qed.

#[global] Instance booking_created_transitive :
  Transitive (fun a b => Is_true (TestDriveBooking.createdAt b <=? TestDriveBooking.createdAt a)).
Proof.
  intros a b c Hab Hbc. apply Is_true_true, Z.leb_le in Hab, Hbc.
  apply Is_true_true, Z.leb_le. lia.
Qed.

Lemma active_booking_filter carId userId b :
  String.eqb (TestDriveBooking.carId b) carId
  && String.eqb (TestDriveBooking.userId b) userId
  && Admin.includes ["PENDING"; "CONFIRMED"; "COMPLETED"] (TestDriveBooking.status b) = true
  <-> active_booking carId userId b.
Proof.
  unfold active_booking.
  rewrite !andb_true_iff, !String.eqb_eq, includes_elem_of. tauto.
Qed.

Lemma existing_test_drive_Some carId userId rows b :
  CarListing.existing_test_drive carId userId rows = Some b ->
  b ∈ rows /\ active_booking carId userId b /\
  forall b', b' ∈ rows -> active_booking carId userId b' ->
    TestDriveBooking.createdAt b' <= TestDriveBooking.createdAt b.
Proof.
  unfold CarListing.existing_test_drive.
  set (R := fun a b => Is_true (TestDriveBooking.createdAt b <=? TestDriveBooking.createdAt a)).
  set (p := fun b => _ && _ && _).
  pose proof (merge_sort_Permutation R (List.filter p rows)) as Hperm.
  pose proof (StronglySorted_merge_sort R (List.filter p rows)) as Hsorted.
  destruct (merge_sort R (List.filter p rows)) as [|x l] eqn:E; [discriminate|].
  intros [= ->].
  assert (forall b', b' ∈ b :: l <-> b' ∈ rows /\ active_booking carId userId b') as Hin.
  { intros b'. rewrite Hperm, list_elem_of_In, filter_In, <- list_elem_of_In.
    subst p. cbv beta. by rewrite active_booking_filter. }
  assert (b ∈ b :: l) as Hhead by (apply elem_of_cons; by left).
  destruct (proj1 (Hin b) Hhead) as [Hb Hact].
  split; [done|]. split; [done|].
  intros b' Hb' Hact'. apply StronglySorted_inv in Hsorted as [_ Hall].
  pose proof (proj2 (Hin b') (conj Hb' Hact')) as Hl.
  apply elem_of_cons in Hl as [->|Hl]; [lia|].
  apply list_elem_of_In in Hl. apply (proj1 (List.Forall_forall _ _) Hall) in Hl.
  by apply Is_true_true, Z.leb_le in Hl.
Qed.

Lemma existing_test_drive_None carId userId rows :
  CarListing.existing_test_drive carId userId rows = None ->
  forall b, b ∈ rows -> ~ active_booking carId userId b.
Proof.
  unfold CarListing.existing_test_drive.
  set (R := fun a b => Is_true (TestDriveBooking.createdAt b <=? TestDriveBooking.createdAt a)).
  set (p := fun b => _ && _ && _).
  pose proof (merge_sort_Permutation R (List.filter p rows)) as Hperm.
  destruct (merge_sort R (List.filter p rows)) as [|x l] eqn:E; [|discriminate].
  intros _ b Hb Hact.
  assert (b ∈ List.filter p rows) as Hin.
  { rewrite list_elem_of_In, filter_In, <- list_elem_of_In. split; [done|].
    subst p. cbv beta. by apply active_booking_filter. }
  rewrite <- Hperm in Hin. by apply elem_of_nil in Hin.
Qed.

(** X12. For a caller with a user record, [getCarById] of a stored car
    reports as [userTestDrive] the caller's own pending, confirmed or
    completed booking of that car that was created last (its id, status
    and date), and reports none exactly when the caller has no such
    booking; cancelled bookings, no-shows and bookings of other users or
    other cars are never reported. *)
Theorem getCarById_reports_latest_booking
    (w : World) (usr : User.t) (carId : string) (theCar : Car.t) :
  caller w = Some usr ->
  Prisma.car_findUnique carId (car w) = Some theCar ->
  exists details,
    result (CarListing.getCarById carId) w = Normal (succeed details) /\
    match CarListing.userTestDrive (CarListing.testDriveInfo details) with
    | Some td =>
        exists b,
          b ∈ testDriveBooking w /\ active_booking carId (User.id usr) b /\
          td = CarListing.mkUserTestDrive (TestDriveBooking.id b) (TestDriveBooking.status b)
                 (toISOString (TestDriveBooking.bookingDate b)) /\
          forall b', b' ∈ testDriveBooking w -> active_booking carId (User.id usr) b' ->
            TestDriveBooking.createdAt b' <= TestDriveBooking.createdAt b
    | None =>
        forall b, b ∈ testDriveBooking w -> ~ active_booking carId (User.id usr) b
    end.
Proof.
  intros Hc Hcar. unfold result. rewrite getCarById_run, Hcar, Hc. cbn [fst].
  eexists. split; [reflexivity|]. cbn.
  destruct (CarListing.existing_test_drive carId (User.id usr) (testDriveBooking w))
    as [b|] eqn:E; cbn.
  - apply existing_test_drive_Some in E as (Hb & Hact & Hlast). by exists b.
  - by apply existing_test_drive_None.
Qed.

Lemma getCarById_reports_latest_booking_witness :
  exists details,
    result (CarListing.getCarById "c1") Sample.bob_diary = Normal (succeed details) /\
    CarListing.userTestDrive (CarListing.testDriveInfo details)
    = Some (CarListing.mkUserTestDrive "b3" "COMPLETED" (toISOString 100)).
Proof.
  destruct (getCarById_reports_latest_booking Sample.bob_diary Sample.bob "c1"
              (Sample.a_car "c1" "Toyota" (20000 # 1) "AVAILABLE" 1))
    as (details & Hd & _); [reflexivity | reflexivity |].
  exists details. split; [exact Hd|].
  vm_compute in Hd. injection Hd as <-. reflexivity.
Defined.

(* ===================================================================== *)
(** * The dashboard's counts                                              *)
(* ===================================================================== *)

Lemma count_none {A} (p : A -> bool) l :
  (forall x, x ∈ l -> p x = false) -> Admin.count p l = 0%nat.
Proof.
  intros H. unfold Admin.count. induction l as [|x l IH]; [done|]. simpl.
  rewrite (H x) by (apply elem_of_cons; by left).
  apply IH. intros y Hy. apply H, elem_of_cons. by right.
Qed.

Lemma td_counts_partition (rows : list Admin.TestDriveSel) :
  (Admin.count (Admin.td_is "PENDING") rows
   + Admin.count (Admin.td_is "CONFIRMED") rows
   + Admin.count (Admin.td_is "COMPLETED") rows
   + Admin.count (Admin.td_is "CANCELLED") rows
   + Admin.count (Admin.td_is "NO_SHOW") rows
   + Admin.count (fun td => negb (Admin.includes Admin.validStatuses (Admin.td_status td)))
       rows
   = length rows)%nat.
Proof.
  unfold Admin.count, Admin.td_is. induction rows as [|td rows IH]; [done|].
  cbn [List.filter length].
  destruct (String.eqb_spec (Admin.td_status td) "PENDING") as [->|H1]; [cbn in *; lia|].
  destruct (String.eqb_spec (Admin.td_status td) "CONFIRMED") as [->|H2]; [cbn in *; lia|].
  destruct (String.eqb_spec (Admin.td_status td) "COMPLETED") as [->|H3]; [cbn in *; lia|].
  destruct (String.eqb_spec (Admin.td_status td) "CANCELLED") as [->|H4]; [cbn in *; lia|].
  destruct (String.eqb_spec (Admin.td_status td) "NO_SHOW") as [->|H5]; [cbn in *; lia|].
  assert (Admin.includes Admin.validStatuses (Admin.td_status td) = false) as ->.
  { destruct (Admin.includes _ _) eqn:E; [|done]. apply includes_elem_of in E.
    repeat (apply elem_of_cons in E as [E|E]; [congruence|]). by apply elem_of_nil in E. }
  cbn in *. lia.
Qed.

Lemma car_counts_partition (rows : list Admin.CarSel) :
  (Admin.count (Admin.car_is "AVAILABLE") rows
   + Admin.count (Admin.car_is "SOLD") rows
   + Admin.count (Admin.car_is "UNAVAILABLE") rows
   + Admin.count (fun c => negb (Admin.includes ["AVAILABLE"; "SOLD"; "UNAVAILABLE"]
                                   (Admin.c_status c))) rows
   = length rows)%nat.
Proof.
  unfold Admin.count, Admin.car_is. induction rows as [|c rows IH]; [done|].
  cbn [List.filter length].
  destruct (String.eqb_spec (Admin.c_status c) "AVAILABLE") as [->|H1]; [cbn in *; lia|].
  destruct (String.eqb_spec (Admin.c_status c) "SOLD") as [->|H2]; [cbn in *; lia|].
  destruct (String.eqb_spec (Admin.c_status c) "UNAVAILABLE") as [->|H3]; [cbn in *; lia|].
  assert (Admin.includes ["AVAILABLE"; "SOLD"; "UNAVAILABLE"] (Admin.c_status c) = false)
    as ->.
  { destruct (Admin.includes _ _) eqn:E; [|done]. apply includes_elem_of in E.
    repeat (apply elem_of_cons in E as [E|E]; [congruence|]). by apply elem_of_nil in E. }
  cbn in *. lia.
Qed.

(** X13. The counts of the dashboard add up.  For an administrator both
    variants report the same counts; the totals are the sizes of the two
    tables; the three car counts together never exceed the total, nor do
    the five booking counts; and the five booking counts make up the
    total exactly when every stored booking has one of the five
    statuses. *)
Theorem getDashboardData_counts (w : World) (u : User.t) :
  caller w = Some u ->
  User.role u = "ADMIN" ->
  exists js ts,
    result AdminJs.getDashboardData w = Normal (succeed js) /\
    result AdminTs.getDashboardData w = Normal (succeed ts) /\
    Admin.cars js = Admin.cars ts /\
    Admin.total (Admin.cars js) = length (car w) /\
    Admin.td_total (Admin.testDrives js) = length (testDriveBooking w) /\
    Admin.td_total (Admin.testDrives ts) = length (testDriveBooking w) /\
    (Admin.available (Admin.cars js) + Admin.sold (Admin.cars js)
     + Admin.unavailable (Admin.cars js) <= Admin.total (Admin.cars js))%nat /\
    (forall d, d = Admin.testDrives js \/ d = Admin.testDrives ts ->
       (Admin.pending d + Admin.confirmed d + Admin.completed d + Admin.cancelled d
        + Admin.noShow d <= Admin.td_total d)%nat /\
       (statuses_valid (testDriveBooking w) <->
        (Admin.pending d + Admin.confirmed d + Admin.completed d + Admin.cancelled d
         + Admin.noShow d = Admin.td_total d)%nat)).
Proof.
  intros Hc Hr. pose proof (admin_caller_Some _ _ Hc Hr) as Hadmin.
  eexists _, _. unfold result.
  rewrite (dashboard_js_run w u Hadmin), (dashboard_ts_run w u Hadmin). cbn [fst].
  split; [reflexivity|]. split; [reflexivity|]. split; [reflexivity|].
  split; [cbn; by rewrite length_map|].
  split; [cbn; by rewrite length_map|].
  split; [cbn; by rewrite length_map|].
  split.
  - cbn. pose proof (car_counts_partition (map Admin.select_car (car w))). lia.
  - assert (statuses_valid (testDriveBooking w) <->
            Admin.count
              (fun td => negb (Admin.includes Admin.validStatuses (Admin.td_status td)))
              (map Admin.select_testDrive (testDriveBooking w)) = 0%nat) as Hother.
    { split.
      - intros Hv. apply count_none. intros td Htd.
        apply list_elem_of_fmap in Htd as (b & -> & Hb). cbn [Admin.select_testDrive Admin.td_status].
        apply negb_false_iff. apply includes_elem_of. by apply Hv.
      - intros H0 b Hb. apply includes_elem_of.
        destruct (Admin.includes Admin.validStatuses (TestDriveBooking.status b)) eqn:E;
          [done|].
        unfold Admin.count in H0.
        assert (Admin.select_testDrive b
                  ∈ List.filter
                      (fun td => negb (Admin.includes Admin.validStatuses
                                         (Admin.td_status td)))
                      (map Admin.select_testDrive (testDriveBooking w))) as Hin.
        { rewrite list_elem_of_In, filter_In, <- list_elem_of_In. split.
          - apply list_elem_of_fmap. by exists b.
          - cbn [Admin.select_testDrive Admin.td_status]. by rewrite E. }
        destruct (List.filter _ _); [by apply elem_of_nil in Hin | discriminate]. }
    pose proof (td_counts_partition (map Admin.select_testDrive (testDriveBooking w))) as Hp.
    intros d [-> | ->]; cbn; (split; [lia|]); rewrite Hother; lia.
Qed.

Lemma getDashboardData_counts_witness :
  exists js,
    result AdminJs.getDashboardData Sample.diary = Normal (succeed js) /\
    Admin.td_total (Admin.testDrives js) = 3%nat /\
    (Admin.pending (Admin.testDrives js) + Admin.confirmed (Admin.testDrives js)
     + Admin.completed (Admin.testDrives js) + Admin.cancelled (Admin.testDrives js)
     + Admin.noShow (Admin.testDrives js) = 3)%nat.
Proof.
  destruct (getDashboardData_counts Sample.diary Sample.ada)
    as (js & ts & Hjs & _ & _ & _ & Htotal & _ & _ & Hsum); [reflexivity | reflexivity |].
  exists js. split; [exact Hjs|]. split; [exact Htotal|].
  destruct (Hsum (Admin.testDrives js) (or_introl eq_refl)) as [_ Hiff].
  rewrite Htotal in Hiff. apply Hiff.
  intros b Hb. apply includes_elem_of.
  repeat (apply elem_of_cons in Hb as [->|Hb]; [reflexivity|]). by apply elem_of_nil in Hb.
Defined.

(* ===================================================================== *)
(** * The listing does not depend on who asks                             *)
(* ===================================================================== *)

(** X14. What the marketplace shows depends on the car table alone.  On
    two stores with the same cars, whoever is signed in and whatever is
    saved or booked, [getCars] gives the same cars in the same order with
    the same pagination, the items differing in their saved flags at
    most, and [getCarFilters] gives the same answer; [getCarFilters] does
    not even ask who the caller is. *)
Theorem listing_depends_on_cars_only {engine : Js.LowerCase}
    (w w' : World) (p : CarListing.Params) :
  car w' = car w ->
  (exists r r',
     result (CarListing.getCars p) w = Normal r /\
     result (CarListing.getCars p) w' = Normal r' /\
     public_part r = public_part r') /\
  result CarListing.getCarFilters w' = result CarListing.getCarFilters w /\
  AuthCall ∉ effects CarListing.getCarFilters w.
Proof.
  intros Hcars. split_and!.
  - unfold result. rewrite !getCars_run, Hcars.
    destruct (Prisma.car_findMany _ _ _ _ _) as [cars|]; cbn [fst].
    + eexists _, _. split; [reflexivity|]. split; [reflexivity|].
      unfold public_part. cbn. rewrite !map_map. reflexivity.
    + eexists _, _. split; [reflexivity|]. split; reflexivity.
  - by rewrite !getCarFilters_run, Hcars.
  - unfold effects. rewrite getCarFilters_world, trace_logged, drop_app_length.
    intros Hin. repeat (apply elem_of_cons in Hin as [Hin|Hin]; [discriminate|]).
    by apply elem_of_nil in Hin.
Qed.

Lemma listing_depends_on_cars_only_witness :
  exists r r',
    result (CarListing.getCars CarListing.defaults) Sample.bob_two_saved = Normal r /\
    result (CarListing.getCars CarListing.defaults)
      (Sample.world None (car Sample.bob_two_saved) [] []) = Normal r' /\
    r <> r' /\ public_part r = public_part r'.
Proof.
  destruct (listing_depends_on_cars_only (engine := Sample.ascii_engine)
              Sample.bob_two_saved (Sample.world None (car Sample.bob_two_saved) [] [])
              CarListing.defaults eq_refl)
    as ((r & r' & Hr & Hr' & Hsame) & _).
  exists r, r'. split; [exact Hr|]. split; [exact Hr'|]. split; [|exact Hsame].
  vm_compute in Hr, Hr'. injection Hr as <-. injection Hr' as <-. discriminate.
Defined.

Lemma getAdminTestDrives_order_witness :
  exists listed,
    result (AdminTs.getAdminTestDrives "" "") Sample.diary = Normal (succeed listed) /\
    map Admin.Formatted.id listed = ["b2"; "b3"; "b1"] /\
    Sorted listed_before listed.
Proof.
  destruct (getAdminTestDrives_order Sample.diary Sample.ada "" "")
    as (listed & _ & Hts & Hsorted); [reflexivity | reflexivity |].
  exists listed. split; [exact Hts|]. split; [|exact Hsorted].
  vm_compute in Hts. injection Hts as <-. reflexivity.
Defined.

(* ===================================================================== *)
(** * The text filters of the listing                                     *)
(* ===================================================================== *)

Lemma getCars_returns p w : exists r, result (CarListing.getCars p) w = Normal r.
Proof.
  unfold result. rewrite getCars_run.
  destruct (Prisma.car_findMany _ _ _ _ _); cbn [fst]; by eexists.
Qed.

Lemma insensitive_equals_passes given stored :
  Prisma.absent_or (fun f => Prisma.string_matches f stored)
    (CarListing.insensitive_equals given) = true ->
  passes given stored.
Proof.
  unfold CarListing.insensitive_equals, CarListing.present, passes, equals_insensitive.
  destruct (String.eqb_spec given ""); cbn; auto.
Qed.

(** X15. The text filters of [getCars] are all applied, and an empty one
    is none: every item returned is a stored car that passes the store's
    case-insensitive [equals] test for each of make, bodyType, fuelType
    and transmission that is given, and, when a search text is given,
    passes the store's [contains] test for it in its make, its model or
    its description. *)
Theorem getCars_filters_sound (w : World) (p : CarListing.Params) :
  exists r,
    result (CarListing.getCars p) w = Normal r /\
    forall items, data (CarListing.reply r) = Some items ->
      forall item, item ∈ items ->
        exists c,
          c ∈ car w /\ item = serialize_for w c /\
          (CarListing.search p = "" \/
           contains_insensitive (CarListing.search p) (Car.make c) \/
           contains_insensitive (CarListing.search p) (Car.model c) \/
           contains_insensitive (CarListing.search p) (Car.description c)) /\
          passes (CarListing.make p) (Car.make c) /\
          passes (CarListing.bodyType p) (Car.bodyType c) /\
          passes (CarListing.fuelType p) (Car.fuelType c) /\
          passes (CarListing.transmission p) (Car.transmission c).
Proof.
  destruct (getCars_returns p w) as [r Hr]. exists r. split; [exact Hr|].
  intros items Hitems item Hin.
  destruct (getCars_items p w r items Hr Hitems item Hin) as (c & Hc & Hm & ->).
  exists c. split; [exact Hc|]. split; [reflexivity|].
  unfold Prisma.car_matches, CarListing.build_where in Hm.
  cbn [Prisma.w_status Prisma.w_OR Prisma.w_make Prisma.w_bodyType Prisma.w_fuelType
       Prisma.w_transmission Prisma.w_price] in Hm.
  rewrite !andb_true_iff in Hm.
  destruct Hm as ((((((_ & Hsearch) & Hmake) & Hbody) & Hfuel) & Htrans) & _).
  split_and!; try by apply insensitive_equals_passes.
  unfold CarListing.present in Hsearch.
  destruct (String.eqb_spec (CarListing.search p) ""); [by left|]. right.
  cbn in Hsearch. rewrite orb_false_r, !orb_true_iff in Hsearch.
  unfold contains_insensitive. cbn. tauto.
Qed.

(** X16. [getCarById] of a car id that is not stored answers "Car not
    found" to every caller, changes nothing and reads the car table only
    (after resolving the caller): neither the saved cars, nor the
    bookings, nor the dealership. *)
Theorem getCarById_not_found (w : World) (carId : string) :
  Prisma.car_findUnique carId (car w) = None ->
  denies (CarListing.getCarById carId) w "Car not found" [DbRead CarTable].
Proof.
  intros Hcar. apply denies_intro. by rewrite getCarById_run, Hcar.
Qed.

Lemma getCarById_not_found_witness :
  result (CarListing.getCarById "c99") Sample.bob_two_saved = Normal (fail "Car not found") /\
  effects (CarListing.getCarById "c99") Sample.bob_two_saved
  = [AuthCall; DbRead UserTable; DbRead CarTable].
Proof.
  destruct (getCarById_not_found Sample.bob_two_saved "c99" eq_refl) as (Hr & _ & He).
  split; [exact Hr | exact He].
Defined.

Lemma toggleSavedCar_then_getSavedCars_witness :
  exists before after_toggle,
    result CarListing.getSavedCars Sample.bob_two_saved = Normal (succeed before) /\
    result CarListing.getSavedCars
      (after (CarListing.toggleSavedCar "c07") Sample.bob_two_saved)
    = Normal (succeed after_toggle) /\
    map SerializedCar.id before = ["c01"; "c07"] /\
    map SerializedCar.id after_toggle = ["c01"].
Proof.
  destruct (toggleSavedCar_then_getSavedCars Sample.bob_two_saved Sample.bob "c07"
              (Sample.a_car "c07" "Kia" (7000 # 1) "AVAILABLE" 7))
    as (before & after_toggle & Hb & Ha & _); [reflexivity | reflexivity |].
  exists before, after_toggle. split; [exact Hb|]. split; [exact Ha|].
  vm_compute in Hb, Ha. injection Hb as <-. injection Ha as <-. split; reflexivity.
Defined.
